(** * Laniakea: archive import and repository reading

    A shallow embedding of the package importer
    ([src/laniakea/archive/pkgimport.py]) and of the repository reader
    ([src/laniakea/reporeader.py]), with the properties of the design
    document stated and settled against it, and of parts of the
    dependency checker ([src/debcheck/dose.py]), the message publisher
    ([src/mirk/msgpublish.py]) and the database layer
    ([src/laniakea/db]), with properties read off the code.

    Conventions of the embedding:
    - a Python [str] is a Rocq [string]; a character is a code point
      below 256;
    - a raised exception is the left summand of [Result]; code that
      mutates the database session or the file system is a function
      from the archive state to an outcome and the state afterwards
      (the state an exception leaves behind is kept);
    - the file system is one map from paths to contents; the uploads,
      the pool and the NEW queue are reached through the names the code
      builds with [os.path.join], resolved as the operating system
      resolves them;
    - helpers of the repository that live outside the embedded modules
      (pool layout, override checks, the control-file renderer, the hash
      primitive, the Debian version order) are fields of the class
      [Capabilities]; what the reader and the publisher call outside
      them are fields of [ReaderHelpers], [RepositoryAccess],
      [PackageLists], [Glob] and [Messaging]. *)

From Stdlib Require Import ZArith Ascii.
From Stdlib Require String.
From stdpp Require Import gmap strings list fin_maps pretty.

Local Open Scope Z_scope.

(** ** Exceptions *)

(** The places where the importer raises [ArchiveImportError], each with
    the values its message is formatted from. *)
Inductive ImportFailure :=
| HigherVersionSeen (pkgname found : string)
| UnknownHashType (hashtype : string)
| ChecksumFailed (hashtype fname hashvalue : string)
| InsufficientHashes
| DestinationExists (fname : string)
| NoSourcePackage (pkgname version : string)
| MissingOverride (pkgname version : string).

Inductive Exception :=
| KeyError (key : string)
| ValueError (what : string)
| NoResultFound
| MultipleResultsFound
| OSError (path : string)
| SameFileError (src dst : string)
| CalledProcessError (cmd : string)
| PlainException (msg : string)
| ArchiveImportError (why : ImportFailure)
| UploadException (msg : string)
| InvalidChangesException (msg : string)
| SignatureException (msg : string).

Definition Result (A : Type) : Type := Exception + A.
Abbreviation Ok x := (@inr Exception _ x).
Abbreviation Raise e := (@inl Exception _ e).

Definition rbind {A B} (m : Result A) (k : A -> Result B) : Result B :=
  match m with
  | inl e => inl e
  | inr x => k x
  end.

Declare Scope result_scope.
Delimit Scope result_scope with result.
Notation "'try' x <- m ; k" := (rbind m (fun x => k))
  (at level 10, x pattern, m at level 100, k at level 200) : result_scope.

#[global] Instance ImportFailure_eq_dec : EqDecision ImportFailure.
Proof. solve_decision. Defined.
#[global] Instance Exception_eq_dec : EqDecision Exception.
Proof. solve_decision. Defined.

(** ** Python strings *)

Module Py.

Definition chars (s : string) : list ascii := String.list_ascii_of_string s.
Definition str (l : list ascii) : string := String.string_of_list_ascii l.

(** [not s] for a string, and for the [None]-or-string that [dict.get]
    returns. *)
Definition falsy (s : string) : bool :=
  match s with EmptyString => true | _ => false end.
Definition falsy_opt (o : option string) : bool :=
  match o with None => true | Some s => falsy s end.

(** [c in s] for a one-character [c]. *)
Definition contains (c : ascii) (s : string) : bool :=
  bool_decide (c ∈ chars s).

(** [s.index(c)]: the first position of [c], [ValueError] without one. *)
Definition index (c : ascii) (s : string) : Result nat :=
  match list_find (λ x, x = c) (chars s) with
  | Some (i, _) => Ok i
  | None => Raise (ValueError "substring not found")
  end.

(** A slice bound: negative bounds count from the end, and every bound
    is clamped into [0, n]. *)
Definition clamp (n : nat) (k : Z) : nat :=
  Z.to_nat (if k <? 0 then Z.max (k + Z.of_nat n) 0 else Z.min k (Z.of_nat n)).

Definition slice_list {A} (l : list A) (i j : Z) : list A :=
  let a := clamp (length l) i in
  let b := clamp (length l) j in
  take (b - a)%nat (drop a l).

(** [s[i:j]] *)
Definition slice (s : string) (i j : Z) : string :=
  str (slice_list (chars s) i j).

(** [str.isspace] on code points below 256. *)
Definition isspace (c : ascii) : bool :=
  let n := nat_of_ascii c in
  ((9 <=? n) && (n <=? 13) || (28 <=? n) && (n <=? 32)
   || (n =? 133) || (n =? 160))%nat.

Fixpoint lstrip_list (l : list ascii) : list ascii :=
  match l with
  | c :: l' => if isspace c then lstrip_list l' else l
  | [] => []
  end.

Definition strip_list (l : list ascii) : list ascii :=
  rev (lstrip_list (rev (lstrip_list l))).

(** [s.strip()] *)
Definition strip (s : string) : string := str (strip_list (chars s)).

Fixpoint is_prefix_list (p l : list ascii) : bool :=
  match p, l with
  | [], _ => true
  | c :: p', d :: l' => bool_decide (c = d) && is_prefix_list p' l'
  | _ :: _, [] => false
  end.

Definition startswith (s p : string) : bool :=
  is_prefix_list (chars p) (chars s).

(** [s.endswith(suffix)] *)
Definition endswith (s suffix : string) : bool :=
  is_prefix_list (rev (chars suffix)) (rev (chars s)).

Fixpoint is_infix_list (p l : list ascii) : bool :=
  is_prefix_list p l ||
  match l with
  | [] => false
  | _ :: l' => is_infix_list p l'
  end.

(** [needle in s] *)
Definition is_infix (needle s : string) : bool :=
  is_infix_list (chars needle) (chars s).

(** [s.split(sep)] for a non-empty separator: [cur] holds the
    characters of the current piece, last first. *)
Fixpoint split_list (sep : list ascii) (cur : list ascii) (l : list ascii)
    (skip : nat) : list (list ascii) :=
  match l with
  | [] => [rev cur]
  | c :: l' =>
      match skip with
      | S k => split_list sep cur l' k
      | O =>
          if is_prefix_list sep l
          then rev cur :: split_list sep [] l' (length sep - 1)
          else split_list sep (c :: cur) l' O
      end
  end.

Definition split (s sep : string) : list string :=
  str <$> split_list (chars sep) [] (chars s) O.

(** [os.path.basename]: what follows the last slash. *)
Fixpoint basename_list (cur : list ascii) (l : list ascii) : list ascii :=
  match l with
  | [] => rev cur
  | c :: l' =>
      if bool_decide (c = "/"%char) then basename_list [] l'
      else basename_list (c :: cur) l'
  end.

Definition basename (p : string) : string := str (basename_list [] (chars p)).

(** [os.path.dirname]: what precedes the last slash, with trailing
    slashes removed unless the head consists of slashes only. *)
Fixpoint rstrip_slashes_rev (r : list ascii) : list ascii :=
  match r with
  | c :: r' => if bool_decide (c = "/"%char) then rstrip_slashes_rev r' else r
  | [] => []
  end.

Definition dirname_list (l : list ascii) : list ascii :=
  let head := take (length l - length (basename_list [] l))%nat l in
  match rstrip_slashes_rev (rev head) with
  | [] => head
  | r => rev r
  end.

Definition dirname (p : string) : string := str (dirname_list (chars p)).

(** [os.path.join] of two components. *)
Definition path_join (a b : string) : string :=
  if startswith b "/" then b
  else if falsy a || endswith a "/" then a +:+ b
  else a +:+ "/" +:+ b.

(** [os.path.splitext(p)[1]]: the extension of the last component,
    from its last dot on; dots that lead the component do not count. *)
Fixpoint drop_leading_dots (l : list ascii) : list ascii :=
  match l with
  | c :: l' => if bool_decide (c = "."%char) then drop_leading_dots l' else l
  | [] => []
  end.

Fixpoint ext_list (cur : option (list ascii)) (l : list ascii) : list ascii :=
  match l with
  | [] => match cur with Some e => rev e | None => [] end
  | c :: l' =>
      if bool_decide (c = "."%char) then ext_list (Some [c]) l'
      else ext_list ((λ e, c :: e) <$> cur) l'
  end.

Definition splitext_ext (p : string) : string :=
  str (ext_list None (drop_leading_dots (basename_list [] (chars p)))).

(** The double quote, for the messages that quote a value. *)
Definition dq : string := String (ascii_of_nat 34) EmptyString.

End Py.

Local Open Scope result_scope.

(** ** The [Source] field of a binary control stanza *)

Abbreviation slash := ("/"%char).
Definition lparen : ascii := "("%char.
Definition rparen : ascii := ")"%char.

(** [RepositoryReader._read_binary_packages_from_tf], the block that
    fills [pkg.source_name] and [pkg.source_version];
    [source_id = e.get('Source')]. *)
Definition reader_source_info (source_id : option string)
    (pkg_name pkg_version : string) : Result (string * string) :=
  match source_id with
  | None => Ok (pkg_name, pkg_version)
  | Some source_id =>
      if Py.falsy source_id then Ok (pkg_name, pkg_version)
      else if Py.contains lparen source_id then
        try i <- Py.index lparen source_id;
        let source_name := Py.strip (Py.slice source_id 0 (Z.of_nat i - 1)) in
        try i1 <- Py.index lparen source_id;
        try i2 <- Py.index rparen source_id;
        let source_version :=
          Py.strip (Py.slice source_id (Z.of_nat i1 + 1) (Z.of_nat i2)) in
        Ok (source_name, source_version)
      else Ok (source_id, pkg_version)
  end.

(** [PackageImporter.import_binary], the block that fills [source_name]
    and [source_version]; [source_info_raw = bin_tf.pop('Source', '')]. *)
Definition importer_source_info (source_info_raw : string)
    (pkgname version : string) : Result (string * string) :=
  if Py.falsy source_info_raw then Ok (pkgname, version)
  else if Py.contains lparen source_info_raw then
    try i <- Py.index lparen source_info_raw;
    let source_name := Py.strip (Py.slice source_info_raw 0 (Z.of_nat i - 1)) in
    try i1 <- Py.index lparen source_info_raw;
    try i2 <- Py.index rparen source_info_raw;
    let source_version :=
      Py.strip (Py.slice source_info_raw (Z.of_nat i1 + 1) (Z.of_nat i2)) in
    Ok (source_name, source_version)
  else Ok (source_info_raw, version).


(** ** Reading a [Packages] index ([reporeader.py]) *)

Inductive DebType := DEB | UDEB.

#[global] Instance DebType_eq_dec : EqDecision DebType.
Proof. solve_decision. Defined.

(** What the reader hands to [log.warning]. *)
Inductive LogRecord :=
| WarnUnexpectedArchitecture (reader pkgname pkgversion arch_name expected : string)
| WarnNoFiles (pkgname pkgversion arch : string).

#[global] Instance LogRecord_eq_dec : EqDecision LogRecord.
Proof. solve_decision. Defined.

(** Helpers the reader imports from modules outside the embedding:
    [laniakea.utils.split_strip], [PackagePriority.from_string] and
    Python's [int] on a string ([None] where it raises [ValueError]). *)
Class ReaderHelpers := {
  PackagePriority : Type;
  priority_from_string : string → PackagePriority;
  split_strip : string → string → list string;
  py_int : string → option Z;
}.

(** A section of a [TagFile]: [e[k]] raises [KeyError] for a missing
    key, [e.get(k)] and [e.get(k, d)] do not. *)
Definition tag_item (e : gmap string string) (k : string) : Result string :=
  match e !! k with
  | Some v => Ok v
  | None => Raise (KeyError k)
  end.

Definition tag_get (e : gmap string string) (k d : string) : string :=
  default d (e !! k).

Record ExternalPackageOverride `{ReaderHelpers} := {
  epo_section : string;
  epo_priority : PackagePriority;
  epo_component : string;
  epo_essential : bool;
}.

Record ReaderFile := {
  rf_fname : string;
  rf_size : Z;
  rf_sha256sum : string;
}.

(** An [ExternalBinaryPackage].  The attribute [suites] is not a field:
    the class declares [suites: list = []] and no instance is given a
    list of its own, so [pkg.suites] is the one list of the class, which
    the listing functions take and return. *)
Record ExternalBinaryPackage `{ReaderHelpers} := {
  ebp_name : string;
  ebp_version : string;
  ebp_deb_type : DebType;
  ebp_repo : string;
  ebp_component : string;
  ebp_architecture : string;
  ebp_maintainer : string;
  ebp_source_name : string;
  ebp_source_version : string;
  ebp_size_installed : Z;
  ebp_depends : list string;
  ebp_pre_depends : list string;
  ebp_homepage : option string;
  ebp_override : ExternalPackageOverride;
  ebp_description : string;
  ebp_description_md5 : option string;
  ebp_bin_file : ReaderFile;
}.

Record RepositoryReader := {
  reader_name : string;
  reader_repo_entity : string;
}.

Section Reader.
Context `{ReaderHelpers}.

Definition int_of (s : string) : Result Z :=
  match py_int s with
  | Some n => Ok n
  | None => Raise (ValueError ("invalid literal for int(): " +:+ s))
  end.

Definition invalid_block (tf_fname : string) : Exception :=
  PlainException
    ("Found invalid block (no Package and Version fields) in Packages file "
     +:+ Py.dq +:+ tf_fname +:+ Py.dq +:+ ".").

(** The body of the loop of [_read_binary_packages_from_tf] from the
    assignment of [pkg.architecture] on, after the suite has been added
    to the list of the class: every field the stanza must or may carry,
    in the order the code reads them.  The package records the
    requested architecture, not the declared one. *)
Definition build_binary_package (self : RepositoryReader)
    (component arch : string) (pkgname pkgversion : string)
    (e : gmap string string)
    : list LogRecord * Result ExternalBinaryPackage :=
  match
    (try maintainer <- tag_item e "Maintainer";
     try source <- reader_source_info (e !! "Source") pkgname pkgversion;
     try size_installed <- int_of (tag_get e "Installed-Size" "0");
     let depends := split_strip (tag_get e "Depends" "") "," in
     let pre_depends := split_strip (tag_get e "Pre-Depends" "") "," in
     try section <- tag_item e "Section";
     try priority <- tag_item e "Priority";
     let override :=
       {| epo_section := section;
          epo_priority := priority_from_string priority;
          epo_component := component;
          epo_essential := bool_decide (tag_get e "Essential" "no" = "yes") |} in
     try description <- tag_item e "Description";
     try filename <- tag_item e "Filename";
     try size <- int_of (tag_get e "Size" "0");
     try sha256 <- tag_item e "SHA256";
     Ok {| ebp_name := pkgname;
           ebp_version := pkgversion;
           ebp_deb_type := if Py.endswith filename ".udeb" then UDEB else DEB;
           ebp_repo := reader_repo_entity self;
           ebp_component := component;
           ebp_architecture := arch;
           ebp_maintainer := maintainer;
           ebp_source_name := source.1;
           ebp_source_version := source.2;
           ebp_size_installed := size_installed;
           ebp_depends := depends;
           ebp_pre_depends := pre_depends;
           ebp_homepage := e !! "Homepage";
           ebp_override := override;
           ebp_description := description;
           ebp_description_md5 := e !! "Description-md5";
           ebp_bin_file :=
             {| rf_fname := filename; rf_size := size; rf_sha256sum := sha256 |} |})
  with
  | inl ex => ([], inl ex)
  | inr pkg =>
      (if Py.falsy (rf_fname (ebp_bin_file pkg))
       then [WarnNoFiles (ebp_name pkg) (ebp_version pkg) arch]
       else [],
       Ok pkg)
  end.

(** One turn of the loop: [Ok None] is [continue], [Ok (Some pkg)] is
    [pkgs.append(pkg)]; the warnings are the ones logged on the way;
    the last component is the list [ExternalBinaryPackage.suites] after
    the turn. *)
Definition read_binary_stanza (self : RepositoryReader) (tf_fname : string)
    (suite component arch : string) (e : gmap string string)
    (class_suites : list string)
    : list LogRecord * Result (option ExternalBinaryPackage) * list string :=
  let requested_arch_is_all := bool_decide (arch = "all") in
  match
    (try pkgname <- tag_item e "Package";
     try pkgversion <- tag_item e "Version";
     if Py.falsy pkgname || Py.falsy pkgversion
     then Raise (invalid_block tf_fname)
     else
       try arch_name <- tag_item e "Architecture";
       Ok (pkgname, pkgversion, arch_name))
    return list LogRecord * Result (option ExternalBinaryPackage) * list string
  with
  | inl ex => ([], inl ex, class_suites)
  | inr (pkgname, pkgversion, arch_name) =>
      if negb requested_arch_is_all && bool_decide (arch_name = "all")
      then ([], Ok None, class_suites)
      else
        let sanity :=
          if bool_decide (arch_name ≠ arch) then
            if requested_arch_is_all && bool_decide (arch_name ≠ "all")
            then None
            else Some [WarnUnexpectedArchitecture (reader_name self)
                         pkgname pkgversion arch_name arch]
          else Some [] in
        match sanity with
        | None => ([], Ok None, class_suites)
        | Some warned =>
            let class_suites :=
              if bool_decide (suite ∈ class_suites) then class_suites
              else class_suites ++ [suite] in
            let '(w, r) :=
              build_binary_package self component arch pkgname pkgversion e in
            (warned ++ w,
             match r with
             | inl ex => inl ex
             | inr pkg => Ok (Some pkg)
             end,
             class_suites)
        end
  end.

(** The loop of [_read_binary_packages_from_tf] over the stanzas that
    remain, with the list [pkgs] built so far; [deb_type] is overwritten
    from the file name for every package, so it has no effect. *)
Fixpoint read_binary_packages_loop (self : RepositoryReader)
    (tf : list (gmap string string)) (tf_fname : string)
    (suite component arch : string) (deb_type : DebType)
    (pkgs : list ExternalBinaryPackage) (class_suites : list string)
    : list LogRecord * Result (list ExternalBinaryPackage) * list string :=
  match tf with
  | [] => ([], Ok pkgs, class_suites)
  | e :: tf' =>
      let '(w, r, class_suites) :=
        read_binary_stanza self tf_fname suite component arch e class_suites in
      match r with
      | inl ex => (w, inl ex, class_suites)
      | inr o =>
          let pkgs' := match o with Some pkg => pkgs ++ [pkg] | None => pkgs end in
          let '(w', r', class_suites) :=
            read_binary_packages_loop self tf' tf_fname suite component arch
              deb_type pkgs' class_suites in
          (w ++ w', r', class_suites)
      end
  end.

(** [RepositoryReader._read_binary_packages_from_tf], with the list
    [ExternalBinaryPackage.suites] before and after. *)
Definition read_binary_packages_from_tf (self : RepositoryReader)
    (tf : list (gmap string string)) (tf_fname : string)
    (suite component arch : string) (deb_type : DebType)
    (class_suites : list string)
    : list LogRecord * Result (list ExternalBinaryPackage) * list string :=
  read_binary_packages_loop self tf tf_fname suite component arch deb_type []
    class_suites.

End Reader.

(** ** The archive: database rows and files ([laniakea.db], the pool) *)

(** An entry of [apt_pkg.Hashes(f).hashes]. *)
Record HashString := {
  hashtype : string;
  hashvalue : string;
}.

Record ArchiveFile := {
  af_fname : string;
  af_repo : option nat;
  af_size : option string;
  af_md5sum : option string;
  af_sha1sum : option string;
  af_sha256sum : option string;
  af_sha512sum : option string;
  af_binpkg : option (string * string);
}.

#[global] Instance ArchiveFile_eq_dec : EqDecision ArchiveFile.
Proof. solve_decision. Defined.

Definition new_archive_file (fname : string) (repo : option nat) : ArchiveFile :=
  {| af_fname := fname; af_repo := repo; af_size := None; af_md5sum := None;
     af_sha1sum := None; af_sha256sum := None; af_sha512sum := None;
     af_binpkg := None |}.

Definition af_with_fname (v : string) (f : ArchiveFile) : ArchiveFile :=
  {| af_fname := v; af_repo := af_repo f; af_size := af_size f;
     af_md5sum := af_md5sum f; af_sha1sum := af_sha1sum f;
     af_sha256sum := af_sha256sum f; af_sha512sum := af_sha512sum f;
     af_binpkg := af_binpkg f |}.

Definition af_with_repo (v : option nat) (f : ArchiveFile) : ArchiveFile :=
  {| af_fname := af_fname f; af_repo := v; af_size := af_size f;
     af_md5sum := af_md5sum f; af_sha1sum := af_sha1sum f;
     af_sha256sum := af_sha256sum f; af_sha512sum := af_sha512sum f;
     af_binpkg := af_binpkg f |}.

Definition af_with_size (v : option string) (f : ArchiveFile) : ArchiveFile :=
  {| af_fname := af_fname f; af_repo := af_repo f; af_size := v;
     af_md5sum := af_md5sum f; af_sha1sum := af_sha1sum f;
     af_sha256sum := af_sha256sum f; af_sha512sum := af_sha512sum f;
     af_binpkg := af_binpkg f |}.

Definition af_with_binpkg (v : option (string * string)) (f : ArchiveFile) : ArchiveFile :=
  {| af_fname := af_fname f; af_repo := af_repo f; af_size := af_size f;
     af_md5sum := af_md5sum f; af_sha1sum := af_sha1sum f;
     af_sha256sum := af_sha256sum f; af_sha512sum := af_sha512sum f;
     af_binpkg := v |}.

(** The four digest attributes, by the name the importer passes to
    [checksums_list_to_file]. *)
Definition af_digest (kind : string) (f : ArchiveFile) : option string :=
  if bool_decide (kind = "md5") then af_md5sum f
  else if bool_decide (kind = "sha1") then af_sha1sum f
  else if bool_decide (kind = "sha256") then af_sha256sum f
  else if bool_decide (kind = "sha512") then af_sha512sum f
  else None.

Definition af_with_digest (kind : string) (v : option string) (f : ArchiveFile)
    : ArchiveFile :=
  {| af_fname := af_fname f; af_repo := af_repo f; af_size := af_size f;
     af_md5sum := if bool_decide (kind = "md5") then v else af_md5sum f;
     af_sha1sum := if bool_decide (kind = "sha1") then v else af_sha1sum f;
     af_sha256sum := if bool_decide (kind = "sha256") then v else af_sha256sum f;
     af_sha512sum := if bool_decide (kind = "sha512") then v else af_sha512sum f;
     af_binpkg := af_binpkg f |}.

Inductive NewPolicy := DEFAULT | ALWAYS_NEW | NEVER_NEW.

#[global] Instance NewPolicy_eq_dec : EqDecision NewPolicy.
Proof. solve_decision. Defined.

(** An expected binary of a source package; a stub carries a name only. *)
Record PackageInfo := {
  pi_name : string;
  pi_fields : gmap string string;
}.

#[global] Instance PackageInfo_eq_dec : EqDecision PackageInfo.
Proof. solve_decision. Defined.

(** An attribute of a package object that holds a string or a list of
    strings (format version, maintainer, the relation fields). *)
Inductive Attr :=
| AStr (s : string)
| AList (l : list string).

#[global] Instance Attr_eq_dec : EqDecision Attr.
Proof. solve_decision. Defined.

Record SourcePackage := {
  sp_name : string;
  sp_version : string;
  sp_repo_id : nat;
  sp_component : option string;
  sp_suites : list nat;
  sp_directory : string;
  sp_files : list ArchiveFile;
  sp_expected_binaries : list PackageInfo;
  sp_attrs : gmap string Attr;
  sp_extra_data : gmap string string;
}.

#[global] Instance SourcePackage_eq_dec : EqDecision SourcePackage.
Proof. solve_decision. Defined.

(** [SourcePackage(name, version, repo)] *)
Definition new_source_package (name version : string) (repo_id : nat)
    : SourcePackage :=
  {| sp_name := name; sp_version := version; sp_repo_id := repo_id;
     sp_component := None; sp_suites := []; sp_directory := "";
     sp_files := []; sp_expected_binaries := []; sp_attrs := ∅;
     sp_extra_data := ∅ |}.

Definition sp_with_component (v : option string) (p : SourcePackage) : SourcePackage :=
  {| sp_name := sp_name p; sp_version := sp_version p; sp_repo_id := sp_repo_id p;
     sp_component := v; sp_suites := sp_suites p; sp_directory := sp_directory p;
     sp_files := sp_files p; sp_expected_binaries := sp_expected_binaries p;
     sp_attrs := sp_attrs p; sp_extra_data := sp_extra_data p |}.

Definition sp_with_suites (v : list nat) (p : SourcePackage) : SourcePackage :=
  {| sp_name := sp_name p; sp_version := sp_version p; sp_repo_id := sp_repo_id p;
     sp_component := sp_component p; sp_suites := v; sp_directory := sp_directory p;
     sp_files := sp_files p; sp_expected_binaries := sp_expected_binaries p;
     sp_attrs := sp_attrs p; sp_extra_data := sp_extra_data p |}.

Definition sp_with_directory (v : string) (p : SourcePackage) : SourcePackage :=
  {| sp_name := sp_name p; sp_version := sp_version p; sp_repo_id := sp_repo_id p;
     sp_component := sp_component p; sp_suites := sp_suites p; sp_directory := v;
     sp_files := sp_files p; sp_expected_binaries := sp_expected_binaries p;
     sp_attrs := sp_attrs p; sp_extra_data := sp_extra_data p |}.

Definition sp_with_files (v : list ArchiveFile) (p : SourcePackage) : SourcePackage :=
  {| sp_name := sp_name p; sp_version := sp_version p; sp_repo_id := sp_repo_id p;
     sp_component := sp_component p; sp_suites := sp_suites p;
     sp_directory := sp_directory p;
     sp_files := v; sp_expected_binaries := sp_expected_binaries p;
     sp_attrs := sp_attrs p; sp_extra_data := sp_extra_data p |}.

Definition sp_with_expected_binaries (v : list PackageInfo) (p : SourcePackage)
    : SourcePackage :=
  {| sp_name := sp_name p; sp_version := sp_version p; sp_repo_id := sp_repo_id p;
     sp_component := sp_component p; sp_suites := sp_suites p;
     sp_directory := sp_directory p;
     sp_files := sp_files p; sp_expected_binaries := v;
     sp_attrs := sp_attrs p; sp_extra_data := sp_extra_data p |}.

Definition sp_with_attr (k : string) (v : Attr) (p : SourcePackage) : SourcePackage :=
  {| sp_name := sp_name p; sp_version := sp_version p; sp_repo_id := sp_repo_id p;
     sp_component := sp_component p; sp_suites := sp_suites p;
     sp_directory := sp_directory p;
     sp_files := sp_files p; sp_expected_binaries := sp_expected_binaries p;
     sp_attrs := <[k := v]> (sp_attrs p); sp_extra_data := sp_extra_data p |}.

Definition sp_with_extra_data (v : gmap string string) (p : SourcePackage)
    : SourcePackage :=
  {| sp_name := sp_name p; sp_version := sp_version p; sp_repo_id := sp_repo_id p;
     sp_component := sp_component p; sp_suites := sp_suites p;
     sp_directory := sp_directory p;
     sp_files := sp_files p; sp_expected_binaries := sp_expected_binaries p;
     sp_attrs := sp_attrs p; sp_extra_data := v |}.

Record PackageOverride := {
  po_repo_suite_id : nat;
  po_pkgname : string;
  po_section : string;
  po_priority : string;
  po_essential : bool;
}.

#[global] Instance PackageOverride_eq_dec : EqDecision PackageOverride.
Proof. solve_decision. Defined.

(** A [BinaryPackage] object.  The attributes [import_binary] assigns
    after the object has entered the session are optional or empty
    until they are assigned: a row that is pending when the import
    raises has the ones assigned by then. *)
Record BinaryPackage := {
  bp_name : string;
  bp_version : string;
  bp_repo_id : nat;
  bp_architecture : string;
  bp_maintainer : string;
  bp_homepage : option string;
  bp_size_installed : string;
  bp_source : nat;
  bp_description : option string;
  bp_summary : option string;
  bp_description_md5 : option string;
  bp_override : option PackageOverride;
  bp_component : option string;
  bp_contents : list string;
  bp_relations : gmap string (list string);
  bp_multi_arch : option string;
  bp_suites : list nat;
  bp_extra_data : gmap string string;
}.

#[global] Instance BinaryPackage_eq_dec : EqDecision BinaryPackage.
Proof. solve_decision. Defined.

(** The assignments of lines 431 to 433. *)
Definition bp_with_description (description summary description_md5 : string)
    (b : BinaryPackage) : BinaryPackage :=
  {| bp_name := bp_name b; bp_version := bp_version b;
     bp_repo_id := bp_repo_id b; bp_architecture := bp_architecture b;
     bp_maintainer := bp_maintainer b; bp_homepage := bp_homepage b;
     bp_size_installed := bp_size_installed b; bp_source := bp_source b;
     bp_description := Some description; bp_summary := Some summary;
     bp_description_md5 := Some description_md5;
     bp_override := bp_override b; bp_component := bp_component b;
     bp_contents := bp_contents b; bp_relations := bp_relations b;
     bp_multi_arch := bp_multi_arch b; bp_suites := bp_suites b;
     bp_extra_data := bp_extra_data b |}.

Definition bp_with_override (v : PackageOverride) (b : BinaryPackage) : BinaryPackage :=
  {| bp_name := bp_name b; bp_version := bp_version b;
     bp_repo_id := bp_repo_id b; bp_architecture := bp_architecture b;
     bp_maintainer := bp_maintainer b; bp_homepage := bp_homepage b;
     bp_size_installed := bp_size_installed b; bp_source := bp_source b;
     bp_description := bp_description b; bp_summary := bp_summary b;
     bp_description_md5 := bp_description_md5 b; bp_override := Some v;
     bp_component := bp_component b; bp_contents := bp_contents b;
     bp_relations := bp_relations b; bp_multi_arch := bp_multi_arch b;
     bp_suites := bp_suites b; bp_extra_data := bp_extra_data b |}.

Definition bp_with_component (v : string) (b : BinaryPackage) : BinaryPackage :=
  {| bp_name := bp_name b; bp_version := bp_version b;
     bp_repo_id := bp_repo_id b; bp_architecture := bp_architecture b;
     bp_maintainer := bp_maintainer b; bp_homepage := bp_homepage b;
     bp_size_installed := bp_size_installed b; bp_source := bp_source b;
     bp_description := bp_description b; bp_summary := bp_summary b;
     bp_description_md5 := bp_description_md5 b;
     bp_override := bp_override b; bp_component := Some v;
     bp_contents := bp_contents b; bp_relations := bp_relations b;
     bp_multi_arch := bp_multi_arch b; bp_suites := bp_suites b;
     bp_extra_data := bp_extra_data b |}.

(** The assignments of lines 461 to 480, between which nothing can
    raise. *)
Definition bp_with_fields (contents : list string)
    (relations : gmap string (list string)) (multi_arch : option string)
    (suite : nat) (extra_data : gmap string string) (b : BinaryPackage)
    : BinaryPackage :=
  {| bp_name := bp_name b; bp_version := bp_version b;
     bp_repo_id := bp_repo_id b; bp_architecture := bp_architecture b;
     bp_maintainer := bp_maintainer b; bp_homepage := bp_homepage b;
     bp_size_installed := bp_size_installed b; bp_source := bp_source b;
     bp_description := bp_description b; bp_summary := bp_summary b;
     bp_description_md5 := bp_description_md5 b;
     bp_override := bp_override b; bp_component := bp_component b;
     bp_contents := contents; bp_relations := relations;
     bp_multi_arch := multi_arch; bp_suites := bp_suites b ++ [suite];
     bp_extra_data := extra_data |}.

(** A row of the NEW queue: the destination suite and the primary key of
    the source package it holds. *)
Record NewEntry := {
  nq_destination_id : nat;
  nq_package : nat;
}.

#[global] Instance NewEntry_eq_dec : EqDecision NewEntry.
Proof. solve_decision. Defined.

Record RepoSuiteSettings := {
  rss_id : nat;
  rss_repo_id : nat;
  rss_repo_name : string;
  rss_suite_id : nat;
  rss_suite_name : string;
  rss_new_policy : NewPolicy;
  rss_changes_pending : bool;
}.

Definition rss_with_changes_pending (v : bool) (r : RepoSuiteSettings)
    : RepoSuiteSettings :=
  {| rss_id := rss_id r; rss_repo_id := rss_repo_id r;
     rss_repo_name := rss_repo_name r; rss_suite_id := rss_suite_id r;
     rss_suite_name := rss_suite_name r; rss_new_policy := rss_new_policy r;
     rss_changes_pending := v |}.

Record ArchiveUploader := {
  up_email : string;
  up_pgp_fingerprints : list string;
  up_allow_source_uploads : bool;
  up_allow_binary_uploads : bool;
  up_always_review : bool;
}.

Record ArchiveRepository := {
  repo_id : nat;
  repo_name : string;
}.

(** The tables the importer queries and writes, as the session has
    them: a row is an object of the session, flushed or still pending.
    A source package is keyed by its primary key; the version memory is
    keyed by repository and package name. *)
Record Database := {
  db_components : list string;
  db_architectures : list string;
  db_sources : gmap nat SourcePackage;
  db_new_queue : list NewEntry;
  db_binaries : list BinaryPackage;
  db_files : list ArchiveFile;
  db_version_memory : gmap (nat * string) string;
  db_overrides : list PackageOverride;
  db_rss : list RepoSuiteSettings;
  db_uploaders : list ArchiveUploader;
}.

Definition db_with_sources (v : gmap nat SourcePackage) (d : Database) : Database :=
  {| db_components := db_components d; db_architectures := db_architectures d;
     db_sources := v; db_new_queue := db_new_queue d; db_binaries := db_binaries d;
     db_files := db_files d; db_version_memory := db_version_memory d;
     db_overrides := db_overrides d; db_rss := db_rss d;
     db_uploaders := db_uploaders d |}.

Definition db_with_new_queue (v : list NewEntry) (d : Database) : Database :=
  {| db_components := db_components d; db_architectures := db_architectures d;
     db_sources := db_sources d; db_new_queue := v; db_binaries := db_binaries d;
     db_files := db_files d; db_version_memory := db_version_memory d;
     db_overrides := db_overrides d; db_rss := db_rss d;
     db_uploaders := db_uploaders d |}.

Definition db_with_binaries (v : list BinaryPackage) (d : Database) : Database :=
  {| db_components := db_components d; db_architectures := db_architectures d;
     db_sources := db_sources d; db_new_queue := db_new_queue d; db_binaries := v;
     db_files := db_files d; db_version_memory := db_version_memory d;
     db_overrides := db_overrides d; db_rss := db_rss d;
     db_uploaders := db_uploaders d |}.

Definition db_with_files (v : list ArchiveFile) (d : Database) : Database :=
  {| db_components := db_components d; db_architectures := db_architectures d;
     db_sources := db_sources d; db_new_queue := db_new_queue d;
     db_binaries := db_binaries d;
     db_files := v; db_version_memory := db_version_memory d;
     db_overrides := db_overrides d; db_rss := db_rss d;
     db_uploaders := db_uploaders d |}.

Definition db_with_version_memory (v : gmap (nat * string) string) (d : Database)
    : Database :=
  {| db_components := db_components d; db_architectures := db_architectures d;
     db_sources := db_sources d; db_new_queue := db_new_queue d;
     db_binaries := db_binaries d;
     db_files := db_files d; db_version_memory := v;
     db_overrides := db_overrides d; db_rss := db_rss d;
     db_uploaders := db_uploaders d |}.

Definition db_with_overrides (v : list PackageOverride) (d : Database) : Database :=
  {| db_components := db_components d; db_architectures := db_architectures d;
     db_sources := db_sources d; db_new_queue := db_new_queue d;
     db_binaries := db_binaries d;
     db_files := db_files d; db_version_memory := db_version_memory d;
     db_overrides := v; db_rss := db_rss d;
     db_uploaders := db_uploaders d |}.

Definition db_with_rss (v : list RepoSuiteSettings) (d : Database) : Database :=
  {| db_components := db_components d; db_architectures := db_architectures d;
     db_sources := db_sources d; db_new_queue := db_new_queue d;
     db_binaries := db_binaries d;
     db_files := db_files d; db_version_memory := db_version_memory d;
     db_overrides := db_overrides d; db_rss := v;
     db_uploaders := db_uploaders d |}.

(** The files of the machine the importer runs on: the content of each
    file, under the path that names of it resolve to (see [resolve]
    below).  The uploads, the pool under the root of the repository and
    the NEW queue are parts of this one file system.  Directories are
    not modelled, so [makedirs] has no effect and [exists] and [isfile]
    agree. *)
Abbreviation FileSystem := (gmap string string).

Record Archive := {
  db : Database;
  fs : FileSystem;
}.

(** ** Code with effects *)

(** A method that reads and writes the archive and may raise: the
    archive after the call is returned in both cases. *)
Definition M (A : Type) : Type := Archive → Result A * Archive.

Definition ret {A} (x : A) : M A := λ st, (Ok x, st).
Definition raise {A} (e : Exception) : M A := λ st, (Raise e, st).
Definition bind {A B} (m : M A) (k : A → M B) : M B :=
  λ st, match m st with
        | (inl e, st') => (inl e, st')
        | (inr x, st') => k x st'
        end.
Definition lift {A} (r : Result A) : M A := λ st, (r, st).
Definition get : M Archive := λ st, (Ok st, st).
Definition modify_db (f : Database → Database) : M unit :=
  λ st, (Ok (), {| db := f (db st); fs := fs st |}).
Definition modify_fs (f : FileSystem → FileSystem) : M unit :=
  λ st, (Ok (), {| db := db st; fs := f (fs st) |}).

Declare Scope archive_scope.
Delimit Scope archive_scope with archive.
Notation "'do' x <- m ; k" := (bind m (fun x => k))
  (at level 10, x pattern, m at level 100, k at level 200) : archive_scope.
Notation "m ;; k" := (bind m (fun _ => k))
  (at level 100, k at level 200, right associativity) : archive_scope.

(** [Query.one_or_none()] and [Query.one()] on the rows a filter keeps. *)
Definition one_or_none {A} (rows : list A) : Result (option A) :=
  match rows with
  | [] => Ok None
  | [x] => Ok (Some x)
  | _ => Raise MultipleResultsFound
  end.

Definition one {A} (rows : list A) : Result A :=
  match rows with
  | [] => Raise NoResultFound
  | [x] => Ok x
  | _ => Raise MultipleResultsFound
  end.

(** ** Control stanzas and the upload manifest *)

(** A line of a [Files] or [Checksums-*] section. *)
Record ChecksumLine := {
  cl_digest : string;
  cl_size : string;
  cl_name : string;
}.

(** The stanza [apt-ftparchive sources] renders for a [.dsc]: fields
    with a string value, and the multi-valued checksum sections. *)
Record SourceStanza := {
  ss_fields : gmap string string;
  ss_checksums : gmap string (list ChecksumLine);
}.

Record ChangesFile := {
  cf_fname : string;
  cf_component : string;
}.

(** A parsed [.changes] file; [ch_files] is the [files] property, which
    raises [InvalidChangesException] on a malformed list. *)
Record Changes := {
  ch_primary_fingerprint : string;
  ch_weak_signature : bool;
  ch_distributions : list string;
  ch_sourceful : bool;
  ch_source_name : string;
  ch_changes : gmap string string;
  ch_files : Result (list ChangesFile);
}.

(** What the importer calls and this embedding does not define: the
    Debian version order the database compares version columns with,
    [apt_pkg.Hashes], the [apt-ftparchive] renderer, the helpers of
    [laniakea.archive.utils] and [laniakea.archive.changes], MD5 of a
    text, the two directories of a repository
    ([ArchiveRepository.get_root_dir] and [get_new_queue_dir], by the
    primary key of the repository), and the way the operating system
    resolves a name to a file: [resolve] gives the path under which
    the file system holds the file a name reaches, so two names reach
    the same file exactly when they resolve to the same path.  The
    renderer and the manifest parser read the file system. *)
Class Capabilities := {
  version_compare : string → string → comparison;
  Hashes : string → list HashString;
  resolve : string → string;
  get_root_dir : nat → string;
  get_new_queue_dir : nat → string;
  apt_ftparchive_sources : FileSystem → string → Result SourceStanza;
  apt_ftparchive_packages : FileSystem → string → Result (gmap string string);
  apt_ftparchive_contents : FileSystem → string → Result (list string);
  pool_dir_from_name : string → string;
  split_epoch : string → option string * string;
  parse_package_list_str : string → list PackageInfo;
  check_overrides_source :
    Database → RepoSuiteSettings → SourcePackage → list PackageInfo;
  override_for : RepoSuiteSettings → PackageInfo → PackageOverride;
  md5_hexdigest : string → string;
  parse_changes : FileSystem → string → Result Changes;
}.

Section Files.
Context `{Capabilities}.

(** The content of the file a name reaches, as [open(path)] finds it. *)
Definition read_file (f : FileSystem) (path : string) : option string :=
  f !! resolve path.

(** [os.path.isfile(path)] and, without directories, [os.path.exists(path)] *)
Definition isfile (f : FileSystem) (path : string) : bool :=
  bool_decide (is_Some (read_file f path)).

(** [os.unlink(path)] of a file that is there. *)
Definition unlink (path : string) (f : FileSystem) : FileSystem :=
  delete (resolve path) f.

(** The file a name reaches is created or rewritten with a content. *)
Definition write_file (path content : string) (f : FileSystem) : FileSystem :=
  <[resolve path := content]> f.

End Files.

(** [dict.pop(k)], [dict.pop(k, None)] *)
Definition dict_pop {V} (d : gmap string V) (k : string) : Result (V * gmap string V) :=
  match d !! k with
  | Some v => Ok (v, delete k d)
  | None => Raise (KeyError k)
  end.

Definition dict_pop_opt {V} (d : gmap string V) (k : string)
    : option V * gmap string V :=
  (d !! k, delete k d).

(** [pop_split(d, key, s)] *)
Definition pop_split (d : gmap string string) (key s : string)
    : list string * gmap string string :=
  let '(value, d) := dict_pop_opt d key in
  match value with
  | None => ([], d)
  | Some value => if Py.falsy value then ([], d) else (Py.split value s, d)
  end.

Definition ss_pop (tf : SourceStanza) (k : string) : Result (string * SourceStanza) :=
  try r <- dict_pop (ss_fields tf) k;
  Ok (r.1, {| ss_fields := r.2; ss_checksums := ss_checksums tf |}).

Definition ss_pop_split (tf : SourceStanza) (key s : string)
    : list string * SourceStanza :=
  let '(l, d) := pop_split (ss_fields tf) key s in
  (l, {| ss_fields := d; ss_checksums := ss_checksums tf |}).

Definition ss_pop_checksums (tf : SourceStanza) (k : string)
    : Result (list ChecksumLine * SourceStanza) :=
  try r <- dict_pop (ss_checksums tf) k;
  Ok (r.1, {| ss_fields := ss_fields tf; ss_checksums := r.2 |}).

Definition ss_pop_checksums_opt (tf : SourceStanza) (k : string)
    : option (list ChecksumLine) * SourceStanza :=
  let '(v, d) := dict_pop_opt (ss_checksums tf) k in
  (v, {| ss_fields := ss_fields tf; ss_checksums := d |}).

(** ** Messages *)

(** [str(e)] of an [ArchiveImportError], from the format strings of
    [pkgimport.py].  The version found in the memory is formatted as the
    one-element row the query returns. *)
Definition failure_message (why : ImportFailure) : string :=
  match why with
  | HigherVersionSeen pkgname found =>
      "Unable to import package " +:+ Py.dq +:+ pkgname +:+ Py.dq +:+ ": "
      +:+ "We have already seen higher version " +:+ Py.dq
      +:+ "('" +:+ found +:+ "',)" +:+ Py.dq
      +:+ " in this repository before."
  | UnknownHashType t =>
      "Unknown hash type " +:+ Py.dq +:+ t +:+ Py.dq
      +:+ " - Laniakea likely needs to be adjusted to a new APT version."
  | ChecksumFailed t fname hv =>
      t +:+ " checksum validation of " +:+ Py.dq +:+ fname +:+ Py.dq
      +:+ " failed (expected " +:+ hv +:+ ")."
  | InsufficientHashes =>
      "An insufficient amount of hashes was validated for " +:+ Py.dq +:+ "{}"
      +:+ Py.dq +:+ " - this is a bug."
  | DestinationExists fname =>
      "Destination source file `" +:+ fname +:+ "` already exists. Can not continue"
  | NoSourcePackage pkgname version =>
      "Unable to import binary package `" +:+ pkgname +:+ "/" +:+ version
      +:+ "`: Could not find corresponding source package."
  | MissingOverride pkgname version =>
      "Missing override for `" +:+ pkgname +:+ "/" +:+ version
      +:+ "`: Please process the source package through NEW first before uploading a binary."
  end.

(** [repr] of a string without characters that need an escape, and of a
    list of such strings. *)
Definition repr_str (s : string) : string := "'" +:+ s +:+ "'".

Fixpoint join_with (sep : string) (l : list string) : string :=
  match l with
  | [] => ""
  | [x] => x
  | x :: l' => x +:+ sep +:+ join_with sep l'
  end.

Definition repr_list (l : list string) : string :=
  "[" +:+ join_with ", " (repr_str <$> l) +:+ "]".

(** [str(e)] for the exceptions of the embedding. *)
Definition exception_str (e : Exception) : string :=
  match e with
  | KeyError k => repr_str k
  | ValueError m => m
  | NoResultFound => "No row was found when one was required"
  | MultipleResultsFound => "Multiple rows were found when one or none was required"
  | OSError path => "[Errno 2] No such file or directory: " +:+ repr_str path
  | SameFileError src dst =>
      repr_str src +:+ " and " +:+ repr_str dst +:+ " are the same file"
  | CalledProcessError cmd =>
      "Command " +:+ repr_str cmd +:+ " returned non-zero exit status 1."
  | PlainException m => m
  | ArchiveImportError why => failure_message why
  | UploadException m => m
  | InvalidChangesException m => m
  | SignatureException m => m
  end.

(** ** [pkgimport.py] *)

(** Modelled from the spec: [checksums_list_to_file] of
    [laniakea/archive/utils.py], which is not among the embedded
    sources.  It merges one declared checksum section into the per-file
    set, keyed by file name in order of first appearance; an absent
    section ([None]) leaves the set as it is; a file of the set that a
    present section does not list is a malformed-index error. *)
Fixpoint files_upsert (files : list (string * ArchiveFile)) (name : string)
    (fresh : ArchiveFile) (f : ArchiveFile → ArchiveFile)
    : list (string * ArchiveFile) :=
  match files with
  | [] => [(name, f fresh)]
  | (n, af) :: rest =>
      if bool_decide (n = name) then (n, f af) :: rest
      else (n, af) :: files_upsert rest name fresh f
  end.

Definition checksums_list_to_file (cslist : option (list ChecksumLine))
    (checksum : string) (files : list (string * ArchiveFile))
    : Result (list (string * ArchiveFile)) :=
  match cslist with
  | None => Ok files
  | Some lines =>
      let files' :=
        foldl (λ acc line,
                 let name := Py.basename (cl_name line) in
                 files_upsert acc name (new_archive_file name None)
                   (λ af, af_with_digest checksum (Some (cl_digest line))
                            (af_with_size (Some (cl_size line)) af)))
              files lines in
      match List.find (λ '(_, af), negb (bool_decide (is_Some (af_digest checksum af))))
                      files' with
      | Some (name, _) =>
          Raise (PlainException ("Malformed index: no " +:+ checksum
                                 +:+ " checksum for " +:+ name))
      | None => Ok files'
      end
  end.

(** [str(pkg_type)] for the file name of a binary in the pool. *)
Definition deb_type_str (t : DebType) : string :=
  match t with DEB => "deb" | UDEB => "udeb" end.

Record PackageImporter := {
  imp_rss : RepoSuiteSettings;
  imp_repo_root : string;
  imp_repo_newqueue_root : string;
  imp_keep_source_packages : bool;
}.

(** A handle on a [SourcePackage] object: its primary key, and whether
    the session holds it already, in which case an assignment to an
    attribute is a change of the row. *)
Record SourceRef := {
  ref_id : nat;
  ref_persistent : bool;
}.

Definition next_source_id (d : Database) : nat :=
  map_fold (λ k _ acc, Nat.max (S k) acc) O (db_sources d).

Local Open Scope archive_scope.

Section Importer.
Context `{Capabilities}.

Definition version_gt (a b : string) : bool :=
  match version_compare a b with Gt => true | _ => false end.
Definition version_ge (a b : string) : bool :=
  match version_compare a b with Lt => false | _ => true end.
Definition version_eq (a b : string) : bool :=
  match version_compare a b with Eq => true | _ => false end.

(** [package_mark_published]: both branches leave the memory of
    [(repo, pkgname)] at [version]. *)
Definition package_mark_published (rss : RepoSuiteSettings)
    (pkgname version : string) : M unit :=
  modify_db (λ d,
    db_with_version_memory
      (<[(rss_repo_id rss, pkgname) := version]> (db_version_memory d)) d).

(** [self._rss.changes_pending = True] *)
Definition set_changes_pending (rss : RepoSuiteSettings) : M unit :=
  modify_db (λ d,
    db_with_rss
      ((λ r, if bool_decide (rss_id r = rss_id rss)
             then rss_with_changes_pending true r else r) <$> db_rss d) d).

(** [PackageImporter(session, repo_suite_settings)]; without
    directories, the call of [os.makedirs] for the NEW-queue directory
    has no effect. *)
Definition new_package_importer (rss : RepoSuiteSettings) : PackageImporter :=
  {| imp_rss := rss;
     imp_repo_root := get_root_dir (rss_repo_id rss);
     imp_repo_newqueue_root := get_new_queue_dir (rss_repo_id rss);
     imp_keep_source_packages := false |}.

(** [pi.keep_source_packages = ...] *)
Definition imp_with_keep_source_packages (v : bool) (pi : PackageImporter)
    : PackageImporter :=
  {| imp_rss := imp_rss pi;
     imp_repo_root := imp_repo_root pi;
     imp_repo_newqueue_root := imp_repo_newqueue_root pi;
     imp_keep_source_packages := v |}.

(** [shutil.copy(src, dst)]: [SameFileError] when both names reach one
    file, which is checked first, and [FileNotFoundError] without a
    source; the file at the destination is created or rewritten. *)
Definition shutil_copy (src dst : string) : M unit :=
  if bool_decide (resolve src = resolve dst)
  then raise (SameFileError src dst)
  else
    do st <- get;
    match read_file (fs st) src with
    | None => raise (OSError src)
    | Some content => modify_fs (write_file dst content)
    end.

(** [PackageImporter._copy_or_move]; without directories, the call of
    [os.makedirs] for the directory of the destination has no effect. *)
Definition copy_or_move (self : PackageImporter) (src dst : string)
    (override : bool) : M unit :=
  (if override
   then do st <- get;
        if isfile (fs st) dst then modify_fs (unlink dst) else ret ()
   else ret ());;
  shutil_copy src dst;;
  if imp_keep_source_packages self then ret ()
  else modify_fs (unlink src).

(** The attribute of [file] that an entry of the given type is compared
    with; no attribute for a type the importer does not know. *)
Definition declared_value (file : ArchiveFile) (t : string)
    : option (option string) :=
  if bool_decide (t = "MD5Sum") then Some (af_md5sum file)
  else if bool_decide (t = "SHA1") then Some (af_sha1sum file)
  else if bool_decide (t = "SHA256") then Some (af_sha256sum file)
  else if bool_decide (t = "SHA512") then Some (af_sha512sum file)
  else if bool_decide (t = "Checksum-FileSize") then Some (af_size file)
  else None.

(** A computed hash agrees with what the file declares. *)
Definition agrees (file : ArchiveFile) (h : HashString) : Prop :=
  declared_value file (hashtype h) = Some (Some (hashvalue h)).

(** The comparison of one computed hash with the declared one. *)
Definition check_hash (file : ArchiveFile) (h : HashString) : Result unit :=
  try hash_okay <-
    (if bool_decide (hashtype h = "MD5Sum")
     then Ok (bool_decide (af_md5sum file = Some (hashvalue h)))
     else if bool_decide (hashtype h = "SHA1")
     then Ok (bool_decide (af_sha1sum file = Some (hashvalue h)))
     else if bool_decide (hashtype h = "SHA256")
     then Ok (bool_decide (af_sha256sum file = Some (hashvalue h)))
     else if bool_decide (hashtype h = "SHA512")
     then Ok (bool_decide (af_sha512sum file = Some (hashvalue h)))
     else if bool_decide (hashtype h = "Checksum-FileSize")
     then Ok (bool_decide (af_size file = Some (hashvalue h)))
     else Raise (ArchiveImportError (UnknownHashType (hashtype h))));
  if negb hash_okay
  then Raise (ArchiveImportError
                (ChecksumFailed (hashtype h) (af_fname file) (hashvalue h)))
  else Ok ().

Fixpoint check_hashes (file : ArchiveFile) (hashes : list HashString)
    (hashes_checked : nat) : Result nat :=
  match hashes with
  | [] => Ok hashes_checked
  | h :: rest =>
      try _ <- check_hash file h;
      check_hashes file rest (S hashes_checked)
  end.

(** [_verify_hashes] on the hashes of the opened file. *)
Definition verify_hash_list (file : ArchiveFile) (hashes : list HashString)
    : Result unit :=
  try hashes_checked <- check_hashes file hashes O;
  if (hashes_checked <? 4)%nat
  then Raise (ArchiveImportError InsufficientHashes)
  else Ok ().

(** [PackageImporter._verify_hashes] *)
Definition verify_hashes (file : ArchiveFile) (local_fname : string) : M unit :=
  do st <- get;
  match read_file (fs st) local_fname with
  | None => raise (OSError local_fname)
  | Some content => lift (verify_hash_list file (Hashes content))
  end.

(** *** [PackageImporter.import_source] *)

(** The rows [highest_version > version] keeps for this package:
    lines 165 to 173. *)
Definition version_memory_above (d : Database) (repo : nat)
    (pkgname version : string) : option string :=
  match db_version_memory d !! (repo, pkgname) with
  | Some highest => if version_gt highest version then Some highest else None
  | None => None
  end.

(** The NEW-queue rows for this destination whose package has the
    given name, version and repository. *)
Definition new_queue_rows (d : Database) (suite repo : nat)
    (name version : string) : list NewEntry :=
  List.filter
    (λ e, bool_decide (nq_destination_id e = suite) &&
          match db_sources d !! nq_package e with
          | Some p => bool_decide (sp_name p = name)
                      && version_eq (sp_version p) version
                      && bool_decide (sp_repo_id p = repo)
          | None => false
          end)
    (db_new_queue d).

(** An assignment to an attribute of [spkg]. *)
Definition assign (r : SourceRef) (p : SourcePackage) : M SourcePackage :=
  if ref_persistent r
  then modify_db (λ d, db_with_sources (<[ref_id r := p]> (db_sources d)) d);;
       ret p
  else ret p.

(** Lines 154 to 178: the rendered stanza, its name and version, and
    the check against the version memory. *)
Definition source_control (self : PackageImporter) (dsc_fname : string)
    : M (string * string * SourceStanza) :=
  do st <- get;
  do src_tf <- lift (apt_ftparchive_sources (fs st) dsc_fname);
  do (pkgname, src_tf) <- lift (ss_pop src_tf "Package");
  do (version, src_tf) <- lift (ss_pop src_tf "Version");
  match version_memory_above (db st) (rss_repo_id (imp_rss self)) pkgname version with
  | Some result => raise (ArchiveImportError (HigherVersionSeen pkgname result))
  | None => ret (pkgname, version, src_tf)
  end.

(** Lines 180 to 195: a new package object, or the one a NEW-queue
    entry for this name and version holds. *)
Definition source_object (self : PackageImporter) (pkgname version : string)
    (component_name : string)
    : M (SourceRef * SourcePackage * option NewEntry) :=
  let rss := imp_rss self in
  do st <- get;
  do component <-
    lift (one (List.filter (λ c, bool_decide (c = component_name))
                           (db_components (db st))));
  let spkg := sp_with_component (Some component)
                (new_source_package pkgname version (rss_repo_id rss)) in
  do nq_entry <-
    lift (one_or_none
            (new_queue_rows (db st) (rss_suite_id rss) (rss_repo_id rss)
                            (sp_name spkg) (sp_version spkg)));
  match nq_entry with
  | Some e =>
      ret ({| ref_id := nq_package e; ref_persistent := true |},
           default spkg (db_sources (db st) !! nq_package e),
           Some e)
  | None =>
      ret ({| ref_id := next_source_id (db st); ref_persistent := false |},
           spkg, None)
  end.

(** Lines 197 to 221: the descriptive attributes. *)
Definition source_fields (r : SourceRef) (pkgname : string)
    (spkg : SourcePackage) (src_tf : SourceStanza)
    : M (SourcePackage * SourceStanza) :=
  do (format, src_tf) <- lift (ss_pop src_tf "Format");
  do spkg <- assign r (sp_with_attr "format_version" (AStr format) spkg);
  let '(l, src_tf) := ss_pop_split src_tf "Architecture" " " in
  do spkg <- assign r (sp_with_attr "architectures" (AList l) spkg);
  do (maintainer, src_tf) <- lift (ss_pop src_tf "Maintainer");
  do spkg <- assign r (sp_with_attr "maintainer" (AStr maintainer) spkg);
  let '(l, src_tf) := ss_pop_split src_tf "Uploaders" ", " in
  do spkg <- assign r (sp_with_attr "uploaders" (AList l) spkg);
  let '(l, src_tf) := ss_pop_split src_tf "Build-Depends" ", " in
  do spkg <- assign r (sp_with_attr "build_depends" (AList l) spkg);
  let '(l, src_tf) := ss_pop_split src_tf "Build-Depends-Indep" ", " in
  do spkg <- assign r (sp_with_attr "build_depends_indep" (AList l) spkg);
  let '(l, src_tf) := ss_pop_split src_tf "Build-Conflicts" ", " in
  do spkg <- assign r (sp_with_attr "build_conflicts" (AList l) spkg);
  let '(l, src_tf) := ss_pop_split src_tf "Build-Conflicts-Indep" ", " in
  do spkg <- assign r (sp_with_attr "build_conflicts_indep" (AList l) spkg);
  do (spkg, src_tf) <-
    match ss_fields src_tf !! "Package-List" with
    | Some _ =>
        do (package_list, src_tf) <- lift (ss_pop src_tf "Package-List");
        do spkg <- assign r (sp_with_expected_binaries
                               (parse_package_list_str package_list) spkg);
        do (_, src_tf) <- lift (ss_pop src_tf "Binary");
        ret (spkg, src_tf)
    | None =>
        let '(l, src_tf) := ss_pop_split src_tf "Binary" ", " in
        let binary_stubs := (λ b, {| pi_name := b; pi_fields := ∅ |}) <$> l in
        do spkg <- assign r (sp_with_expected_binaries binary_stubs spkg);
        ret (spkg, src_tf)
    end;
  do spkg <- assign r (sp_with_directory (pool_dir_from_name pkgname) spkg);
  ret (spkg, src_tf).

(** Lines 222 to 225: the four checksum sections, merged. *)
Definition source_checksums (src_tf : SourceStanza)
    : Result (list (string * ArchiveFile) * SourceStanza) :=
  try (md5, src_tf) <- ss_pop_checksums src_tf "Files";
  try files <- checksums_list_to_file (Some md5) "md5" [];
  try (sha1, src_tf) <- ss_pop_checksums src_tf "Checksums-Sha1";
  try files <- checksums_list_to_file (Some sha1) "sha1" files;
  try (sha256, src_tf) <- ss_pop_checksums src_tf "Checksums-Sha256";
  try files <- checksums_list_to_file (Some sha256) "sha256" files;
  let '(sha512, src_tf) := ss_pop_checksums_opt src_tf "Checksums-Sha512" in
  try files <- checksums_list_to_file sha512 "sha512" files;
  Ok (files, src_tf).

(** Lines 229 to 236: the files of an earlier import of this NEW
    package leave the NEW queue and the database. *)
Fixpoint remove_old_files (self : PackageImporter) (old : list ArchiveFile)
    : M unit :=
  match old with
  | [] => ret ()
  | file :: rest =>
      let fname_full := Py.path_join (imp_repo_newqueue_root self) (af_fname file) in
      do st <- get;
      (if isfile (fs st) fname_full then modify_fs (unlink fname_full) else ret ());;
      modify_db (λ d, db_with_files
                        (List.filter (λ x, negb (bool_decide (x = file)))
                                     (db_files d)) d);;
      remove_old_files self rest
  end.

(** Lines 238 to 247: every declared file is verified where it was
    uploaded, then renamed to its place under the pool directory. *)
Fixpoint verify_new_files (self : PackageImporter) (r : SourceRef)
    (dsc_dir : string) (files : list ArchiveFile) (spkg : SourcePackage)
    (files_todo : list ArchiveFile) : M (SourcePackage * list ArchiveFile) :=
  match files with
  | [] => ret (spkg, files_todo)
  | file :: rest =>
      let earlier := sp_files spkg in
      do spkg <- assign r (sp_with_files (earlier ++ [file]) spkg);
      verify_hashes file (Py.path_join dsc_dir (af_fname file));;
      let pool_fname := Py.path_join (sp_directory spkg) (af_fname file) in
      let file := af_with_repo (Some (rss_repo_id (imp_rss self)))
                    (af_with_fname pool_fname file) in
      do spkg <- assign r (sp_with_files (earlier ++ [file]) spkg);
      verify_new_files self r dsc_dir rest spkg (files_todo ++ [file])
  end.

Definition source_files (self : PackageImporter) (r : SourceRef)
    (dsc_dir : string) (spkg : SourcePackage) (src_tf : SourceStanza)
    : M (SourcePackage * list ArchiveFile * SourceStanza) :=
  do (files, src_tf) <- lift (source_checksums src_tf);
  do spkg <-
    match sp_files spkg with
    | [] => ret spkg
    | old => remove_old_files self old;; assign r (sp_with_files [] spkg)
    end;
  do (spkg, files_todo) <-
    verify_new_files self r dsc_dir (snd <$> files) spkg [];
  ret (spkg, files_todo, src_tf).

(** Modelled from the spec: [register_package_overrides] of
    [laniakea/archive/utils.py], which is not among the embedded
    sources, registers an override for each missing one. *)
Definition register_package_overrides (rss : RepoSuiteSettings)
    (missing : list PackageInfo) : M unit :=
  modify_db (λ d, db_with_overrides
                    (db_overrides d ++ (override_for rss <$> missing)) d).

(** Lines 249 to 269: the suite or the NEW queue. *)
Definition source_route (self : PackageImporter) (r : SourceRef)
    (new_policy : NewPolicy) (spkg : SourcePackage) (nq_entry : option NewEntry)
    : M (SourcePackage * option NewEntry * bool) :=
  let rss := imp_rss self in
  do st <- get;
  let missing_overrides := check_overrides_source (db st) rss spkg in
  if bool_decide (new_policy = NEVER_NEW) then
    register_package_overrides rss missing_overrides;;
    do spkg <- assign r (sp_with_suites (sp_suites spkg ++ [rss_suite_id rss]) spkg);
    ret (spkg, nq_entry, false)
  else if negb (bool_decide (missing_overrides = []))
          || bool_decide (new_policy = ALWAYS_NEW) then
    match nq_entry with
    | Some e => ret (spkg, Some e, true)
    | None =>
        let e := {| nq_destination_id := rss_suite_id rss;
                    nq_package := ref_id r |} in
        modify_db (λ d, db_with_new_queue (db_new_queue d ++ [e]) d);;
        ret (spkg, Some e, true)
    end
  else
    do spkg <- assign r (sp_with_suites (sp_suites spkg ++ [rss_suite_id rss]) spkg);
    ret (spkg, nq_entry, false).

(** Lines 271 to 284: every file moves to the NEW queue or the pool,
    unless something is at its destination already. *)
Fixpoint place_source_files (self : PackageImporter) (dsc_dir : string)
    (is_new : bool) (files_todo : list ArchiveFile) : M unit :=
  match files_todo with
  | [] => ret ()
  | file :: rest =>
      let pool_fname_full :=
        if is_new then Py.path_join (imp_repo_newqueue_root self) (af_fname file)
        else Py.path_join (imp_repo_root self) (af_fname file) in
      do st <- get;
      if isfile (fs st) pool_fname_full
      then raise (ArchiveImportError (DestinationExists (af_fname file)))
      else
        copy_or_move self (Py.path_join dsc_dir (Py.basename (af_fname file)))
          pool_fname_full is_new;;
        modify_db (λ d, db_with_files (db_files d ++ [file]) d);;
        place_source_files self dsc_dir is_new rest
  end.

(** Lines 286 to 313: the obsolete NEW entry goes, the package is
    added, and a published package advances the version memory. *)
Definition source_commit (self : PackageImporter) (r : SourceRef)
    (spkg : SourcePackage) (nq_entry : option NewEntry) (is_new : bool)
    (src_tf : SourceStanza) : M unit :=
  let rss := imp_rss self in
  (match nq_entry with
   | Some e =>
       if negb is_new
       then modify_db (λ d, db_with_new_queue
                              (List.filter (λ x, negb (bool_decide (x = e)))
                                           (db_new_queue d)) d)
       else ret ()
   | None => ret ()
   end);;
  do (_, src_tf) <- lift (ss_pop src_tf "Directory");
  do spkg <- assign r (sp_with_extra_data (ss_fields src_tf) spkg);
  modify_db (λ d, db_with_sources (<[ref_id r := spkg]> (db_sources d)) d);;
  if is_new then ret ()
  else
    package_mark_published rss (sp_name spkg) (sp_version spkg);;
    set_changes_pending rss.

(** Everything before a file moves: lines 154 to 269. *)
Definition source_prepare (self : PackageImporter) (dsc_fname : string)
    (component_name : string) (new_policy : NewPolicy)
    : M (SourceRef * SourcePackage * option NewEntry * bool
         * list ArchiveFile * SourceStanza) :=
  let dsc_dir := Py.dirname dsc_fname in
  do (pkgname, version, src_tf) <- source_control self dsc_fname;
  do (r, spkg, nq_entry) <- source_object self pkgname version component_name;
  do (spkg, src_tf) <- source_fields r pkgname spkg src_tf;
  do (spkg, files_todo, src_tf) <- source_files self r dsc_dir spkg src_tf;
  do (spkg, nq_entry, is_new) <- source_route self r new_policy spkg nq_entry;
  ret (r, spkg, nq_entry, is_new, files_todo, src_tf).

Definition import_source (self : PackageImporter) (dsc_fname : string)
    (component_name : string) (new_policy : NewPolicy) : M unit :=
  do (r, spkg, nq_entry, is_new, files_todo, src_tf) <-
    source_prepare self dsc_fname component_name new_policy;
  place_source_files self (Py.dirname dsc_fname) is_new files_todo;;
  source_commit self r spkg nq_entry is_new src_tf.

(** *** [PackageImporter.import_binary] *)

(** The source packages of this repository that are in the suite and
    have the given name and version. *)
Definition published_sources (d : Database) (repo suite : nat)
    (name version : string) : list (nat * SourcePackage) :=
  List.filter
    (λ '(_, p), bool_decide (sp_repo_id p = repo)
                && bool_decide (suite ∈ sp_suites p)
                && bool_decide (sp_name p = name)
                && version_eq (sp_version p) version)
    (map_to_list (db_sources d)).

(** The NEW-queue rows for this destination, joined with their
    package, that have the given name, version and repository. *)
Definition pending_sources (d : Database) (suite repo : nat)
    (name version : string) : list (NewEntry * SourcePackage) :=
  omap (λ e, match db_sources d !! nq_package e with
             | Some p =>
                 if bool_decide (nq_destination_id e = suite)
                    && bool_decide (sp_name p = name)
                    && version_eq (sp_version p) version
                    && bool_decide (sp_repo_id p = repo)
                 then Some (e, p) else None
             | None => None
             end)
       (db_new_queue d).

(** What [import_binary] has read of the control stanza when it looks
    for the source package. *)
Record BinaryControl := {
  bc_pkg_type : DebType;
  bc_filelist_raw : list string;
  bc_pkgname : string;
  bc_version : string;
  bc_architecture : string;
  bc_maintainer : string;
  bc_homepage : option string;
  bc_size_installed : string;
  bc_source_name : string;
  bc_source_version : string;
  bc_tf : gmap string string;
}.

(** Lines 322 to 361. *)
Definition binary_control (self : PackageImporter) (deb_fname : string)
    : M BinaryControl :=
  let pkg_type :=
    if bool_decide (Py.splitext_ext deb_fname = ".udeb") then UDEB else DEB in
  do st <- get;
  do bin_tf <- lift (apt_ftparchive_packages (fs st) deb_fname);
  do filelist_raw <- lift (apt_ftparchive_contents (fs st) deb_fname);
  do (pkgname, bin_tf) <- lift (dict_pop bin_tf "Package");
  do (version, bin_tf) <- lift (dict_pop bin_tf "Version");
  do (arch_name, bin_tf) <- lift (dict_pop bin_tf "Architecture");
  do architecture <-
    lift (one (List.filter (λ a, bool_decide (a = arch_name))
                           (db_architectures (db st))));
  do (maintainer, bin_tf) <- lift (dict_pop bin_tf "Maintainer");
  let '(homepage, bin_tf) := dict_pop_opt bin_tf "Homepage" in
  do (size_installed, bin_tf) <- lift (dict_pop bin_tf "Installed-Size");
  let '(source, bin_tf) := dict_pop_opt bin_tf "Source" in
  let source_info_raw := default "" source in
  do (source_name, source_version) <-
    lift (importer_source_info source_info_raw pkgname version);
  ret {| bc_pkg_type := pkg_type; bc_filelist_raw := filelist_raw;
         bc_pkgname := pkgname; bc_version := version;
         bc_architecture := architecture; bc_maintainer := maintainer;
         bc_homepage := homepage; bc_size_installed := size_installed;
         bc_source_name := source_name; bc_source_version := source_version;
         bc_tf := bin_tf |}.

(** Lines 363 to 397: the owning source package, among the packages
    of the suite first and in the NEW queue second; the flag tells
    that it was found in the NEW queue. *)
Definition find_source (self : PackageImporter) (c : BinaryControl)
    : M (nat * SourcePackage * bool) :=
  let rss := imp_rss self in
  do st <- get;
  do source <-
    lift (one_or_none
            (published_sources (db st) (rss_repo_id rss) (rss_suite_id rss)
               (bc_source_name c) (bc_source_version c)));
  match source with
  | Some (id, p) => ret (id, p, false)
  | None =>
      do nq_entry <-
        lift (one_or_none
                (pending_sources (db st) (rss_suite_id rss) (rss_repo_id rss)
                   (bc_source_name c) (bc_source_version c)));
      match nq_entry with
      | Some (e, p) => ret (nq_package e, p, true)
      | None =>
          raise (ArchiveImportError
                   (NoSourcePackage (bc_pkgname c) (bc_version c)))
      end
  end.

(** Lines 399 to 410: the file name in the pool and the declared
    checksums. *)
Definition binary_file (self : PackageImporter) (c : BinaryControl)
    (source : SourcePackage) : Result (ArchiveFile * gmap string string) :=
  let pool_dir := pool_dir_from_name (sp_name source) in
  let deb_basename :=
    bc_pkgname c +:+ "_" +:+ (split_epoch (bc_version c)).2 +:+ "_"
    +:+ bc_architecture c +:+ "." +:+ deb_type_str (bc_pkg_type c) in
  let pool_fname := Py.path_join pool_dir deb_basename in
  let bin_tf := bc_tf c in
  try (size, bin_tf) <- dict_pop bin_tf "Size";
  try (md5sum, bin_tf) <- dict_pop bin_tf "MD5sum";
  try (sha1sum, bin_tf) <- dict_pop bin_tf "SHA1";
  try (sha256sum, bin_tf) <- dict_pop bin_tf "SHA256";
  let '(sha512sum, bin_tf) := dict_pop_opt bin_tf "SHA512" in
  Ok ({| af_fname := pool_fname;
         af_repo := Some (rss_repo_id (imp_rss self));
         af_size := Some size;
         af_md5sum := Some md5sum;
         af_sha1sum := Some sha1sum;
         af_sha256sum := Some sha256sum;
         af_sha512sum := sha512sum;
         af_binpkg := None |}, bin_tf).

Definition relation_fields : list string :=
  ["Depends"; "Pre-Depends"; "Replaces"; "Provides"; "Recommends";
   "Suggests"; "Enhances"; "Conflicts"; "Breaks"; "Built-Using"].

(** Lines 462 to 473: each relation field is popped and split. *)
Fixpoint pop_relations (keys : list string) (bin_tf : gmap string string)
    (acc : gmap string (list string))
    : gmap string (list string) * gmap string string :=
  match keys with
  | [] => (acc, bin_tf)
  | k :: rest =>
      let '(l, bin_tf) := pop_split bin_tf k ", " in
      pop_relations rest bin_tf (<[k := l]> acc)
  end.

(** The object [bpkg] as lines 322 to 340 leave it: the late
    attributes are not assigned yet. *)
Definition new_binary_package (self : PackageImporter) (c : BinaryControl)
    (source_id : nat) : BinaryPackage :=
  {| bp_name := bc_pkgname c; bp_version := bc_version c;
     bp_repo_id := rss_repo_id (imp_rss self);
     bp_architecture := bc_architecture c;
     bp_maintainer := bc_maintainer c;
     bp_homepage := bc_homepage c;
     bp_size_installed := bc_size_installed c;
     bp_source := source_id;
     bp_description := None; bp_summary := None; bp_description_md5 := None;
     bp_override := None; bp_component := None;
     bp_contents := []; bp_relations := ∅; bp_multi_arch := None;
     bp_suites := []; bp_extra_data := ∅ |}.

(** The assignment [bpkg.source = ...] of a source package that the
    session holds brings [bpkg] into the session, as a pending row:
    line 396 expunges it for a source in the NEW queue, which it can
    do only for an object of the session.  The rows of [db_binaries]
    are in the order they entered, and the result is the position of
    the row of [bpkg]; for a source in the NEW queue the row is gone
    again when the step returns. *)
Definition attach_source (self : PackageImporter) (c : BinaryControl)
    (source_id : nat) (is_new : bool) : M (nat * BinaryPackage) :=
  let bpkg := new_binary_package self c source_id in
  do st <- get;
  let row := length (db_binaries (db st)) in
  modify_db (λ d, db_with_binaries (db_binaries d ++ [bpkg]) d);;
  (if is_new
   then modify_db (λ d, db_with_binaries (delete row (db_binaries d)) d)
   else ret ());;
  ret (row, bpkg).

(** An assignment to an attribute of [bpkg] while the session holds it
    at position [row]. *)
Definition assign_binary (row : nat) (b : BinaryPackage) : M BinaryPackage :=
  modify_db (λ d, db_with_binaries (<[row := b]> (db_binaries d)) d);;
  ret b.

(** Lines 430 to 480: the attributes of a binary whose source is
    published. *)
Definition binary_package (self : PackageImporter) (component_name : string)
    (c : BinaryControl) (row : nat) (bpkg : BinaryPackage)
    (bin_tf : gmap string string) : M BinaryPackage :=
  let rss := imp_rss self in
  do (description, bin_tf) <- lift (dict_pop bin_tf "Description");
  let summary := Py.strip (hd "" (Py.split description (String "010"%char ""))) in
  let description_md5 := md5_hexdigest description in
  do bpkg <- assign_binary row
               (bp_with_description description summary description_md5 bpkg);
  do (_, bin_tf) <- lift (dict_pop bin_tf "Filename");
  do (_, bin_tf) <- lift (dict_pop bin_tf "Priority");
  do (_, bin_tf) <- lift (dict_pop bin_tf "Section");
  let '(_, bin_tf) := dict_pop_opt bin_tf "Essential" in
  do st <- get;
  do override <-
    lift (one_or_none
            (List.filter (λ o, bool_decide (po_repo_suite_id o = rss_id rss)
                               && bool_decide (po_pkgname o = bc_pkgname c))
                         (db_overrides (db st))));
  match override with
  | None =>
      raise (ArchiveImportError (MissingOverride (bc_pkgname c) (bc_version c)))
  | Some override =>
      do bpkg <- assign_binary row (bp_with_override override bpkg);
      do component <-
        lift (one (List.filter (λ x, bool_decide (x = component_name))
                               (db_components (db st))));
      do bpkg <- assign_binary row (bp_with_component component bpkg);
      let contents :=
        (λ line, hd "" (Py.split line (String "009"%char ""))) <$> bc_filelist_raw c in
      let '(relations, bin_tf) := pop_relations relation_fields bin_tf ∅ in
      let '(multi_arch, bin_tf) := dict_pop_opt bin_tf "Multi-Arch" in
      assign_binary row
        (bp_with_fields contents relations multi_arch (rss_suite_id rss) bin_tf bpkg)
  end.

(** Lines 482 to 495: the file moves to the pool, its row is added
    ([bpkg] is in the session already), and the version memory and the
    suite are updated. *)
Definition binary_commit (self : PackageImporter) (deb_fname : string)
    (af : ArchiveFile) (bpkg : BinaryPackage) : M unit :=
  let rss := imp_rss self in
  let pool_fname_full := Py.path_join (imp_repo_root self) (af_fname af) in
  do st <- get;
  if isfile (fs st) pool_fname_full
  then raise (ArchiveImportError (DestinationExists (af_fname af)))
  else
    copy_or_move self deb_fname pool_fname_full false;;
    modify_db (λ d, db_with_files (db_files d ++ [af]) d);;
    package_mark_published rss (bp_name bpkg) (bp_version bpkg);;
    set_changes_pending rss.

Definition import_binary (self : PackageImporter) (deb_fname : string)
    (component_name : string) : M unit :=
  do c <- binary_control self deb_fname;
  do (source_id, source, is_new) <- find_source self c;
  do (row, bpkg) <- attach_source self c source_id is_new;
  do (af, bin_tf) <- lift (binary_file self c source);
  verify_hashes af deb_fname;;
  if is_new : bool
  then
    copy_or_move self deb_fname
      (Py.path_join (imp_repo_newqueue_root self) (af_fname af)) true
  else
    let af := af_with_binpkg (Some (bc_pkgname c, bc_version c)) af in
    do bpkg <- binary_package self component_name c row bpkg bin_tf;
    binary_commit self deb_fname af bpkg.

(** *** [UploadHandler.process_changes] *)

Record UploadHandler := {
  uh_repo : ArchiveRepository;
  uh_keep_source_packages : bool;
}.

(** [try: ... except Exception as e: ...] *)
Definition try_except {A} (m : M A) (handler : Exception → M A) : M A :=
  λ st, match m st with
        | (inl e, st') => handler e st'
        | (inr x, st') => (inr x, st')
        end.

Definition is_deb (fname : string) : bool :=
  Py.endswith fname ".deb" || Py.endswith fname ".udeb".

(** Lines 624 to 646: the first [.dsc] of the upload; the result is
    the reason of a rejection. *)
Definition import_dsc (pi : PackageImporter) (uploader : ArchiveUploader)
    (dsc_dir : string) (files : list ChangesFile) : M (option string) :=
  match List.find (λ file, Py.endswith (cf_fname file) ".dsc") files with
  | None => ret None
  | Some file =>
      if Py.contains "/"%char (cf_fname file)
      then ret (Some ("Invalid source package filename: " +:+ cf_fname file))
      else
        let new_policy :=
          if up_always_review uploader then ALWAYS_NEW
          else rss_new_policy (imp_rss pi) in
        try_except
          (import_source pi (Py.path_join dsc_dir (cf_fname file))
             (cf_component file) new_policy;;
           ret None)
          (λ e, ret (Some ("Failed to import source package: "
                           +:+ exception_str e)))
  end.

(** Lines 648 to 664: every binary of the upload, in order, up to the
    first rejection. *)
Fixpoint import_debs (pi : PackageImporter) (dsc_dir : string)
    (files : list ChangesFile) : M (option string) :=
  match files with
  | [] => ret None
  | file :: rest =>
      if is_deb (cf_fname file) then
        if Py.contains "/"%char (cf_fname file)
        then ret (Some ("Invalid binary package filename: " +:+ cf_fname file))
        else
          do failed <-
            try_except
              (import_binary pi (Py.path_join dsc_dir (cf_fname file))
                 (cf_component file);;
               ret None)
              (λ e, ret (Some ("Failed to import binary package: "
                               +:+ exception_str e)));
          match failed with
          | Some reason => ret (Some reason)
          | None => import_debs pi dsc_dir rest
          end
      else import_debs pi dsc_dir rest
  end.

(** The rows [highest_version >= version] keeps: lines 579 to 587. *)
Definition version_memory_at_least (d : Database) (repo : nat)
    (pkgname version : string) : option string :=
  match db_version_memory d !! (repo, pkgname) with
  | Some highest => if version_ge highest version then Some highest else None
  | None => None
  end.

Definition process_changes (self : UploadHandler) (fname : string)
    : M (bool * ArchiveUploader * option string) :=
  do st <- get;
  do changes <- lift (parse_changes (fs st) fname);
  do uploader <-
    lift (one_or_none
            (List.filter
               (λ u, bool_decide (ch_primary_fingerprint changes
                                  ∈ up_pgp_fingerprints u))
               (db_uploaders (db st))));
  match uploader with
  | None =>
      raise (UploadException
               ("Unable to find registered uploader for fingerprint "
                +:+ Py.dq +:+ ch_primary_fingerprint changes +:+ Py.dq
                +:+ " for " +:+ Py.dq +:+ Py.basename fname +:+ Py.dq))
  | Some uploader =>
      if ch_weak_signature changes then
        ret (false, uploader,
             Some ("The GPG signature on " +:+ Py.basename fname
                   +:+ " is weak, please sign the upload with a stronger key."))
      else
        match ch_distributions changes with
        | [suite_name] =>
            if ch_sourceful changes && negb (up_allow_source_uploads uploader) then
              ret (false, uploader,
                   Some "This uploader is not permitted to make sourceful uploads.")
            else
              do rss <-
                lift (one (List.filter
                             (λ r, bool_decide (rss_repo_id r = repo_id (uh_repo self))
                                   && bool_decide (rss_suite_name r = suite_name))
                             (db_rss (db st))));
              do version <- lift (tag_item (ch_changes changes) "Version");
              match version_memory_at_least (db st) (rss_repo_id rss)
                      (ch_source_name changes) version with
              | Some result =>
                  ret (false, uploader,
                       Some ("We have already seen higher or equal version "
                             +:+ Py.dq +:+ result +:+ Py.dq
                             +:+ " of source package " +:+ Py.dq
                             +:+ ch_source_name changes +:+ Py.dq
                             +:+ " in repository " +:+ Py.dq
                             +:+ repo_name (uh_repo self) +:+ Py.dq
                             +:+ " before."))
              | None =>
                  match ch_files changes with
                  | inl (InvalidChangesException e) =>
                      ret (false, uploader,
                           Some ("This changes file was invalid: " +:+ e +:+ "."))
                  | inl e => raise e
                  | inr files =>
                      if negb (up_allow_binary_uploads uploader)
                         && existsb (λ file, is_deb (cf_fname file)) files
                      then
                        ret (false, uploader,
                             Some "This uploader is not allowed to upload binaries. Please upload a source-only package!.")
                      else
                        let pi :=
                          imp_with_keep_source_packages
                            (uh_keep_source_packages self)
                            (new_package_importer rss) in
                        let dsc_dir := Py.dirname fname in
                        do failed <- import_dsc pi uploader dsc_dir files;
                        match failed with
                        | Some reason => ret (false, uploader, Some reason)
                        | None =>
                            do failed <- import_debs pi dsc_dir files;
                            match failed with
                            | Some reason => ret (false, uploader, Some reason)
                            | None => ret (true, uploader, None)
                            end
                        end
                  end
              end
        | distributions =>
            ret (false, uploader,
                 Some ("Invalid amount of distributions set in this changes file. "
                       +:+ "We currently can only handle exactly one target (got "
                       +:+ repr_list distributions +:+ ")."))
        end
  end.

End Importer.

(** ** Frames and invariants *)

(** A method leaves a part of the database as it finds it, whatever its
    outcome. *)
Definition preserves_db {A X} (g : Database → X) (m : M A) : Prop :=
  ∀ st, g (db (m st).2) = g (db st).

(** What the archive says is published: the highest version seen of
    each package, and the suites with changes to publish. *)
Definition ledger (d : Database)
    : gmap (nat * string) string * list RepoSuiteSettings :=
  (db_version_memory d, db_rss d).

(** The decision of lines 249 to 269 for an upload: whether the source
    package goes to the NEW queue. *)
Definition routed_to_new `{Capabilities} (self : PackageImporter)
    (dsc_fname component_name : string) (new_policy : NewPolicy)
    (st : Archive) : bool :=
  match (source_prepare self dsc_fname component_name new_policy st).1 with
  | inr (_, _, _, is_new, _, _) => is_new
  | inl _ => false
  end.

(** The archive with one more row of a binary package, at the end. *)
Definition with_binary (row : BinaryPackage) (st : Archive) : Archive :=
  {| db := db_with_binaries (db_binaries (db st) ++ [row]) (db st); fs := fs st |}.

(** The binary package an attribute was assigned to: the attributes
    set before the object entered the session are as they were. *)
Definition same_binary (b b' : BinaryPackage) : Prop :=
  bp_name b' = bp_name b ∧ bp_version b' = bp_version b
  ∧ bp_repo_id b' = bp_repo_id b ∧ bp_architecture b' = bp_architecture b
  ∧ bp_source b' = bp_source b.

(** The database after a binary package was published: its row and the
    row of its file are added, the version memory of the package stands
    at its version, and the suite has changes to publish. *)
Definition binary_published (rss : RepoSuiteSettings) (row : BinaryPackage)
    (af : ArchiveFile) (d : Database) : Database :=
  {| db_components := db_components d; db_architectures := db_architectures d;
     db_sources := db_sources d; db_new_queue := db_new_queue d;
     db_binaries := db_binaries d ++ [row];
     db_files := db_files d ++ [af];
     db_version_memory :=
       <[(rss_repo_id rss, bp_name row) := bp_version row]> (db_version_memory d);
     db_overrides := db_overrides d;
     db_rss := (λ r, if bool_decide (rss_id r = rss_id rss)
                     then rss_with_changes_pending true r else r) <$> db_rss d;
     db_uploaders := db_uploaders d |}.

(** The file system after the file [src], with the given content, was
    copied to [dst] and, unless the importer keeps what it imports,
    removed. *)
Definition moved `{Capabilities} (keep : bool) (src dst content : string)
    (f : FileSystem) : FileSystem :=
  let f := write_file dst content f in
  if keep then f else unlink src f.

(** The uploader of a manifest, when exactly one is registered for the
    fingerprint of its signature. *)
Definition registered_uploader (st : Archive) (changes : Changes)
    (uploader : ArchiveUploader) : Prop :=
  List.filter (λ u, bool_decide (ch_primary_fingerprint changes
                                 ∈ up_pgp_fingerprints u))
              (db_uploaders (db st)) = [uploader].

(** ** The repository reader and the indices it trusts ([reporeader.py]) *)

(** [s.rfind(c)] for a one-character [c]: the last position of [c], or
    [-1]. *)
Fixpoint rfind_list (c : ascii) (l : list ascii) (i : nat) (found : option nat)
    : option nat :=
  match l with
  | [] => found
  | x :: l' =>
      rfind_list c l' (S i) (if bool_decide (x = c) then Some i else found)
  end.

Definition py_rfind (c : ascii) (s : string) : Z :=
  match rfind_list c (Py.chars s) O None with
  | Some i => Z.of_nat i
  | None => -1
  end.

(** [version_revision] *)
Definition version_revision (version : string) (full_for_native : bool) : string :=
  let idx := py_rfind "-"%char version in
  if idx <? 0 then (if full_for_native then version else "")
  else Py.slice version (idx + 1) (Z.of_nat (String.length version)).

Definition newline : string := String (ascii_of_nat 10) EmptyString.

Section Checksums.
Context `{ReaderHelpers}.

(** The loop of [parse_checksums_list] over the lines that remain. *)
Fixpoint parse_checksum_lines (lines : list string) (base_dir : option string)
    (files : list ReaderFile) : Result (list ReaderFile) :=
  match lines with
  | [] => Ok files
  | line :: rest =>
      match split_strip line " " with
      | [digest; size; name] =>
          try size <- int_of size;
          let fname :=
            match base_dir with
            | Some dir => if Py.falsy dir then name else Py.path_join dir name
            | None => name
            end in
          parse_checksum_lines rest base_dir
            (files ++ [ {| rf_fname := fname; rf_size := size;
                           rf_sha256sum := digest |} ])
      | _ => parse_checksum_lines rest base_dir files
      end
  end.

(** [parse_checksums_list(data, base_dir)]; [data] is [None] where the
    caller got no field. *)
Definition parse_checksums_list (data base_dir : option string)
    : Result (list ReaderFile) :=
  match data with
  | None => Ok []
  | Some data =>
      if Py.falsy data then Ok []
      else parse_checksum_lines (Py.split data newline) base_dir []
  end.

End Checksums.

(** What the reader calls and this embedding does not define:
    [SignedFile(contents, keyrings, require_signature).contents],
    [TagSection] and [TagFile] of [apt_pkg] on the text of a file,
    [apt_pkg.sha256sum], [apt_pkg.version_compare], and
    [laniakea.utils.download_file], which raises, writes nothing, or
    writes what it fetched. *)
Class RepositoryAccess := {
  signed_file : string → list string → bool → Result string;
  tag_section : string → gmap string string;
  tag_file : string → list (gmap string string);
  sha256sum : string → string;
  apt_version_compare : string → string → Z;
  download_file : string → bool → Result (option string);
}.

(** What [RepositoryReader.__init__] fixes, and what the methods change:
    the trust flag, the [_inrelease] cache, and the files under the
    root directory. *)
Record ReaderSetup := {
  rr_reader : RepositoryReader;
  rr_root_dir : string;
  rr_repo_url : option string;
  rr_keyrings : list string;
}.

Record ReaderState := {
  rr_trusted : bool;
  rr_inrelease : gmap string (list ReaderFile);
  rr_disk : gmap string string;
}.

(** [RepositoryReader.set_trusted] *)
Definition set_trusted (trusted : bool) (st : ReaderState) : ReaderState :=
  {| rr_trusted := trusted; rr_inrelease := rr_inrelease st;
     rr_disk := rr_disk st |}.

(** [RepositoryReader.location] *)
Definition location (self : ReaderSetup) : string :=
  match rr_repo_url self with
  | Some url => if Py.falsy url then rr_root_dir self else url
  | None => rr_root_dir self
  end.

Section Repository.
Context `{ReaderHelpers} `{RepositoryAccess}.

(** [RepositoryReader._fetch_repo_file_internal]; the log lines are
    left out. *)
Definition fetch_repo_file_internal (self : ReaderSetup) (loc : string)
    (check : bool) (st : ReaderState) : Result (option string) * ReaderState :=
  let local :=
    let fname := Py.path_join (rr_root_dir self) loc in
    if bool_decide (is_Some (rr_disk st !! fname)) then (Ok (Some fname), st)
    else (Ok None, st) in
  match rr_repo_url self with
  | Some url =>
      if Py.falsy url then local
      else
        let source_url := Py.path_join url loc in
        let target_fname := Py.path_join (rr_root_dir self) loc in
        match download_file source_url check with
        | inl ex => (Raise ex, st)
        | inr None => (Ok (Some target_fname), st)
        | inr (Some content) =>
            (Ok (Some target_fname),
             {| rr_trusted := rr_trusted st; rr_inrelease := rr_inrelease st;
                rr_disk := <[target_fname := content]> (rr_disk st) |})
        end
  | None => local
  end.

Definition inrelease_path (suite_name : string) : string :=
  Py.path_join (Py.path_join "dists" suite_name) "InRelease".

(** [RepositoryReader._read_repo_information] *)
Definition read_repo_information (self : ReaderSetup) (suite_name : string)
    (check : bool) (st : ReaderState) : Result (list ReaderFile) * ReaderState :=
  match rr_inrelease st !! suite_name with
  | Some ird => (Ok ird, st)
  | None =>
      let '(irfname, st) :=
        fetch_repo_file_internal self (inrelease_path suite_name) false st in
      match irfname with
      | inl ex => (Raise ex, st)
      | inr None =>
          if check then
            (Raise (PlainException
                      ("Unable to find InRelease data for repository "
                       +:+ Py.dq +:+ location self +:+ Py.dq
                       +:+ " (expected `" +:+ inrelease_path suite_name +:+ "`)")),
             st)
          else (Ok [], st)
      | inr (Some irfname) =>
          match rr_disk st !! irfname with
          | None => (Raise (OSError irfname), st)
          | Some contents =>
              let require_signature :=
                negb (rr_trusted st && bool_decide (rr_keyrings self = [])) in
              match
                (try contents <-
                   signed_file contents (rr_keyrings self) require_signature;
                 let section := tag_section contents in
                 try files_raw <- tag_item section "SHA256";
                 parse_checksums_list (Some files_raw) None)
              with
              | inl ex => (Raise ex, st)
              | inr files =>
                  (Ok files,
                   {| rr_trusted := rr_trusted st;
                      rr_inrelease := <[suite_name := files]> (rr_inrelease st);
                      rr_disk := rr_disk st |})
              end
          end
      end
  end.

(** The loop of [index_file] over the files of the [InRelease] data. *)
Fixpoint validate_index (fname index_sha256sum : string)
    (files : list ReaderFile) (valid : bool) : Result bool :=
  match files with
  | [] => Ok valid
  | af :: rest =>
      if bool_decide (rf_fname af = fname) then
        if bool_decide (index_sha256sum ≠ rf_sha256sum af) then
          Raise (PlainException
                   ("Checksum validation of " +:+ Py.dq +:+ fname +:+ Py.dq
                    +:+ " failed (" +:+ index_sha256sum +:+ " != "
                    +:+ rf_sha256sum af +:+ ")"))
        else validate_index fname index_sha256sum rest true
      else validate_index fname index_sha256sum rest valid
  end.

(** [RepositoryReader.index_file] for a suite given by its name. *)
Definition index_file (self : ReaderSetup) (suite_name fname : string)
    (check : bool) (st : ReaderState) : Result (option string) * ReaderState :=
  let remote :=
    match rr_repo_url self with
    | Some url => negb (Py.falsy url)
    | None => false
    end in
  let st :=
    if remote
    then {| rr_trusted := rr_trusted st;
            rr_inrelease := delete suite_name (rr_inrelease st);
            rr_disk := rr_disk st |}
    else st in
  let '(ird, st) := read_repo_information self suite_name true st in
  match ird with
  | inl ex => (Raise ex, st)
  | inr ird =>
      let '(index_fname, st) :=
        fetch_repo_file_internal self
          (Py.path_join (Py.path_join "dists" suite_name) fname) false st in
      match index_fname with
      | inl ex => (Raise ex, st)
      | inr None => (Ok None, st)
      | inr (Some index_fname) =>
          match rr_disk st !! index_fname with
          | None => (Raise (OSError index_fname), st)
          | Some content =>
              match validate_index fname (sha256sum content) ird false with
              | inl ex => (Raise ex, st)
              | inr valid =>
                  if negb valid && check then
                    (Raise (PlainException
                              ("Unable to validate " +:+ Py.dq +:+ fname +:+ Py.dq
                               +:+ ": File not mentioned in InRelease.")),
                     st)
                  else (Ok (Some index_fname), st)
              end
          end
      end
  end.

(** [RepositoryReader.binary_packages], with the list
    [ExternalBinaryPackage.suites] before and after; the shadow
    architecture is [None] where the caller passes none. *)
Definition binary_packages (self : ReaderSetup) (suite component arch : string)
    (shadow_arch : option string) (class_suites : list string) (st : ReaderState)
    : list LogRecord * Result (list ExternalBinaryPackage) * list string
      * ReaderState :=
  let shadow_arch := default arch shadow_arch in
  let packages_of (a : string) : string :=
    Py.path_join (Py.path_join component ("binary-" +:+ a)) "Packages.xz" in
  let read (index_fname : string) (st : ReaderState) :=
    match rr_disk st !! index_fname with
    | None => ([], Raise (OSError index_fname), class_suites, st)
    | Some content =>
        (read_binary_packages_from_tf (rr_reader self) (tag_file content)
           index_fname suite component arch DEB class_suites, st)
    end in
  let '(index_fname, st) := index_file self suite (packages_of arch) true st in
  match index_fname with
  | inl ex => ([], Raise ex, class_suites, st)
  | inr (Some index_fname) => read index_fname st
  | inr None =>
      if bool_decide (shadow_arch ≠ arch) then
        let '(index_fname, st) :=
          index_file self suite (packages_of shadow_arch) true st in
        match index_fname with
        | inl ex => ([], Raise ex, class_suites, st)
        | inr (Some index_fname) => read index_fname st
        | inr None => ([], Ok [], class_suites, st)
        end
      else ([], Ok [], class_suites, st)
  end.

End Repository.

Section Newest.
Context `{RepositoryAccess} {P : Type} (name version : P → string).

(** One turn of the loop of [make_newest_packages_dict]. *)
Definition newest_step (res : gmap string P) (pkg : P) : gmap string P :=
  match res !! name pkg with
  | Some epkg =>
      if 0 <? apt_version_compare (version pkg) (version epkg)
      then <[name pkg := pkg]> res
      else res
  | None => <[name pkg := pkg]> res
  end.

(** [make_newest_packages_dict] for packages with the attributes [name]
    and [version]. *)
Definition make_newest_packages_dict (pkgs : list P) : gmap string P :=
  foldl newest_step ∅ pkgs.

End Newest.

(** The file a line of a checksum list stands for, if it has exactly
    three fields and the second is a number. *)
Definition checksum_entry `{ReaderHelpers} (base_dir : option string) (line : string)
    (f : ReaderFile) : Prop :=
  ∃ digest size name,
    split_strip line " " = [digest; size; name]
    ∧ py_int size = Some (rf_size f)
    ∧ rf_sha256sum f = digest
    ∧ rf_fname f = match base_dir with
                   | Some dir => if Py.falsy dir then name else Py.path_join dir name
                   | None => name
                   end.

(** ** Dependency issues ([debcheck/dose.py]) *)

Inductive PackageType := SOURCE | BINARY.

#[global] Instance PackageType_eq_dec : EqDecision PackageType.
Proof. solve_decision. Defined.

(** What [set_basic_package_info] writes to an issue. *)
Record BasicPackageInfo := {
  bpi_package_type : PackageType;
  bpi_package_name : string;
  bpi_package_version : string;
  bpi_architectures : list string;
}.

(** [l.remove(x)] with the [ValueError] of a list without [x] caught:
    the first [x] goes. *)
Fixpoint remove_first (x : string) (l : list string) : list string :=
  match l with
  | [] => []
  | y :: l' => if bool_decide (y = x) then l' else y :: remove_first x l'
  end.

(** The function [set_basic_package_info] of [_dose_yaml_to_issues],
    for the selected architecture [arch_name] and an entry of the
    report whose values are given as [str] renders them. *)
Definition set_basic_package_info (arch_name : string)
    (entry : gmap string string) : Result BasicPackageInfo :=
  let package_type :=
    if bool_decide (entry !! "type" = Some "src") then SOURCE else BINARY in
  try package_name <- tag_item entry "package";
  try package_version <- tag_item entry "version";
  try architecture <- tag_item entry "architecture";
  let architectures_raw := Py.split architecture "," in
  let architectures :=
    match package_type with
    | BINARY =>
        let l := remove_first "any" architectures_raw in
        if bool_decide (arch_name ∈ l) then l else l ++ [arch_name]
    | SOURCE =>
        if bool_decide ("all" ∈ architectures_raw) then [arch_name; "all"]
        else [arch_name]
    end in
  Ok {| bpi_package_type := package_type;
        bpi_package_name := package_name;
        bpi_package_version := package_version;
        bpi_architectures := architectures |}.

(** ** Filters of the message publisher ([mirk/msgpublish.py]) *)

(** [fnmatch.fnmatch] *)
Class Glob := {
  fnmatch : string → string → bool;
}.

(** A value of the data of an event: a string, a list whose members
    are strings or something else, or another value, of which only
    the truth value matters. *)
Inductive EventValue :=
| EvStr (s : string)
| EvList (items : list (option string))
| EvOther (truthy : bool).

(** A value of a filter rule: one pattern or a list of patterns. *)
Inductive FilterValue :=
| FOne (pattern : string)
| FMany (patterns : list string).

Record Event := {
  ev_tag : string;
  ev_data : gmap string EventValue;
}.

(** [not event_value] for what [flat_data.get(key)] returns. *)
Definition event_value_falsy (v : option EventValue) : bool :=
  match v with
  | None => true
  | Some (EvStr s) => Py.falsy s
  | Some (EvList items) => bool_decide (items = [])
  | Some (EvOther truthy) => negb truthy
  end.

Section Filters.
Context `{Glob}.

(** [filter_entry_matches] *)
Definition filter_entry_matches (fentry : FilterValue) (data : string) : bool :=
  match fentry with
  | FMany patterns => existsb (λ fe, fnmatch data fe) patterns
  | FOne pattern => fnmatch data pattern
  end.

(** The loop over a list value: [match_okay] after the loop; a member
    that does not match ends the loop. *)
Fixpoint match_members (filter_value : FilterValue) (items : list (option string))
    (match_okay : bool) : bool :=
  match items with
  | [] => match_okay
  | None :: rest => match_members filter_value rest match_okay
  | Some evs :: rest =>
      if filter_entry_matches filter_value evs
      then match_members filter_value rest true
      else false
  end.

(** The loop over the items of a rule: [match_okay] after the loop;
    every [break] leaves it false. *)
Fixpoint rule_matches (flat_data : gmap string EventValue)
    (rule : list (string * FilterValue)) (match_okay : bool) : bool :=
  match rule with
  | [] => match_okay
  | (key, filter_value) :: rest =>
      let event_value := flat_data !! key in
      if event_value_falsy event_value then rule_matches flat_data rest match_okay
      else
        match event_value with
        | Some (EvStr s) =>
            if filter_entry_matches filter_value s
            then rule_matches flat_data rest true
            else false
        | Some (EvList items) =>
            if match_members filter_value items match_okay
            then rule_matches flat_data rest true
            else false
        | _ => rule_matches flat_data rest match_okay
        end
  end.

(** [filter_rules_match_event]: the result, and the data of the event,
    which now has the tag in it. *)
Definition filter_rules_match_event (rules : list (list (string * FilterValue)))
    (event : Event) : bool * Event :=
  let flat_data := <["tag" := EvStr (ev_tag event)]> (ev_data event) in
  (existsb (λ rule, rule_matches flat_data rule false) rules,
   {| ev_tag := ev_tag event; ev_data := flat_data |}).

End Filters.

(** ** Database sessions ([laniakea/db/base.py]) *)

Inductive SessionCall := Commit | Rollback | Close.

#[global] Instance SessionCall_eq_dec : EqDecision SessionCall.
Proof. solve_decision. Defined.

Section Sessions.
(** The exception a call of the session raises, if it raises. *)
Context (fails : SessionCall → option Exception).

(** A call of the session, added to the calls made so far. *)
Definition session_call (c : SessionCall) (log : list SessionCall)
    : Result unit * list SessionCall :=
  (match fails c with Some ex => Raise ex | None => Ok () end, log ++ [c]).

(** [session_scope] around a body that returns or raises: the outcome
    of the [with] statement and the calls made on the session. *)
Definition session_scope {A} (body : Result A) : Result A * list SessionCall :=
  let log := [] in
  let except (ex : Exception) (log : list SessionCall) :=
    let '(r, log) := session_call Rollback log in
    match r with
    | inl ex' => (Raise ex', log)
    | inr _ => (Raise ex, log)
    end in
  let '(r, log) :=
    match body with
    | inl ex => except ex log
    | inr x =>
        let '(r, log) := session_call Commit log in
        match r with
        | inl ex => except ex log
        | inr _ => (Ok x, log)
        end
    end in
  let '(closed, log) := session_call Close log in
  match closed with
  | inl ex => (Raise ex, log)
  | inr _ => (r, log)
  end.

End Sessions.

(** ** Kinds of synchronisation issues ([laniakea/db/synchrotron.py]) *)

Inductive SynchrotronIssueKind :=
| UNKNOWN | NONE | MERGE_REQUIRED | MAYBE_CRUFT | SYNC_FAILED | REMOVAL_FAILED.

#[global] Instance SynchrotronIssueKind_eq_dec : EqDecision SynchrotronIssueKind.
Proof. solve_decision. Defined.

(** The value and the name of a member of the [IntEnum]. *)
Definition kind_value (k : SynchrotronIssueKind) : Z :=
  match k with
  | UNKNOWN => 0 | NONE => 1 | MERGE_REQUIRED => 2 | MAYBE_CRUFT => 3
  | SYNC_FAILED => 4 | REMOVAL_FAILED => 5
  end.

Definition kind_name (k : SynchrotronIssueKind) : string :=
  match k with
  | UNKNOWN => "UNKNOWN" | NONE => "NONE" | MERGE_REQUIRED => "MERGE_REQUIRED"
  | MAYBE_CRUFT => "MAYBE_CRUFT" | SYNC_FAILED => "SYNC_FAILED"
  | REMOVAL_FAILED => "REMOVAL_FAILED"
  end.

(** [SynchrotronIssueKind.to_string] *)
Definition to_string (k : SynchrotronIssueKind) : string :=
  if kind_value k =? kind_value NONE then "none"
  else if kind_value k =? kind_value MERGE_REQUIRED then "merge-required"
  else if kind_value k =? kind_value MAYBE_CRUFT then "maybe-cruft"
  else if kind_value k =? kind_value SYNC_FAILED then "sync-failed"
  else if kind_value k =? kind_value REMOVAL_FAILED then "removal-failed"
  else "SynchrotronIssueKind." +:+ kind_name k.

(** A string the event has under a key: the value itself, if it is a
    string that is not empty, or a member of the value, if it is a
    list. *)
Definition present_string (flat_data : gmap string EventValue) (key s : string)
    : Prop :=
  (flat_data !! key = Some (EvStr s) ∧ s ≠ "")
  ∨ (∃ items, flat_data !! key = Some (EvList items) ∧ Some s ∈ items).

(** An event as it comes from the message stream, with the signers of
    its signatures in the order of the dictionary. *)
Record SignedEvent := {
  se_event : Event;
  se_signatures : list string;
}.

(** What the publisher calls and this embedding does not define:
    [verify_event_message], which raises on a signature that is not
    valid, and the templates that [_tag_data_to_html_message] renders
    a tag and its data with. *)
Class Messaging := {
  VerifyKey : Type;
  verify_event_message : string → SignedEvent → VerifyKey → Result unit;
  tag_data_to_html_message : string → gmap string EventValue → string;
}.

Record MatrixPublisher `{Messaging} := {
  mp_trusted_keys : gmap string VerifyKey;
  mp_allow_unsigned : bool;
  mp_message_prefix : string;
  mp_rooms : list (string * list (list (string * FilterValue)));
}.

Definition EVENT_TAG_BLACKLIST : list string :=
  ["_lk.debcheck.issue-resolved"; "_lk.debcheck.issue-found"].

Definition verify_failed_mark : string :=
  "[<font color=" +:+ Py.dq +:+ "#ed1515" +:+ Py.dq +:+ ">VERIFY_FAILED</font>] ".

Section Publisher.
Context `{Glob} `{Messaging}.

(** The loop of [_on_event_received] over the signers: the first
    signer with a trusted key decides. *)
Fixpoint signature_trusted (self : MatrixPublisher) (event : SignedEvent)
    (signers : list string) : bool :=
  match signers with
  | [] => false
  | signer :: rest =>
      match mp_trusted_keys self !! signer with
      | None => signature_trusted self event rest
      | Some key =>
          match verify_event_message signer event key with
          | inl _ => false
          | inr _ => true
          end
      end
  end.

(** The loop of [_rooms_publish_text]: the messages sent, as room and
    text, and the event, which every filter writes the tag to. *)
Fixpoint rooms_publish_loop (self : MatrixPublisher)
    (rooms : list (string * list (list (string * FilterValue))))
    (event : Event) (text : string) : list (string * string) * Event :=
  match rooms with
  | [] => ([], event)
  | (room_id, filter_rules) :: rest =>
      match filter_rules with
      | [] =>
          let '(sent, event) := rooms_publish_loop self rest event text in
          ((room_id, mp_message_prefix self +:+ text) :: sent, event)
      | _ =>
          let '(matched, event) := filter_rules_match_event filter_rules event in
          let '(sent, event) := rooms_publish_loop self rest event text in
          (if matched then (room_id, mp_message_prefix self +:+ text) :: sent
           else sent, event)
      end
  end.

(** [MatrixPublisher._rooms_publish_text] *)
Definition rooms_publish_text (self : MatrixPublisher) (event : Event)
    (text : string) : list (string * string) * Event :=
  if Py.falsy text then ([], event)
  else rooms_publish_loop self (mp_rooms self) event text.

(** [MatrixPublisher._on_event_received] *)
Definition on_event_received (self : MatrixPublisher) (event : SignedEvent)
    : list (string * string) * Event :=
  let tag := ev_tag (se_event event) in
  let data := ev_data (se_event event) in
  if bool_decide (tag ∈ EVENT_TAG_BLACKLIST) then ([], se_event event)
  else if signature_trusted self event (se_signatures event) then
    rooms_publish_text self (se_event event) (tag_data_to_html_message tag data)
  else if mp_allow_unsigned self then
    rooms_publish_text self (se_event event)
      (verify_failed_mark +:+ tag_data_to_html_message tag data)
  else ([], se_event event).

End Publisher.

(** A method that returns gives a result with the property [Q]. *)
Definition returns {A} (Q : A → Prop) (m : M A) : Prop :=
  ∀ st x st', m st = (Ok x, st') → Q x.

(** The name and the version of a package object. *)
Definition same_package (p q : SourcePackage) : Prop :=
  sp_name q = sp_name p ∧ sp_version q = sp_version p.

(** ** Reading a [Sources] index ([reporeader.py]) *)

(** A [PackageInfo] as [source_packages] fills it for a binary that a
    source package is expected to build. *)
Record ExpectedBinary `{ReaderHelpers} := {
  xb_deb_type : DebType;
  xb_name : string;
  xb_version : string;
  xb_architectures : list string;
  xb_component : string;
  xb_section : option string;
  xb_essential : bool;
  xb_priority : PackagePriority;
}.

(** [parse_package_list_str] of [laniakea.archive.utils], with the
    default version and architectures the reader passes. *)
Class PackageLists `{ReaderHelpers} := {
  parse_package_list : string → string → list string → list ExpectedBinary;
}.

(** The attributes [source_packages] assigns to a package.  It assigns
    no [suites]: that attribute stays the list of the class
    [ExternalSourcePackage], which all packages share and which is part
    of the state. *)
Record ExternalSourcePackage `{ReaderHelpers} := {
  esp_name : string;
  esp_version : string;
  esp_repo : string;
  esp_component : string;
  esp_architectures : list string;
  esp_standards_version : string;
  esp_format_version : string;
  esp_vcs_browser : option string;
  esp_homepage : option string;
  esp_maintainer : string;
  esp_uploaders : list string;
  esp_build_depends : list string;
  esp_directory : string;
  esp_extra_source_only : bool;
  esp_files : list ReaderFile;
  esp_expected_binaries : list ExpectedBinary;
}.

(** What [source_packages] hands to [log.warning]. *)
Inductive SourceLogRecord :=
| WarnSourceNoFiles (pkgname pkgversion location : string).

Section Sources.
Context `{ReaderHelpers} `{!PackageLists} `{RepositoryAccess}.

Definition invalid_source_block (index_fname : string) : Exception :=
  PlainException
    ("Found invalid block (no Package and Version fields) in Sources file "
     +:+ Py.dq +:+ index_fname +:+ Py.dq +:+ ".").

(** The binaries named by the field [Binary], for a stanza without a
    package list. *)
Definition binary_stubs (component pkgversion : string)
    (architectures : list string) (e : gmap string string)
    : list ExpectedBinary :=
  (λ bpname,
     {| xb_deb_type := DEB;
        xb_name := Py.strip bpname;
        xb_version := pkgversion;
        xb_architectures := architectures;
        xb_component := component;
        xb_section := e !! "Section";
        xb_essential := bool_decide (tag_get e "Essential" "no" = "yes");
        xb_priority := priority_from_string (tag_get e "Priority" "optional") |})
  <$> List.filter (λ bpname, negb (Py.falsy bpname))
        (Py.split (tag_get e "Binary" "") ",").

(** The body of the loop of [source_packages] from the construction of
    [pkg] on, after the suite has been added to the list of the
    class. *)
Definition build_source_package (self : ReaderSetup) (component : string)
    (pkgname pkgversion : string) (extra_source_only : bool)
    (e : gmap string string)
    : list SourceLogRecord * Result ExternalSourcePackage :=
  match
    (try architecture <- tag_item e "Architecture";
     let architectures := split_strip architecture " " in
     try format_version <- tag_item e "Format";
     try maintainer <- tag_item e "Maintainer";
     try directory <- tag_item e "Directory";
     try files <- parse_checksums_list (e !! "Checksums-Sha256") (Some directory);
     let ex_binaries :=
       match e !! "Package-List" with
       | Some raw_pkg_list =>
           if Py.falsy raw_pkg_list
           then binary_stubs component pkgversion architectures e
           else parse_package_list raw_pkg_list pkgversion architectures
       | None => binary_stubs component pkgversion architectures e
       end in
     Ok {| esp_name := pkgname;
           esp_version := pkgversion;
           esp_repo := reader_repo_entity (rr_reader self);
           esp_component := component;
           esp_architectures := architectures;
           esp_standards_version := tag_get e "Standards-Version" "0~notset";
           esp_format_version := format_version;
           esp_vcs_browser := e !! "Vcs-Browser";
           esp_homepage := e !! "Homepage";
           esp_maintainer := maintainer;
           esp_uploaders := split_strip (tag_get e "Uploaders" "") ",";
           esp_build_depends := split_strip (tag_get e "Build-Depends" "") ",";
           esp_directory := directory;
           esp_extra_source_only := extra_source_only;
           esp_files := files;
           esp_expected_binaries := ex_binaries |})
  with
  | inl ex => ([], inl ex)
  | inr pkg =>
      (if bool_decide (esp_files pkg = [])
          && bool_decide (esp_format_version pkg ≠ "1.0")
       then [WarnSourceNoFiles (esp_name pkg) (esp_version pkg) (location self)]
       else [],
       Ok pkg)
  end.

(** One turn of the loop: the warnings, the package or [None] for
    [continue], and the list [ExternalSourcePackage.suites] after the
    turn. *)
Definition read_source_stanza (self : ReaderSetup) (index_fname : string)
    (suite component : string) (include_extra_sources : bool)
    (e : gmap string string) (class_suites : list string)
    : list SourceLogRecord * Result (option ExternalSourcePackage) * list string :=
  match
    (try pkgname <- tag_item e "Package";
     try pkgversion <- tag_item e "Version";
     if Py.falsy pkgname || Py.falsy pkgversion
     then Raise (invalid_source_block index_fname)
     else Ok (pkgname, pkgversion))
  with
  | inl ex => ([], inl ex, class_suites)
  | inr (pkgname, pkgversion) =>
      let extra_source_only :=
        bool_decide (tag_get e "Extra-Source-Only" "no" = "yes") in
      if negb include_extra_sources && extra_source_only
      then ([], Ok None, class_suites)
      else
        let class_suites :=
          if bool_decide (suite ∈ class_suites) then class_suites
          else class_suites ++ [suite] in
        let '(w, r) :=
          build_source_package self component pkgname pkgversion
            extra_source_only e in
        (w, match r with inl ex => inl ex | inr pkg => Ok (Some pkg) end,
         class_suites)
  end.

Fixpoint read_source_packages_loop (self : ReaderSetup)
    (tf : list (gmap string string)) (index_fname : string)
    (suite component : string) (include_extra_sources : bool)
    (pkgs : list ExternalSourcePackage) (class_suites : list string)
    : list SourceLogRecord * Result (list ExternalSourcePackage) * list string :=
  match tf with
  | [] => ([], Ok pkgs, class_suites)
  | e :: tf' =>
      let '(w, r, class_suites) :=
        read_source_stanza self index_fname suite component
          include_extra_sources e class_suites in
      match r with
      | inl ex => (w, inl ex, class_suites)
      | inr o =>
          let pkgs' := match o with Some pkg => pkgs ++ [pkg] | None => pkgs end in
          let '(w', r', class_suites) :=
            read_source_packages_loop self tf' index_fname suite component
              include_extra_sources pkgs' class_suites in
          (w ++ w', r', class_suites)
      end
  end.

(** [RepositoryReader.source_packages], with the list
    [ExternalSourcePackage.suites] before and after. *)
Definition source_packages (self : ReaderSetup) (suite component : string)
    (include_extra_sources : bool) (class_suites : list string)
    (st : ReaderState)
    : list SourceLogRecord * Result (list ExternalSourcePackage)
      * list string * ReaderState :=
  let '(index_fname, st) :=
    index_file self suite
      (Py.path_join (Py.path_join component "source") "Sources.xz") true st in
  match index_fname with
  | inl ex => ([], Raise ex, class_suites, st)
  | inr None => ([], Ok [], class_suites, st)
  | inr (Some index_fname) =>
      match rr_disk st !! index_fname with
      | None => ([], Raise (OSError index_fname), class_suites, st)
      | Some content =>
          (read_source_packages_loop self (tag_file content) index_fname
             suite component include_extra_sources [] class_suites, st)
      end
  end.

End Sources.

(** A package as [source_packages] lists it for a stanza of the index:
    its name, version and directory are the fields of the stanza, name
    and version are not empty, and each of its files stands for a line
    of the field [Checksums-Sha256] with exactly three fields, with the
    digest and the size of the line and with the name of the line
    joined to the directory.  The name of such a file begins with the
    directory unless the line gives an absolute name. *)
Definition well_listed `{ReaderHelpers} (e : gmap string string)
    (pkg : ExternalSourcePackage) : Prop :=
  e !! "Package" = Some (esp_name pkg) ∧ esp_name pkg ≠ ""
  ∧ e !! "Version" = Some (esp_version pkg) ∧ esp_version pkg ≠ ""
  ∧ e !! "Directory" = Some (esp_directory pkg)
  ∧ Forall (λ f, ∃ text line digest size name,
                   e !! "Checksums-Sha256" = Some text
                   ∧ line ∈ Py.split text newline
                   ∧ split_strip line " " = [digest; size; name]
                   ∧ py_int size = Some (rf_size f)
                   ∧ rf_sha256sum f = digest
                   ∧ rf_fname f = (if Py.falsy (esp_directory pkg) then name
                                   else Py.path_join (esp_directory pkg) name)
                   ∧ (Py.startswith name "/" = false →
                      Py.startswith (rf_fname f) (esp_directory pkg) = true))
           (esp_files pkg).

(** ** A sample environment *)

(** Stand-ins for the helpers and capabilities, to run the embedding on
    concrete uploads and indices. *)
Module Sample.

Definition digit_value (c : ascii) : option Z :=
  let n := nat_of_ascii c in
  if ((48 <=? n) && (n <=? 57))%nat then Some (Z.of_nat n - 48) else None.

Fixpoint decimal (l : list ascii) (acc : Z) : option Z :=
  match l with
  | [] => Some acc
  | c :: l' =>
      match digit_value c with
      | Some d => decimal l' (10 * acc + d)
      | None => None
      end
  end.

(** [int] on an optional sign and decimal digits, blanks around it
    ignored. *)
Definition parse_int (s : string) : option Z :=
  match Py.strip_list (Py.chars s) with
  | [] => None
  | "-"%char :: (_ :: _) as l => Z.opp <$> decimal l 0
  | "+"%char :: (_ :: _) as l => decimal l 0
  | l => decimal l 0
  end.

Definition split_and_strip (s sep : string) : list string :=
  List.filter (λ x, negb (Py.falsy x)) (Py.strip <$> Py.split s sep).

Definition reader_helpers : ReaderHelpers :=
  {| PackagePriority := string;
     priority_from_string := id;
     split_strip := split_and_strip;
     py_int := parse_int |}.

Definition stanza (fields : list (string * string)) : gmap string string :=
  list_to_map fields.

(** Three stanzas of a [Packages] index: one for the architecture
    [amd64], one for [all] and one for [arm64]. *)
Definition hello_amd64 : gmap string string :=
  stanza [("Package", "hello"); ("Version", "2.10-3"); ("Architecture", "amd64");
          ("Maintainer", "Santiago Vila <sanvila@debian.org>");
          ("Installed-Size", "277"); ("Depends", "libc6 (>= 2.34)");
          ("Section", "devel"); ("Priority", "optional");
          ("Description", "example package based on GNU hello");
          ("Filename", "pool/main/h/hello/hello_2.10-3_amd64.deb");
          ("Size", "53324"); ("SHA256", "c0ffee")].

Definition hello_data_all : gmap string string :=
  stanza [("Package", "hello-data"); ("Version", "2.10-3"); ("Architecture", "all");
          ("Maintainer", "Santiago Vila <sanvila@debian.org>");
          ("Source", "hello"); ("Installed-Size", "12");
          ("Section", "devel"); ("Priority", "optional");
          ("Description", "data of the example package");
          ("Filename", "pool/main/h/hello/hello-data_2.10-3_all.deb");
          ("Size", "1024"); ("SHA256", "decade")].

Definition hello_arm64 : gmap string string :=
  stanza [("Package", "hello"); ("Version", "2.10-3"); ("Architecture", "arm64");
          ("Maintainer", "Santiago Vila <sanvila@debian.org>");
          ("Installed-Size", "280");
          ("Section", "devel"); ("Priority", "optional");
          ("Description", "example package based on GNU hello");
          ("Filename", "pool/main/h/hello/hello_2.10-3_arm64.deb");
          ("Size", "53000"); ("SHA256", "facade")].

Definition reader : RepositoryReader :=
  {| reader_name := "debian"; reader_repo_entity := "debian" |}.


(** The order of Debian versions: the epoch as a number, then the
    upstream part and the revision, each cut into runs of non-digits
    and of digits; a run of non-digits compares letter by letter with
    the tilde before the end, the end before a letter and a letter
    before anything else, a run of digits as a number. *)
Definition is_alpha (c : ascii) : bool :=
  let n := nat_of_ascii c in
  ((65 <=? n) && (n <=? 90) || (97 <=? n) && (n <=? 122))%nat.

Definition order (c : ascii) : Z :=
  match digit_value c with
  | Some _ => 0
  | None =>
      if is_alpha c then Z.of_nat (nat_of_ascii c)
      else if bool_decide (c = "~"%char) then -1
      else Z.of_nat (nat_of_ascii c) + 256
  end.

Fixpoint segments (l : list ascii) (in_number : bool) (text : list ascii)
    (number : Z) : list (list ascii * Z) :=
  match l with
  | [] => [(rev text, number)]
  | c :: l' =>
      match digit_value c with
      | Some d => segments l' true text (10 * number + d)
      | None =>
          if in_number then (rev text, number) :: segments l' false [c] 0
          else segments l' false (c :: text) number
      end
  end.

Fixpoint compare_text (a b : list ascii) : comparison :=
  match a, b with
  | [], [] => Eq
  | [], d :: _ => 0 ?= order d
  | c :: _, [] => order c ?= 0
  | c :: a', d :: b' =>
      match order c ?= order d with
      | Eq => compare_text a' b'
      | r => r
      end
  end.

Definition compare_segment (x y : list ascii * Z) : comparison :=
  match compare_text x.1 y.1 with
  | Eq => x.2 ?= y.2
  | r => r
  end.

Fixpoint against_nothing (a : list (list ascii * Z)) : comparison :=
  match a with
  | [] => Eq
  | x :: a' =>
      match compare_segment x ([], 0) with
      | Eq => against_nothing a'
      | r => r
      end
  end.

Fixpoint compare_segments (a b : list (list ascii * Z)) : comparison :=
  match a, b with
  | [], _ => CompOpp (against_nothing b)
  | _, [] => against_nothing a
  | x :: a', y :: b' =>
      match compare_segment x y with
      | Eq => compare_segments a' b'
      | r => r
      end
  end.

Definition compare_part (a b : list ascii) : comparison :=
  compare_segments (segments a false [] 0) (segments b false [] 0).

(** The text before the first colon and the text after it. *)
Fixpoint cut_epoch (l : list ascii) (seen : list ascii)
    : option (list ascii) * list ascii :=
  match l with
  | [] => (None, rev seen)
  | c :: l' =>
      if bool_decide (c = ":"%char) then (Some (rev seen), l')
      else cut_epoch l' (c :: seen)
  end.

(** The text before the last hyphen and the text after it. *)
Definition cut_revision (l : list ascii) : list ascii * list ascii :=
  match list_find (λ c, c = "-"%char) (rev l) with
  | Some (i, _) => (take (length l - S i) l, drop (length l - i) l)
  | None => (l, [])
  end.

Definition deb_version_compare (a b : string) : comparison :=
  let '(ea, ra) := cut_epoch (Py.chars a) [] in
  let '(eb, rb) := cut_epoch (Py.chars b) [] in
  match compare_part (default [] ea) (default [] eb) with
  | Eq =>
      let '(ua, va) := cut_revision ra in
      let '(ub, vb) := cut_revision rb in
      match compare_part ua ub with
      | Eq => compare_part va vb
      | r => r
      end
  | r => r
  end.

(** The hash primitive: a digest is the name of the algorithm and the
    content, the size is the length in decimal. *)
Definition digest (kind content : string) : string := kind +:+ ":" +:+ content.

Definition size_of (content : string) : string := pretty (String.length content).

Definition hashes (content : string) : list HashString :=
  [ {| hashtype := "MD5Sum"; hashvalue := digest "md5" content |};
    {| hashtype := "SHA1"; hashvalue := digest "sha1" content |};
    {| hashtype := "SHA256"; hashvalue := digest "sha256" content |};
    {| hashtype := "SHA512"; hashvalue := digest "sha512" content |};
    {| hashtype := "Checksum-FileSize"; hashvalue := size_of content |} ].

Definition checksum_lines (kind : string) (files : list (string * string))
    : list ChecksumLine :=
  (λ '(name, content),
     {| cl_digest := digest kind content; cl_size := size_of content;
        cl_name := name |}) <$> files.

Definition pool_dir (name : string) : string :=
  let bucket := if Py.startswith name "lib" then Py.slice name 0 4
                else Py.slice name 0 1 in
  "pool/" +:+ bucket +:+ "/" +:+ name.

Definition epoch_split (version : string) : option string * string :=
  let '(e, r) := cut_epoch (Py.chars version) [] in (Py.str <$> e, Py.str r).

Definition package_list (s : string) : list PackageInfo :=
  (λ line, {| pi_name := hd "" (String.words line); pi_fields := ∅ |})
    <$> List.filter (λ x, negb (Py.falsy x)) (Py.split s (String "010"%char "")).

Definition missing_overrides (d : Database) (rss : RepoSuiteSettings)
    (spkg : SourcePackage) : list PackageInfo :=
  List.filter
    (λ b, negb (existsb (λ o, bool_decide (po_repo_suite_id o = rss_id rss)
                              && bool_decide (po_pkgname o = pi_name b))
                        (db_overrides d)))
    (sp_expected_binaries spkg).

Definition default_override (rss : RepoSuiteSettings) (b : PackageInfo)
    : PackageOverride :=
  {| po_repo_suite_id := rss_id rss; po_pkgname := pi_name b;
     po_section := "misc"; po_priority := "optional"; po_essential := false |}.

(** Names are resolved as on a system without symbolic links whose
    working directory is the root: empty components and [.] are
    dropped, and [..] steps back over the component before it. *)
Fixpoint walk (seen components : list string) : list string :=
  match components with
  | [] => rev seen
  | c :: rest =>
      if bool_decide (c = "") || bool_decide (c = ".") then walk seen rest
      else if bool_decide (c = "..") then walk (tail seen) rest
      else walk (c :: seen) rest
  end.

Definition resolve_name (name : string) : string :=
  "/" +:+ join_with "/" (walk [] (Py.split name "/")).

(** The uploads of the examples.  An uploaded file stands for itself:
    the renderer and the manifest parser know each upload by the
    content of its file.  Uploads arrive in [incoming]; the repository
    has its root at [repo_root] and its NEW queue at [newqueue_root]. *)
Definition incoming : string := "/srv/incoming".
Definition repo_root : string := "/srv/repo".
Definition newqueue_root : string := "/srv/queue/new".

Definition hello_dsc_text : string := "dsc hello 2.10-3".
Definition hello_dsc_text_no_sha512 : string := "dsc hello 2.10-3, no sha512".

Definition hello_files (dsc_text : string) : list (string * string) :=
  [("hello_2.10-3.dsc", dsc_text);
   ("hello_2.10.orig.tar.gz", "upstream sources of hello");
   ("hello_2.10-3.debian.tar.xz", "packaging of hello")].

Definition hello_fields : gmap string string :=
  stanza [("Package", "hello"); ("Version", "2.10-3"); ("Format", "3.0 (quilt)");
          ("Architecture", "any");
          ("Maintainer", "Santiago Vila <sanvila@debian.org>");
          ("Build-Depends", "debhelper-compat (= 13), help2man");
          ("Binary", "hello"); ("Directory", "/srv/incoming");
          ("Standards-Version", "4.6.2")].

(** The stanza of [hello_2.10-3.dsc], with all four checksum sections. *)
Definition hello_dsc : SourceStanza :=
  let files := hello_files hello_dsc_text in
  {| ss_fields := hello_fields;
     ss_checksums :=
       list_to_map [("Files", checksum_lines "md5" files);
                    ("Checksums-Sha1", checksum_lines "sha1" files);
                    ("Checksums-Sha256", checksum_lines "sha256" files);
                    ("Checksums-Sha512", checksum_lines "sha512" files)] |}.

(** The stanza of a [.dsc] without the optional [Checksums-Sha512]. *)
Definition hello_dsc_no_sha512 : SourceStanza :=
  let files := hello_files hello_dsc_text_no_sha512 in
  {| ss_fields := hello_fields;
     ss_checksums :=
       list_to_map [("Files", checksum_lines "md5" files);
                    ("Checksums-Sha1", checksum_lines "sha1" files);
                    ("Checksums-Sha256", checksum_lines "sha256" files)] |}.

Definition deb_stanza (name version arch source content : string)
    : gmap string string :=
  stanza ([("Package", name); ("Version", version); ("Architecture", arch);
           ("Maintainer", "Santiago Vila <sanvila@debian.org>");
           ("Installed-Size", "277"); ("Depends", "libc6 (>= 2.34)");
           ("Section", "devel"); ("Priority", "optional");
           ("Description", "example package based on GNU hello");
           ("Filename", name +:+ "_" +:+ version +:+ "_" +:+ arch +:+ ".deb");
           ("Size", size_of content); ("MD5sum", digest "md5" content);
           ("SHA1", digest "sha1" content); ("SHA256", digest "sha256" content);
           ("SHA512", digest "sha512" content)]
          ++ if Py.falsy source then [] else [("Source", source)]).

Definition hello_deb : string := "deb hello 2.10-3 amd64".
Definition hello_old_deb : string := "deb hello 2.9-1 amd64".
Definition stray_deb : string := "deb stray 1.0 amd64".
Definition broken_deb : string := "deb stray 1.0 amd64, damaged in transit".
Definition gzip_deb : string := "deb gzip 1.12-1 amd64".
Definition crafted_deb : string := "deb with a path for a name".

Definition dsc_table : list (string * SourceStanza) :=
  [(hello_dsc_text, hello_dsc);
   (hello_dsc_text_no_sha512, hello_dsc_no_sha512)].

Definition deb_table : list (string * gmap string string) :=
  [(hello_deb, deb_stanza "hello" "2.10-3" "amd64" "" hello_deb);
   (hello_old_deb, deb_stanza "hello" "2.9-1" "amd64" "" hello_old_deb);
   (stray_deb, deb_stanza "stray" "1.0" "amd64" "nowhere (1.0)" stray_deb);
   (broken_deb, deb_stanza "stray" "1.0" "amd64" "nowhere (1.0)" stray_deb);
   (crafted_deb,
    deb_stanza "/srv/repo/pool/g/gzip/gzip" "1.12-1" "amd64" "hello (2.10-3)"
      crafted_deb)].

Definition hello_changes (suite : string) : Changes :=
  {| ch_primary_fingerprint := "D0C5F88E4F1AF3B3";
     ch_weak_signature := false;
     ch_distributions := [suite];
     ch_sourceful := true;
     ch_source_name := "hello";
     ch_changes := stanza [("Source", "hello"); ("Version", "2.10-3")];
     ch_files :=
       Ok [ {| cf_fname := "hello_2.10-3.dsc"; cf_component := "main" |};
            {| cf_fname := "hello_2.10.orig.tar.gz"; cf_component := "main" |};
            {| cf_fname := "hello_2.10-3.debian.tar.xz"; cf_component := "main" |} ] |}.

(** The same manifest without the mark of a sourceful upload. *)
Definition hello_changes_unmarked : Changes :=
  {| ch_primary_fingerprint := ch_primary_fingerprint (hello_changes "unstable");
     ch_weak_signature := false;
     ch_distributions := ["unstable"];
     ch_sourceful := false;
     ch_source_name := "hello";
     ch_changes := ch_changes (hello_changes "unstable");
     ch_files := ch_files (hello_changes "unstable") |}.

Definition changes_table : list (string * Changes) :=
  [("changes hello 2.10-3 unstable", hello_changes "unstable");
   ("changes hello 2.10-3 experimental", hello_changes "experimental");
   ("changes hello 2.10-3 unstable, unmarked", hello_changes_unmarked)].

Definition render {A} (table : list (string * A)) (cmd : string)
    (files : FileSystem) (path : string) : Result A :=
  match files !! resolve_name path with
  | None => Raise (CalledProcessError cmd)
  | Some content =>
      match List.find (λ row, bool_decide (row.1 = content)) table with
      | Some row => Ok row.2
      | None => Raise (CalledProcessError cmd)
      end
  end.

Definition read_changes (files : FileSystem) (path : string)
    : Result Changes :=
  match files !! resolve_name path with
  | None => Raise (OSError path)
  | Some content =>
      match List.find (λ row, bool_decide (row.1 = content)) changes_table with
      | Some row => Ok row.2
      | None => Raise (SignatureException "no valid signature")
      end
  end.

Definition capabilities : Capabilities :=
  {| version_compare := deb_version_compare;
     Hashes := hashes;
     resolve := resolve_name;
     get_root_dir := λ _, repo_root;
     get_new_queue_dir := λ _, newqueue_root;
     apt_ftparchive_sources := render dsc_table "apt-ftparchive -q sources";
     apt_ftparchive_packages := render deb_table "apt-ftparchive -q packages";
     apt_ftparchive_contents :=
       λ _ _, Ok ["usr/bin/hello" +:+ String "009"%char "devel/hello"];
     pool_dir_from_name := pool_dir;
     split_epoch := epoch_split;
     parse_package_list_str := package_list;
     check_overrides_source := missing_overrides;
     override_for := default_override;
     md5_hexdigest := digest "md5";
     parse_changes := read_changes |}.

(** A repository with the suite [unstable], one uploader, and an
    override for the binary [hello]. *)
Definition unstable : RepoSuiteSettings :=
  {| rss_id := 1; rss_repo_id := 1; rss_repo_name := "master";
     rss_suite_id := 7; rss_suite_name := "unstable";
     rss_new_policy := DEFAULT; rss_changes_pending := false |}.

Definition importer : PackageImporter :=
  {| imp_rss := unstable; imp_repo_root := repo_root;
     imp_repo_newqueue_root := newqueue_root;
     imp_keep_source_packages := false |}.

Definition alice : ArchiveUploader :=
  {| up_email := "alice@example.org";
     up_pgp_fingerprints := ["D0C5F88E4F1AF3B3"];
     up_allow_source_uploads := true;
     up_allow_binary_uploads := true;
     up_always_review := false |}.

Definition hello_override : PackageOverride :=
  {| po_repo_suite_id := 1; po_pkgname := "hello"; po_section := "devel";
     po_priority := "optional"; po_essential := false |}.

Definition database (sources : list (nat * SourcePackage))
    (new_queue : list NewEntry) (memory : list (nat * string * string))
    (overrides : list PackageOverride) : Database :=
  {| db_components := ["main"; "contrib"];
     db_architectures := ["amd64"; "arm64"; "all"];
     db_sources := list_to_map sources;
     db_new_queue := new_queue;
     db_binaries := [];
     db_files := [];
     db_version_memory := list_to_map memory;
     db_overrides := overrides;
     db_rss := [unstable];
     db_uploaders := [alice] |}.

(** Files by their names under a directory. *)
Definition under (directory : string) (files : list (string * string))
    : list (string * string) :=
  (λ '(name, content), (resolve_name (Py.path_join directory name), content))
    <$> files.

(** An archive with the given uploads, files of the pool and files of
    the NEW queue. *)
Definition archive (d : Database) (uploads pool newqueue : list (string * string))
    : Archive :=
  {| db := d;
     fs := list_to_map (under incoming uploads ++ under repo_root pool
                        ++ under newqueue_root newqueue) |}.

(** The source package [hello] of the given version, as a row. *)
Definition hello_source (version : string) (suites : list nat) : SourcePackage :=
  sp_with_suites suites
    (sp_with_directory "pool/h/hello"
       (sp_with_component (Some "main") (new_source_package "hello" version 1))).

(** The upload of [hello_2.10-3.dsc] arrives at an archive that knows
    the override of [hello] and has seen the given versions. *)
Definition hello_arrives (dsc_text : string) (memory : list (nat * string * string))
    : Archive :=
  archive (database [] [] memory [hello_override]) (hello_files dsc_text) [] [].

(** The orig tarball of [hello] as its [.dsc] declares it. *)
Definition declared_tarball : ArchiveFile :=
  {| af_fname := "hello_2.10.orig.tar.gz"; af_repo := None;
     af_size := Some "25"; af_md5sum := Some "md5:upstream sources of hello";
     af_sha1sum := Some "sha1:upstream sources of hello";
     af_sha256sum := Some "sha256:upstream sources of hello";
     af_sha512sum := Some "sha512:upstream sources of hello";
     af_binpkg := None |}.

(** The binary [hello] 2.9-1 arrives after the source and the binary of
    2.10-3 were published: both source packages are in the suite, and
    the version memory of [hello] stands at 2.10-3. *)
Definition old_binary_arrives : Archive :=
  archive (database [(1%nat, hello_source "2.9-1" [7%nat]);
                     (2%nat, hello_source "2.10-3" [7%nat])]
                    [] [(1%nat, "hello", "2.10-3")] [hello_override])
          [("hello_2.9-1_amd64.deb", hello_old_deb)]
          [("pool/h/hello/hello_2.10-3_amd64.deb", hello_deb)] [].

Definition handler : UploadHandler :=
  {| uh_repo := {| repo_id := 1; repo_name := "master" |};
     uh_keep_source_packages := false |}.

(** A signed upload of [hello] arrives, with the given text of its
    [.changes] file. *)
Definition changes_arrive (changes_text : string)
    (memory : list (nat * string * string)) : Archive :=
  archive (database [] [] memory [hello_override])
          (("hello_2.10-3_source.changes", changes_text) :: hello_files hello_dsc_text)
          [] [].

(** The binary of [stray], which names the source [nowhere], arrives:
    intact, or damaged so that no checksum of its stanza is right. *)
Definition stray_arrives (content : string) : Archive :=
  archive (database [(1%nat, hello_source "2.10-3" [7%nat])] [] [] [hello_override])
          [("stray_1.0_amd64.deb", content)] [] [].

(** The binary [hello] 2.10-3 arrives while its source waits in the NEW
    queue. *)
Definition binary_of_new_arrives : Archive :=
  archive (database [(1%nat, hello_source "2.10-3" [])]
                    [ {| nq_destination_id := 7; nq_package := 1 |} ] [] [])
          [("hello_2.10-3_amd64.deb", hello_deb)] []
          [("pool/h/hello/hello_2.10-3.dsc", hello_dsc_text)].

(** A binary arrives whose stanza has an absolute path for the name of
    the package and names the source [hello] 2.10-3, which waits in the
    NEW queue; the pool holds the binary of [gzip] 1.12-1. *)
Definition crafted_binary_arrives : Archive :=
  archive (database [(1%nat, hello_source "2.10-3" [])]
                    [ {| nq_destination_id := 7; nq_package := 1 |} ] [] [])
          [("upload.deb", crafted_deb)]
          [("pool/g/gzip/gzip_1.12-1_amd64.deb", gzip_deb)]
          [("pool/h/hello/hello_2.10-3.dsc", hello_dsc_text)].

(** The upload of [hello] arrives when the pool has a file at the place
    of its tarball. *)
Definition hello_arrives_again : Archive :=
  archive (database [] [] [] [hello_override]) (hello_files hello_dsc_text)
          [("pool/h/hello/hello_2.10.orig.tar.gz", "sources published earlier")] [].


(** The archive with other uploaders registered. *)
Definition with_uploaders (uploaders : list ArchiveUploader) (st : Archive)
    : Archive :=
  {| db := {| db_components := db_components (db st);
              db_architectures := db_architectures (db st);
              db_sources := db_sources (db st);
              db_new_queue := db_new_queue (db st);
              db_binaries := db_binaries (db st);
              db_files := db_files (db st);
              db_version_memory := db_version_memory (db st);
              db_overrides := db_overrides (db st);
              db_rss := db_rss (db st);
              db_uploaders := uploaders |};
     fs := fs st |}.

(** The key of [alice], held by an uploader who may upload binaries
    only, and by one whose uploads are always reviewed. *)
Definition builder : ArchiveUploader :=
  {| up_email := "builder@example.org";
     up_pgp_fingerprints := ["D0C5F88E4F1AF3B3"];
     up_allow_source_uploads := false;
     up_allow_binary_uploads := true;
     up_always_review := false |}.

Definition newcomer : ArchiveUploader :=
  {| up_email := "newcomer@example.org";
     up_pgp_fingerprints := ["D0C5F88E4F1AF3B3"];
     up_allow_source_uploads := true;
     up_allow_binary_uploads := false;
     up_always_review := true |}.

(** Two stanzas of a [Sources] index; the second is kept for
    compliance only. *)
Definition hello_sources : gmap string string :=
  stanza [("Package", "hello"); ("Version", "2.10-3"); ("Architecture", "any");
          ("Format", "3.0 (quilt)");
          ("Maintainer", "Santiago Vila <sanvila@debian.org>");
          ("Directory", "pool/main/h/hello"); ("Binary", "hello, hello-data");
          ("Checksums-Sha256",
           String (ascii_of_nat 10)
             ("8e5a 1183 hello_2.10-3.dsc"
              +:+ String (ascii_of_nat 10) "31e0 725946 hello_2.10.orig.tar.gz"))].

Definition hello_old_sources : gmap string string :=
  stanza [("Package", "hello"); ("Version", "2.9-1"); ("Architecture", "any");
          ("Format", "1.0"); ("Maintainer", "Santiago Vila <sanvila@debian.org>");
          ("Directory", "pool/main/h/hello"); ("Extra-Source-Only", "yes")].

(** A mirror on the local disk, with a keyring: the [InRelease] file of
    [unstable] lists the digests of the [Packages] index of [amd64] and
    of the [Sources] index. *)
Definition signed (raw : string) (keyrings : list string)
    (require_signature : bool) : Result string :=
  if Py.startswith raw "signed:" && negb (bool_decide (keyrings = []))
  then Ok (Py.slice raw 7 (Z.of_nat (String.length raw)))
  else if require_signature then Raise (SignatureException "no valid signature")
  else Ok raw.

Definition repository_access : RepositoryAccess :=
  {| signed_file := signed;
     tag_section := λ contents, stanza [("SHA256", contents)];
     tag_file := λ content,
       if bool_decide (content = "packages-amd64")
       then [hello_amd64; hello_data_all; hello_arm64]
       else if bool_decide (content = "sources")
       then [hello_sources; hello_old_sources] else [];
     sha256sum := digest "sha256";
     apt_version_compare := λ a b,
       match deb_version_compare a b with Lt => -1 | Eq => 0 | Gt => 1 end;
     download_file := λ _ _, Ok None |}.

Definition mirror : ReaderSetup :=
  {| rr_reader := reader; rr_root_dir := "/srv/mirror"; rr_repo_url := None;
     rr_keyrings := ["/etc/laniakea/keyring.gpg"] |}.

Definition inrelease_text : string :=
  "signed:sha256:packages-amd64 14 main/binary-amd64/Packages.xz"
  +:+ newline +:+ "sha256:sources 7 main/source/Sources.xz".

Definition mirror_disk : gmap string string :=
  list_to_map
    [("/srv/mirror/dists/unstable/InRelease", inrelease_text);
     ("/srv/mirror/dists/unstable/main/binary-amd64/Packages.xz", "packages-amd64");
     ("/srv/mirror/dists/unstable/main/source/Sources.xz", "sources")].

Definition mirror_listing : list ReaderFile :=
  [ {| rf_fname := "main/binary-amd64/Packages.xz"; rf_size := 14;
       rf_sha256sum := "sha256:packages-amd64" |};
    {| rf_fname := "main/source/Sources.xz"; rf_size := 7;
       rf_sha256sum := "sha256:sources" |} ].

(** The reader before and after it has read the [InRelease] file. *)
Definition mirror_fresh : ReaderState :=
  {| rr_trusted := false; rr_inrelease := ∅; rr_disk := mirror_disk |}.

Definition mirror_read : ReaderState :=
  {| rr_trusted := false; rr_inrelease := {["unstable" := mirror_listing]};
     rr_disk := mirror_disk |}.

(** Versions of two packages, as name and version. *)
Definition candidates : list (string * string) :=
  [("hello", "2.10-3"); ("gzip", "1.12-1"); ("hello", "2.10-3+b1");
   ("hello", "2.9-1")].

(** Patterns that end in a star match what starts with the rest; other
    patterns match themselves. *)
Definition glob : Glob :=
  {| fnmatch := λ data pattern,
       if Py.endswith pattern "*"
       then Py.startswith data (Py.slice pattern 0 (-1))
       else bool_decide (data = pattern) |}.

(** The key of a signer is a text that names it. *)
Definition messaging : Messaging :=
  {| VerifyKey := string;
     verify_event_message := λ signer _ key,
       if bool_decide (key = "key of " +:+ signer) then Ok ()
       else Raise (SignatureException "invalid signature");
     tag_data_to_html_message := λ tag _, "event " +:+ tag |}.

(** A publisher with one trusted key and two rooms: one for the events
    of the archive, one for everything. *)
Definition publisher : @MatrixPublisher messaging :=
  {| mp_trusted_keys := {["lighthouse" := "key of lighthouse"]};
     mp_allow_unsigned := true;
     mp_message_prefix := "[lk] ";
     mp_rooms := [("#archive", [[("tag", FOne "_lk.archive.*")]]); ("#all", [])] |}.

Definition package_imported (signers : list string) : SignedEvent :=
  {| se_event := {| ev_tag := "_lk.archive.package-imported";
                    ev_data := {["repo" := EvStr "master"]} |};
     se_signatures := signers |}.

(** No stanza of the sample has a package list. *)
Definition package_lists : @PackageLists reader_helpers :=
  {| parse_package_list := λ _ _ _, [] |}.

End Sample.

(** * Properties *)

Example py_split_ex : Py.split "a, b, c" ", " = ["a"; "b"; "c"].
Proof. reflexivity. Qed.
Example py_split_empty : Py.split "" ", " = [""].
Proof. reflexivity. Qed.
Example py_split_trailing : Py.split "a, " ", " = ["a"; ""].
Proof. reflexivity. Qed.
Example py_basename_ex : Py.basename "pool/main/h/hello/hello_2.10.dsc" = "hello_2.10.dsc".
Proof. reflexivity. Qed.
Example py_dirname_ex : Py.dirname "/srv/incoming/hello_2.10.dsc" = "/srv/incoming".
Proof. reflexivity. Qed.
Example py_dirname_root : Py.dirname "/hello" = "/".
Proof. reflexivity. Qed.
Example py_dirname_none : Py.dirname "hello" = "".
Proof. reflexivity. Qed.
Example py_join_ex : Py.path_join "pool/main/h/hello" "hello_2.10.dsc" = "pool/main/h/hello/hello_2.10.dsc".
Proof. reflexivity. Qed.
Example py_join_empty : Py.path_join "" "hello_2.10.dsc" = "hello_2.10.dsc".
Proof. reflexivity. Qed.
Example py_ext_ex : Py.splitext_ext "/srv/in.d/hello_2.10_amd64.udeb" = ".udeb".
Proof. reflexivity. Qed.
Example py_ext_none : Py.splitext_ext "/srv/in.d/.hidden" = "".
Proof. reflexivity. Qed.
Example py_endswith_ex : Py.endswith "hello_2.10.dsc" ".dsc" = true.
Proof. reflexivity. Qed.
Example py_slice_neg : Py.slice "(1.0)" 0 (-1) = "(1.0".
Proof. reflexivity. Qed.
Example py_strip_ex : Py.strip "  glibc " = "glibc".
Proof. reflexivity. Qed.

Example source_info_plain :
  importer_source_info "" "hello" "2.10-3" = Ok ("hello", "2.10-3").
Proof. reflexivity. Qed.

Example source_info_versioned :
  importer_source_info "glibc (2.36-9)" "libc6" "2.36-9+b1" = Ok ("glibc", "2.36-9").
Proof. reflexivity. Qed.

Example source_info_bare :
  reader_source_info (Some "glibc") "libc6" "2.36-9" = Ok ("glibc", "2.36-9").
Proof. reflexivity. Qed.

Example source_info_unclosed :
  reader_source_info (Some "glibc (2.36-9") "libc6" "2.36-9" =
  Raise (ValueError "substring not found").
Proof. reflexivity. Qed.

(** Without the blank before the parenthesis the last character of the
    name is cut off, as the slice ends one before the parenthesis. *)
Example source_info_no_blank :
  reader_source_info (Some "glibc(2.36-9)") "libc6" "2.36-9" = Ok ("glib", "2.36-9").
Proof. reflexivity. Qed.

(** ** The two readers of the [Source] field *)

Section SourceInfo.

Lemma chars_app (a b : string) : Py.chars (a +:+ b) = Py.chars a ++ Py.chars b.
Proof.
  unfold Py.chars. induction a as [|c a IH]; simpl; [done|]. by rewrite IH.
Qed.

Lemma chars_str (l : list ascii) : Py.chars (Py.str l) = l.
Proof. apply String.list_ascii_of_string_of_list_ascii. Qed.

Lemma str_chars (s : string) : Py.str (Py.chars s) = s.
Proof. apply String.string_of_list_ascii_of_string. Qed.

Lemma find_first (c : ascii) (pre post : list ascii) :
  c ∉ pre →
  list_find (λ x, x = c) (pre ++ c :: post) = Some (length pre, c).
Proof.
  induction pre as [|d pre IH]; intros Hnot; simpl.
  - by rewrite decide_True.
  - apply not_elem_of_cons in Hnot as [Hne Hnot].
    rewrite decide_False by congruence. by rewrite (IH Hnot).
Qed.

Lemma find_none (c : ascii) (l : list ascii) :
  c ∉ l → list_find (λ x, x = c) l = None.
Proof.
  induction l as [|d l IH]; intros Hnot; simpl; [done|].
  apply not_elem_of_cons in Hnot as [Hne Hnot].
  rewrite decide_False by congruence. by rewrite (IH Hnot).
Qed.

Lemma clamp_inside (n k : nat) : (k ≤ n)%nat → Py.clamp n (Z.of_nat k) = k.
Proof.
  intros Hle. unfold Py.clamp.
  destruct (Z.ltb_spec (Z.of_nat k) 0); [lia|].
  rewrite Z.min_l by lia. apply Nat2Z.id.
Qed.

Lemma slice_list_middle {A} (pre mid post : list A) :
  Py.slice_list (pre ++ mid ++ post) (Z.of_nat (length pre))
    (Z.of_nat (length pre + length mid)) = mid.
Proof.
  unfold Py.slice_list. rewrite !length_app.
  rewrite !clamp_inside by lia.
  rewrite drop_app_length.
  replace (length pre + length mid - length pre)%nat with (length mid) by lia.
  by rewrite take_app_length.
Qed.

(** The parse of [name (version)]: the name is what precedes the blank,
    the version what the parentheses enclose, both stripped. *)
Lemma importer_source_info_versioned (n v pkgname version : string) :
  lparen ∉ Py.chars n → rparen ∉ Py.chars n → rparen ∉ Py.chars v →
  importer_source_info (n +:+ " (" +:+ v +:+ ")") pkgname version
  = Ok (Py.strip n, Py.strip v).
Proof.
  intros Hl Hr Hrv.
  set (s := n +:+ " (" +:+ v +:+ ")").
  assert (Hs : Py.chars s
               = Py.chars n ++ " "%char :: lparen :: Py.chars v ++ [rparen]).
  { unfold s. by rewrite !chars_app. }
  assert (Hfalsy : Py.falsy s = false).
  { destruct s eqn:E; [|done]. destruct (Py.chars n); simpl in Hs; discriminate. }
  assert (Hin : Py.contains lparen s = true).
  { unfold Py.contains. apply bool_decide_eq_true. rewrite Hs. set_solver. }
  assert (Hil : Py.index lparen s = Ok (length (Py.chars n) + 1)%nat).
  { unfold Py.index. rewrite Hs.
    replace (Py.chars n ++ " "%char :: lparen :: Py.chars v ++ [rparen])
      with ((Py.chars n ++ [" "%char]) ++ lparen :: (Py.chars v ++ [rparen]))
      by (by rewrite <- app_assoc).
    rewrite find_first; [by rewrite length_app|].
    rewrite elem_of_app. intros [?|Hsp]; [done|].
    apply list_elem_of_singleton in Hsp. discriminate. }
  assert (Hir : Py.index rparen s
                = Ok (length (Py.chars n) + 2 + length (Py.chars v))%nat).
  { unfold Py.index. rewrite Hs.
    replace (Py.chars n ++ " "%char :: lparen :: Py.chars v ++ [rparen])
      with ((Py.chars n ++ " "%char :: lparen :: Py.chars v) ++ rparen :: [])
      by (rewrite <- app_assoc; simpl; done).
    rewrite find_first.
    - rewrite length_app. simpl. f_equal. lia.
    - rewrite elem_of_app, !elem_of_cons.
      intros [?|[?|[?|?]]]; (done || discriminate). }
  assert (Hname : Py.slice_list (Py.chars s) 0
                    (Z.of_nat (length (Py.chars n) + 1) - 1) = Py.chars n).
  { rewrite Hs.
    replace (Z.of_nat (length (Py.chars n) + 1) - 1)
      with (Z.of_nat (length (@nil ascii) + length (Py.chars n))) by (simpl; lia).
    change 0 with (Z.of_nat (length (@nil ascii))).
    apply (slice_list_middle [] (Py.chars n)). }
  assert (Hversion : Py.slice_list (Py.chars s)
                       (Z.of_nat (length (Py.chars n) + 1) + 1)
                       (Z.of_nat (length (Py.chars n) + 2 + length (Py.chars v)))
                     = Py.chars v).
  { rewrite Hs.
    replace (Z.of_nat (length (Py.chars n) + 1) + 1)
      with (Z.of_nat (length (Py.chars n ++ [" "%char; lparen])))
      by (rewrite length_app; simpl; lia).
    replace (Z.of_nat (length (Py.chars n) + 2 + length (Py.chars v)))
      with (Z.of_nat (length (Py.chars n ++ [" "%char; lparen])
                      + length (Py.chars v)))
      by (rewrite length_app; simpl; lia).
    replace (Py.chars n ++ " "%char :: lparen :: Py.chars v ++ [rparen])
      with ((Py.chars n ++ [" "%char; lparen]) ++ Py.chars v ++ [rparen])
      by (by rewrite <- app_assoc).
    apply slice_list_middle. }
  unfold importer_source_info. rewrite Hfalsy, Hin, Hil, Hir. simpl.
  unfold Py.strip, Py.slice. by rewrite !chars_str, Hname, Hversion.
Qed.

End SourceInfo.

(** C10. The reader of a [Packages] index and the importer of a binary
    compute the same source name and version from the [Source] field of
    a stanza, and raise the same error where they raise: the importer
    reads an absent field as the empty string, the reader as [None],
    and both take the package's own name and version then; a value
    [name (version)] gives the name and the version, each stripped of
    surrounding blanks; a value without a parenthesis is the name, and
    the version is the package's. *)
Theorem source_info_readers_agree (source : option string) (pkgname version : string) :
  reader_source_info source pkgname version
  = importer_source_info (default "" source) pkgname version
  ∧ (Py.falsy_opt source = true →
     importer_source_info (default "" source) pkgname version
     = Ok (pkgname, version))
  ∧ (∀ n v, source = Some (n +:+ " (" +:+ v +:+ ")") →
     Py.contains lparen n = false → Py.contains rparen n = false →
     Py.contains rparen v = false →
     importer_source_info (default "" source) pkgname version
     = Ok (Py.strip n, Py.strip v))
  ∧ (∀ s, source = Some s → Py.falsy s = false → Py.contains lparen s = false →
     importer_source_info (default "" source) pkgname version = Ok (s, version)).
Proof.
  repeat split.
  - destruct source as [s|]; simpl; [|done].
    unfold importer_source_info. by destruct (Py.falsy s).
  - intros Hf. unfold importer_source_info.
    destruct source as [s|]; simpl in *; [by rewrite Hf | done].
  - intros n v -> Hl Hr Hrv. simpl.
    apply importer_source_info_versioned;
      by apply (bool_decide_eq_false_1 (_ ∈ _)).
  - intros s -> Hf Hc. simpl. unfold importer_source_info. by rewrite Hf, Hc.
Qed.

Lemma source_info_readers_agree_witness :
  reader_source_info (Some "glibc (2.36-9)") "libc6" "2.36-9+b1"
  = Ok ("glibc", "2.36-9")
  ∧ importer_source_info "" "hello" "2.10-3" = Ok ("hello", "2.10-3")
  ∧ importer_source_info "glibc" "libc6" "2.36-9" = Ok ("glibc", "2.36-9").
Proof.
  split; [|split].
  - destruct (source_info_readers_agree (Some "glibc (2.36-9)") "libc6" "2.36-9+b1")
      as (Heq & _ & Hver & _).
    rewrite Heq.
    apply (Hver "glibc" "2.36-9"); reflexivity.
  - destruct (source_info_readers_agree None "hello" "2.10-3") as (_ & Hno & _).
    apply Hno. reflexivity.
  - destruct (source_info_readers_agree (Some "glibc") "libc6" "2.36-9")
      as (_ & _ & _ & Hbare).
    apply (Hbare "glibc"); reflexivity.
Defined.

(** ** The listing of a [Packages] index *)

Section Listing.
Context `{ReaderHelpers}.
Variables (self : RepositoryReader) (tf_fname suite component arch : string).
Variable deb_type : DebType.

Local Abbreviation loop tf pkgs class_suites :=
  (read_binary_packages_loop self tf tf_fname suite component arch deb_type pkgs
     class_suites).
Local Abbreviation listing tf class_suites :=
  (read_binary_packages_from_tf self tf tf_fname suite component arch deb_type
     class_suites).






Lemma build_binary_package_spec (pkgname pkgversion : string)
    (e : gmap string string) (w : list LogRecord) (pkg : ExternalBinaryPackage) :
  build_binary_package self component arch pkgname pkgversion e = (w, Ok pkg) →
  ebp_name pkg = pkgname ∧ ebp_version pkg = pkgversion
  ∧ ebp_architecture pkg = arch
  ∧ ∀ r n v a x, WarnUnexpectedArchitecture r n v a x ∉ w.
Proof.
  unfold build_binary_package.
  destruct (rbind (tag_item e "Maintainer") _) as [ex|p] eqn:E; [done|].
  intros [= <- <-].
  assert (ebp_name p = pkgname ∧ ebp_version p = pkgversion
          ∧ ebp_architecture p = arch) as (?&?&?).
  { unfold rbind in E.
    repeat match type of E with
           | match ?x with _ => _ end = _ => destruct x; [discriminate E|]
           end.
    by simplify_eq/=. }
  repeat split; try done.
  intros r n v a x. destruct (Py.falsy _).
  - intros Hin. apply list_elem_of_singleton in Hin. discriminate.
  - apply not_elem_of_nil.
Qed.


(** The list of suites of the class after a listing: what it held
    before, with the suite at the end once if it was not there and a
    stanza got as far as a package object. *)
Lemma loop_class_suites (tf : list (gmap string string))
    (pkgs0 : list ExternalBinaryPackage) (cs : list string) :
  (loop tf pkgs0 cs).2 = cs
  ∨ ((suite ∉ cs) ∧ (loop tf pkgs0 cs).2 = cs ++ [suite]).
Proof.
  revert pkgs0 cs. induction tf as [|e tf IH]; intros pkgs0 cs; [by left|].
  simpl.
  assert (Hturn : (read_binary_stanza self tf_fname suite component arch e cs).2 = cs
                  ∨ ((suite ∉ cs)
                     ∧ (read_binary_stanza self tf_fname suite component arch e cs).2
                       = cs ++ [suite])).
  { unfold read_binary_stanza.
    destruct (rbind (tag_item e "Package") _)
      as [ex|[[pkgname pkgversion] arch_name]]; [by left|].
    destruct (negb (bool_decide (arch = "all")) && bool_decide (arch_name = "all"));
      [by left|].
    assert (Hbuild : ∀ warned,
              (let '(w, r) :=
                 build_binary_package self component arch pkgname pkgversion e in
               (warned ++ w,
                match r with inl ex => inl ex | inr pkg => Ok (Some pkg) end,
                if bool_decide (suite ∈ cs) then cs else cs ++ [suite])).2 = cs
              ∨ ((suite ∉ cs)
                 ∧ (let '(w, r) :=
                      build_binary_package self component arch pkgname pkgversion e in
                    (warned ++ w,
                     match r with inl ex => inl ex | inr pkg => Ok (Some pkg) end,
                     if bool_decide (suite ∈ cs) then cs else cs ++ [suite])).2
                   = cs ++ [suite])).
    { intros warned.
      destruct (build_binary_package self component arch pkgname pkgversion e).
      simpl. destruct (bool_decide_reflect (suite ∈ cs)); [by left | by right]. }
    destruct (bool_decide (arch_name ≠ arch)); [|apply Hbuild].
    destruct (bool_decide (arch = "all") && bool_decide (arch_name ≠ "all"));
      [by left | apply Hbuild]. }
  destruct (read_binary_stanza self tf_fname suite component arch e cs)
    as [[w r] cs1].
  simpl in Hturn. destruct r as [ex|o]; [done|].
  specialize (IH (match o with Some pkg => pkgs0 ++ [pkg] | None => pkgs0 end) cs1).
  destruct (loop tf _ cs1) as [[w1 r1] cs2]. simpl in *.
  destruct Hturn as [->|[Hnot ->]]; [done|].
  destruct IH as [->|[Hnot' _]]; [by right|].
  exfalso. apply Hnot'. set_solver.
Qed.

(** A turn that adds a package has the suite in the list of the class
    afterwards. *)
Lemma read_binary_stanza_listed_suite (e : gmap string string) (cs : list string)
    (w : list LogRecord) (pkg : ExternalBinaryPackage) (cs' : list string) :
  read_binary_stanza self tf_fname suite component arch e cs
  = (w, Ok (Some pkg), cs') →
  suite ∈ cs'.
Proof.
  unfold read_binary_stanza.
  destruct (rbind (tag_item e "Package") _)
    as [ex|[[pkgname pkgversion] arch_name]]; [done|].
  destruct (negb (bool_decide (arch = "all")) && bool_decide (arch_name = "all"));
    [done|].
  destruct (if bool_decide (arch_name ≠ arch) then _ else _) as [warned|]; [|done].
  destruct (build_binary_package self component arch pkgname pkgversion e)
    as [w0 r0].
  intros [= _ _ <-].
  destruct (bool_decide_reflect (suite ∈ cs)); [done|set_solver].
Qed.

(** A listing that adds a package has the suite in the list of the
    class afterwards. *)
Lemma loop_listed_suite (tf : list (gmap string string))
    (pkgs0 : list ExternalBinaryPackage) (cs : list string) :
  ∀ pkgs, (loop tf pkgs0 cs).1.2 = Ok pkgs →
          (length pkgs0 < length pkgs)%nat → suite ∈ (loop tf pkgs0 cs).2.
Proof.
  revert pkgs0 cs. induction tf as [|e tf IH]; intros pkgs0 cs pkgs; simpl.
  - intros [= <-]. lia.
  - pose proof (read_binary_stanza_listed_suite e cs) as Hturn.
    destruct (read_binary_stanza self tf_fname suite component arch e cs)
      as [[w r] cs1].
    destruct r as [ex|o]; [done|].
    pose proof (loop_class_suites tf
                  (match o with Some pkg => pkgs0 ++ [pkg] | None => pkgs0 end) cs1)
      as Hkeeps.
    specialize (IH (match o with Some pkg => pkgs0 ++ [pkg] | None => pkgs0 end)
                  cs1 pkgs).
    destruct (loop tf _ cs1) as [[w1 r1] cs2]. simpl in *.
    intros Hr Hlen. destruct o as [pkg|].
    + specialize (Hturn w pkg cs1 eq_refl).
      destruct Hkeeps as [->|[_ ->]]; [done|set_solver].
    + by apply IH.
Qed.

End Listing.

Section ListingWitness.
#[local] Existing Instance Sample.reader_helpers.

Example listing_amd64_warns :
  (read_binary_packages_from_tf Sample.reader
     [Sample.hello_amd64; Sample.hello_data_all; Sample.hello_arm64]
     "Packages.xz" "unstable" "main" "amd64" DEB []).1.1
  = [WarnUnexpectedArchitecture "debian" "hello" "2.10-3" "arm64" "amd64"].
Proof. vm_compute. reflexivity. Qed.

Example listing_amd64_names :
  match (read_binary_packages_from_tf Sample.reader
           [Sample.hello_amd64; Sample.hello_data_all; Sample.hello_arm64]
           "Packages.xz" "unstable" "main" "amd64" DEB []).1.2 with
  | inr pkgs => (λ p, (ebp_name p, ebp_architecture p)) <$> pkgs
  | inl _ => []
  end = [("hello", "amd64"); ("hello", "amd64")].
Proof. vm_compute. reflexivity. Qed.

(** The list of the class takes the suite once, and a second listing
    for another suite adds to the same list. *)
Example listing_shares_suites :
  let first :=
    read_binary_packages_from_tf Sample.reader
      [Sample.hello_amd64; Sample.hello_arm64]
      "Packages.xz" "unstable" "main" "amd64" DEB [] in
  let second :=
    read_binary_packages_from_tf Sample.reader [Sample.hello_amd64]
      "Packages.xz" "testing" "main" "amd64" DEB first.2 in
  first.2 = ["unstable"] ∧ second.2 = ["unstable"; "testing"].
Proof. vm_compute. done. Qed.



End ListingWitness.

(** ** The sample environment at work *)

Example deb_version_order :
  (λ '(a, b), Sample.deb_version_compare a b)
    <$> [("1.0", "2.0"); ("2.10-3", "2.9-1"); ("2.10-3", "2.10-3");
         ("1.0~rc1", "1.0"); ("1:0.5", "2.0"); ("1.0", "1.00"); ("1.0-1", "1.0-1+b1");
         ("2.10-3", "2.11-1"); ("1.0a", "1.0+")]
  = [Lt; Gt; Eq; Lt; Gt; Eq; Lt; Lt; Lt].
Proof. vm_compute. reflexivity. Qed.

Example sample_pool_dir :
  (Sample.pool_dir "hello", Sample.pool_dir "libfoo")
  = ("pool/h/hello", "pool/libf/libfoo").
Proof. vm_compute. reflexivity. Qed.

(** ** Checksum verification *)

Section Verification.

Lemma check_hash_spec (file : ArchiveFile) (h : HashString) :
  check_hash file h
  = match declared_value file (hashtype h) with
    | None => Raise (ArchiveImportError (UnknownHashType (hashtype h)))
    | Some d =>
        if bool_decide (d = Some (hashvalue h)) then Ok ()
        else Raise (ArchiveImportError
                      (ChecksumFailed (hashtype h) (af_fname file) (hashvalue h)))
    end.
Proof.
  unfold check_hash, declared_value.
  repeat (destruct (bool_decide (hashtype h = _)); simpl;
          [by destruct (bool_decide (_ = Some (hashvalue h)))|]).
  done.
Qed.

Lemma check_hash_agrees (file : ArchiveFile) (h : HashString) :
  check_hash file h = Ok () ↔ agrees file h.
Proof.
  rewrite check_hash_spec. unfold agrees.
  destruct (declared_value file (hashtype h)) as [d|]; [|by split].
  destruct (bool_decide_reflect (d = Some (hashvalue h))) as [->|Hne].
  - by split.
  - split; [done|]. intros [= ?]. by destruct Hne.
Qed.

(** The loop counts one for every hash that agrees and stops at the
    first that does not. *)
Lemma check_hashes_all (file : ArchiveFile) (hashes : list HashString) (n : nat) :
  Forall (agrees file) hashes →
  check_hashes file hashes n = Ok (n + length hashes)%nat.
Proof.
  revert n. induction hashes as [|h rest IH]; intros n Hall; simpl.
  - f_equal. lia.
  - apply Forall_cons in Hall as [Hh Hrest].
    apply check_hash_agrees in Hh. rewrite Hh. simpl.
    rewrite (IH _ Hrest). f_equal. lia.
Qed.

Lemma check_hashes_inv (file : ArchiveFile) (hashes : list HashString) (n m : nat) :
  check_hashes file hashes n = Ok m →
  m = (n + length hashes)%nat ∧ Forall (agrees file) hashes.
Proof.
  revert n. induction hashes as [|h rest IH]; intros n; simpl.
  - intros [= <-]. split; [lia | constructor].
  - destruct (check_hash file h) as [ex|[]] eqn:Eh; simpl; [done|].
    intros Hrest. apply IH in Hrest as [-> Hall].
    split; [lia|]. constructor; [by apply check_hash_agrees | done].
Qed.

Lemma check_hashes_first_failure (file : ArchiveFile)
    (pre post : list HashString) (h : HashString) (n : nat) (ex : Exception) :
  Forall (agrees file) pre → check_hash file h = Raise ex →
  check_hashes file (pre ++ h :: post) n = Raise ex.
Proof.
  revert n. induction pre as [|p pre IH]; intros n Hall Hh; simpl.
  - by rewrite Hh.
  - apply Forall_cons in Hall as [Hp Hpre].
    apply check_hash_agrees in Hp. rewrite Hp. simpl. by apply IH.
Qed.

(** C4, as the importer has it.  Verification passes only when at
    least four checks were made and every computed hash agrees with the
    declaration; with fewer than four checks, all agreeing, it fails for
    the insufficient number; the first hash that does not agree ends
    it with an error that carries the algorithm, the name of the file
    and the computed value, and these three are what the message
    shows. *)
Theorem verify_hashes_strict (file : ArchiveFile) (hashes : list HashString) :
  (verify_hash_list file hashes = Ok () →
   (4 ≤ length hashes)%nat ∧ Forall (agrees file) hashes)
  ∧ ((length hashes < 4)%nat → Forall (agrees file) hashes →
     verify_hash_list file hashes = Raise (ArchiveImportError InsufficientHashes))
  ∧ (∀ pre h post declared,
       hashes = pre ++ h :: post → Forall (agrees file) pre →
       declared_value file (hashtype h) = Some declared →
       declared ≠ Some (hashvalue h) →
       verify_hash_list file hashes
       = Raise (ArchiveImportError
                  (ChecksumFailed (hashtype h) (af_fname file) (hashvalue h)))
       ∧ exception_str (ArchiveImportError
                          (ChecksumFailed (hashtype h) (af_fname file) (hashvalue h)))
         = hashtype h +:+ " checksum validation of " +:+ Py.dq +:+ af_fname file
           +:+ Py.dq +:+ " failed (expected " +:+ hashvalue h +:+ ").").
Proof.
  split; [|split].
  - unfold verify_hash_list.
    destruct (check_hashes file hashes 0) as [ex|m] eqn:E; simpl; [done|].
    apply check_hashes_inv in E as [-> Hall]. simpl.
    destruct (Nat.ltb_spec (length hashes) 4); [done|]. by intros _.
  - intros Hlt Hall. unfold verify_hash_list.
    rewrite (check_hashes_all _ _ _ Hall). simpl.
    by destruct (Nat.ltb_spec (length hashes) 4); [|lia].
  - intros pre h post declared -> Hpre Hd Hne. split; [|done].
    unfold verify_hash_list.
    rewrite (check_hashes_first_failure file pre post h 0
               (ArchiveImportError
                  (ChecksumFailed (hashtype h) (af_fname file) (hashvalue h))));
      [done | done |].
    rewrite check_hash_spec, Hd. by rewrite bool_decide_eq_false_2.
Qed.

Example verify_tarball :
  verify_hash_list Sample.declared_tarball (Sample.hashes "upstream sources of hello") = Ok ().
Proof. vm_compute. reflexivity. Qed.

Lemma verify_hashes_strict_witness :
  verify_hash_list Sample.declared_tarball
    (take 3 (Sample.hashes "upstream sources of hello"))
  = Raise (ArchiveImportError InsufficientHashes)
  ∧ verify_hash_list Sample.declared_tarball (Sample.hashes "upstream sources of jello")
    = Raise (ArchiveImportError
               (ChecksumFailed "MD5Sum" "hello_2.10.orig.tar.gz"
                  "md5:upstream sources of jello")).
Proof.
  split.
  - apply (verify_hashes_strict Sample.declared_tarball
             (take 3 (Sample.hashes "upstream sources of hello"))).
    + vm_compute. lia.
    + repeat constructor.
  - destruct (verify_hashes_strict Sample.declared_tarball
                (Sample.hashes "upstream sources of jello")) as (_ & _ & Hfatal).
    refine (proj1 (Hfatal []
                     {| hashtype := "MD5Sum";
                        hashvalue := "md5:upstream sources of jello" |}
                     (drop 1 (Sample.hashes "upstream sources of jello"))
                     (Some "md5:upstream sources of hello") _ _ _ _)).
    + reflexivity.
    + constructor.
    + reflexivity.
    + discriminate.
Defined.

(** The message of a failed check shows the computed digest and not the
    declared one: here the declared MD5 is that of the sources of
    [hello], and the file holds something else. *)
Lemma diagnostic_lacks_declared_digest :
  ¬ (∀ (file : ArchiveFile) (h : HashString) (declared : string) (ex : Exception),
       declared_value file (hashtype h) = Some (Some declared) →
       check_hash file h = Raise ex →
       Py.is_infix (hashtype h) (exception_str ex) = true
       ∧ Py.is_infix declared (exception_str ex) = true
       ∧ Py.is_infix (hashvalue h) (exception_str ex) = true).
Proof.
  intros Hall.
  destruct (Hall Sample.declared_tarball
              {| hashtype := "MD5Sum"; hashvalue := "md5:upstream sources of jello" |}
              "md5:upstream sources of hello" _ eq_refl eq_refl)
    as (_ & Hdeclared & _).
  vm_compute in Hdeclared. discriminate.
Qed.

End Verification.

(** ** Verification without the optional SHA512 section *)

Section Sha512.
#[local] Existing Instance Sample.capabilities.

(** With all four sections declared, the upload of [hello] is imported
    into the pool. *)
Example import_hello :
  let r := import_source Sample.importer "/srv/incoming/hello_2.10-3.dsc" "main"
             DEFAULT (Sample.hello_arrives Sample.hello_dsc_text []) in
  r.1 = Ok ()
  ∧ map_to_list (fs r.2)
    = [("/srv/repo/pool/h/hello/hello_2.10-3.dsc", "dsc hello 2.10-3");
       ("/srv/repo/pool/h/hello/hello_2.10-3.debian.tar.xz", "packaging of hello");
       ("/srv/repo/pool/h/hello/hello_2.10.orig.tar.gz", "upstream sources of hello")]
  ∧ db_version_memory (db r.2) !! (1%nat, "hello") = Some "2.10-3".
Proof. vm_compute. done. Qed.

(** C5. A [.dsc] that declares [Files], [Checksums-Sha1] and
    [Checksums-Sha256] for its files, all as the files are, and no
    [Checksums-Sha512]: the merged declaration of the first file has no
    SHA512 digest, the hash primitive computes one, and the import ends
    with a checksum error for SHA512. *)
Theorem import_without_sha512 :
  let st := Sample.hello_arrives Sample.hello_dsc_text_no_sha512 [] in
  let file :=
    {| af_fname := "hello_2.10-3.dsc"; af_repo := None;
       af_size := Some (Sample.size_of Sample.hello_dsc_text_no_sha512);
       af_md5sum := Some (Sample.digest "md5" Sample.hello_dsc_text_no_sha512);
       af_sha1sum := Some (Sample.digest "sha1" Sample.hello_dsc_text_no_sha512);
       af_sha256sum := Some (Sample.digest "sha256" Sample.hello_dsc_text_no_sha512);
       af_sha512sum := None; af_binpkg := None |} in
  match source_checksums Sample.hello_dsc_no_sha512 with
  | inr r => Some r.1
  | inl _ => None
  end
  = Some ((λ '(name, content),
           (name,
            {| af_fname := name; af_repo := None;
               af_size := Some (Sample.size_of content);
               af_md5sum := Some (Sample.digest "md5" content);
               af_sha1sum := Some (Sample.digest "sha1" content);
               af_sha256sum := Some (Sample.digest "sha256" content);
               af_sha512sum := None; af_binpkg := None |}))
          <$> Sample.hello_files Sample.hello_dsc_text_no_sha512)
  ∧ Forall (λ h, hashtype h ≠ "SHA512" → agrees file h)
           (Hashes Sample.hello_dsc_text_no_sha512)
  ∧ (import_source Sample.importer "/srv/incoming/hello_2.10-3.dsc" "main" DEFAULT st).1
    = Raise (ArchiveImportError
               (ChecksumFailed "SHA512" "hello_2.10-3.dsc"
                  (Sample.digest "sha512" Sample.hello_dsc_text_no_sha512))).
Proof.
  split; [|split].
  - vm_compute. reflexivity.
  - repeat constructor; intros Hne; try reflexivity; by destruct Hne.
  - vm_compute. reflexivity.
Qed.

End Sha512.

(** ** The version memory and binary imports *)

Section MemoryRegression.
#[local] Existing Instance Sample.capabilities.

(** C1. The version memory of [hello] stands at 2.10-3; the binary
    [hello] 2.9-1, whose source is in the suite, is imported: the import
    succeeds and leaves the memory at 2.9-1, which is lower. *)
Theorem binary_import_lowers_memory :
  let st := Sample.old_binary_arrives in
  let r := import_binary Sample.importer "/srv/incoming/hello_2.9-1_amd64.deb" "main" st in
  db_version_memory (db st) !! (1%nat, "hello") = Some "2.10-3"
  ∧ r.1 = Ok ()
  ∧ db_version_memory (db r.2) !! (1%nat, "hello") = Some "2.9-1"
  ∧ version_compare "2.9-1" "2.10-3" = Lt.
Proof. vm_compute. done. Qed.

End MemoryRegression.

(** ** Uploads for a suite the repository does not have *)

Section UnknownSuite.
#[local] Existing Instance Sample.capabilities.

Example upload_accepted :
  (process_changes Sample.handler "/srv/incoming/hello_2.10-3_source.changes"
     (Sample.changes_arrive "changes hello 2.10-3 unstable" [])).1
  = Ok (true, Sample.alice, None).
Proof. vm_compute. reflexivity. Qed.

(** C8. An upload with a valid signature of a registered uploader,
    for the distribution [experimental], which the repository has no
    settings for: [process_changes] raises [NoResultFound] and returns
    no tuple. *)
Theorem upload_for_unknown_suite_raises :
  let st := Sample.changes_arrive "changes hello 2.10-3 experimental" [] in
  parse_changes (fs st) "/srv/incoming/hello_2.10-3_source.changes"
  = Ok (Sample.hello_changes "experimental")
  ∧ List.filter (λ u, bool_decide ("D0C5F88E4F1AF3B3" ∈ up_pgp_fingerprints u))
                (db_uploaders (db st)) = [Sample.alice]
  ∧ process_changes Sample.handler "/srv/incoming/hello_2.10-3_source.changes" st
    = (Raise NoResultFound, st).
Proof. vm_compute. done. Qed.

End UnknownSuite.

(** ** Version regressions *)

Section Regression.
Context `{Capabilities}.

Lemma ss_pop_found (tf : SourceStanza) (k v : string) :
  ss_fields tf !! k = Some v →
  ss_pop tf k
  = Ok (v, {| ss_fields := delete k (ss_fields tf); ss_checksums := ss_checksums tf |}).
Proof. intros Hk. unfold ss_pop, dict_pop. by rewrite Hk. Qed.

(** The first steps of [import_source] on a stanza with a name and a
    version. *)
Lemma source_control_spec (self : PackageImporter) (dsc_fname : string)
    (st : Archive) (src_tf : SourceStanza) (pkgname version : string) :
  apt_ftparchive_sources (fs st) dsc_fname = Ok src_tf →
  ss_fields src_tf !! "Package" = Some pkgname →
  ss_fields src_tf !! "Version" = Some version →
  source_control self dsc_fname st
  = match version_memory_above (db st) (rss_repo_id (imp_rss self)) pkgname version with
    | Some result =>
        (Raise (ArchiveImportError (HigherVersionSeen pkgname result)), st)
    | None =>
        (Ok (pkgname, version,
             {| ss_fields := delete "Version" (delete "Package" (ss_fields src_tf));
                ss_checksums := ss_checksums src_tf |}), st)
    end.
Proof.
  intros Htf Hn Hv. unfold source_control, bind, get, lift. rewrite Htf.
  rewrite (ss_pop_found _ _ _ Hn).
  rewrite (ss_pop_found _ "Version" version)
    by (simpl; by rewrite lookup_delete_ne).
  simpl. by destruct (version_memory_above _ _ _ _).
Qed.

(** C2, as the importer and the upload handler have it.  A source
    import whose package has a strictly higher version in the version
    memory raises the version error and leaves the archive, database
    and files, as it was.  An upload whose source has a higher or equal
    version in the memory is turned down by [process_changes] with
    [accepted = False] before anything is imported, and the archive is
    as it was. *)
Theorem regression_is_rejected :
  (∀ (self : PackageImporter) (dsc_fname component_name : string)
     (new_policy : NewPolicy) (st : Archive) (src_tf : SourceStanza)
     (pkgname version highest : string),
     apt_ftparchive_sources (fs st) dsc_fname = Ok src_tf →
     ss_fields src_tf !! "Package" = Some pkgname →
     ss_fields src_tf !! "Version" = Some version →
     db_version_memory (db st) !! (rss_repo_id (imp_rss self), pkgname)
     = Some highest →
     version_compare highest version = Gt →
     import_source self dsc_fname component_name new_policy st
     = (Raise (ArchiveImportError (HigherVersionSeen pkgname highest)), st))
  ∧ (∀ (self : UploadHandler) (fname : string) (st : Archive) (changes : Changes)
       (uploader : ArchiveUploader) (suite_name : string) (rss : RepoSuiteSettings)
       (version highest : string),
       parse_changes (fs st) fname = Ok changes →
       one_or_none
         (List.filter
            (λ u, bool_decide (ch_primary_fingerprint changes ∈ up_pgp_fingerprints u))
            (db_uploaders (db st))) = Ok (Some uploader) →
       ch_weak_signature changes = false →
       ch_distributions changes = [suite_name] →
       ch_sourceful changes && negb (up_allow_source_uploads uploader) = false →
       one (List.filter
              (λ r, bool_decide (rss_repo_id r = repo_id (uh_repo self))
                    && bool_decide (rss_suite_name r = suite_name))
              (db_rss (db st))) = Ok rss →
       ch_changes changes !! "Version" = Some version →
       db_version_memory (db st) !! (rss_repo_id rss, ch_source_name changes)
       = Some highest →
       version_compare highest version ≠ Lt →
       process_changes self fname st
       = (Ok (false, uploader,
              Some ("We have already seen higher or equal version "
                    +:+ Py.dq +:+ highest +:+ Py.dq +:+ " of source package "
                    +:+ Py.dq +:+ ch_source_name changes +:+ Py.dq
                    +:+ " in repository " +:+ Py.dq +:+ repo_name (uh_repo self)
                    +:+ Py.dq +:+ " before.")), st)).
Proof.
  split.
  - intros self dsc_fname component_name new_policy st src_tf pkgname version
      highest Htf Hn Hv Hmem Hgt.
    unfold import_source, source_prepare, bind at 1 2.
    rewrite (source_control_spec self dsc_fname st src_tf pkgname version Htf Hn Hv).
    unfold version_memory_above, version_gt. by rewrite Hmem, Hgt.
  - intros self fname st changes uploader suite_name rss version highest
      Hparse Hup Hweak Hdist Hsrc Hrss Hv Hmem Hge.
    unfold process_changes, bind, get, lift.
    rewrite Hparse, Hup, Hweak, Hdist, Hsrc, Hrss. unfold tag_item. rewrite Hv.
    unfold version_memory_at_least, version_ge. rewrite Hmem.
    by destruct (version_compare highest version).
Qed.

End Regression.

Section RegressionWitness.
#[local] Existing Instance Sample.capabilities.

Lemma regression_is_rejected_witness :
  import_source Sample.importer "/srv/incoming/hello_2.10-3.dsc" "main" DEFAULT
    (Sample.hello_arrives Sample.hello_dsc_text [(1%nat, "hello", "2.11-1")])
  = (Raise (ArchiveImportError (HigherVersionSeen "hello" "2.11-1")),
     Sample.hello_arrives Sample.hello_dsc_text [(1%nat, "hello", "2.11-1")])
  ∧ (process_changes Sample.handler "/srv/incoming/hello_2.10-3_source.changes"
       (Sample.changes_arrive "changes hello 2.10-3 unstable"
          [(1%nat, "hello", "2.10-3")])).2
    = Sample.changes_arrive "changes hello 2.10-3 unstable" [(1%nat, "hello", "2.10-3")].
Proof.
  split.
  - apply (proj1 regression_is_rejected) with (src_tf := Sample.hello_dsc)
                                              (version := "2.10-3");
      vm_compute; reflexivity.
  - erewrite (proj2 regression_is_rejected Sample.handler _ _
                (Sample.hello_changes "unstable") Sample.alice "unstable"
                Sample.unstable "2.10-3" "2.10-3");
      [reflexivity | vm_compute; reflexivity .. | vm_compute; discriminate].
Defined.

(** The version memory of [hello] stands at 2.10-3 and the source
    [hello] 2.10-3 is imported: the memory holds a version that is
    greater than or equal to the proposed one, the import is carried
    out, and the files are in the pool afterwards. *)
Lemma equal_version_is_imported :
  let st := Sample.hello_arrives Sample.hello_dsc_text [(1%nat, "hello", "2.10-3")] in
  let r := import_source Sample.importer "/srv/incoming/hello_2.10-3.dsc" "main"
             DEFAULT st in
  db_version_memory (db st) !! (1%nat, "hello") = Some "2.10-3"
  ∧ version_ge "2.10-3" "2.10-3" = true
  ∧ r.1 = Ok ()
  ∧ read_file (fs st) "/srv/repo/pool/h/hello/hello_2.10-3.dsc" = None
  ∧ read_file (fs r.2) "/srv/repo/pool/h/hello/hello_2.10-3.dsc"
    = Some "dsc hello 2.10-3".
Proof. vm_compute. done. Qed.

End RegressionWitness.

(** ** Binaries and their source package *)

(** One case distinction on what the goal matches on. *)
Ltac break_match :=
  match goal with
  | |- context [match ?x with _ => _ end] => destruct x eqn:?; simpl
  end.

Section BinarySource.
Context `{Capabilities}.

(** Reading the control stanza leaves the archive as it is. *)
Lemma binary_control_reads (self : PackageImporter) (deb_fname : string)
    (st : Archive) :
  (binary_control self deb_fname st).2 = st.
Proof.
  unfold binary_control, bind, get, lift. simpl.
  by repeat break_match.
Qed.

(** The search for the source package, by what the two queries find. *)
Lemma find_source_spec (self : PackageImporter) (c : BinaryControl) (st : Archive) :
  find_source self c st
  = (match
       one_or_none
         (published_sources (db st) (rss_repo_id (imp_rss self))
            (rss_suite_id (imp_rss self)) (bc_source_name c) (bc_source_version c))
     with
     | inl ex => Raise ex
     | inr (Some (id, p)) => Ok (id, p, false)
     | inr None =>
         match
           one_or_none
             (pending_sources (db st) (rss_suite_id (imp_rss self))
                (rss_repo_id (imp_rss self)) (bc_source_name c)
                (bc_source_version c))
         with
         | inl ex => Raise ex
         | inr (Some (e, p)) => Ok (nq_package e, p, true)
         | inr None =>
             Raise (ArchiveImportError
                      (NoSourcePackage (bc_pkgname c) (bc_version c)))
         end
     end, st).
Proof.
  unfold find_source, bind, get, lift.
  destruct (one_or_none (published_sources _ _ _ _ _)) as [ex|[[id p]|]]; try done.
  by destruct (one_or_none (pending_sources _ _ _ _ _)) as [ex|[[e p]|]].
Qed.

(** C7. A binary whose control stanza was read, and whose source name
    and version are found neither among the source packages of the
    suite nor in its NEW queue, is turned down with the error for a
    missing source package, and the archive is as it was.  Neither the
    content of the file nor the checksums its stanza declares are
    looked at: they do not occur in the statement. *)
Theorem orphaned_binary_is_rejected (self : PackageImporter)
    (deb_fname component_name : string) (st : Archive) (c : BinaryControl) :
  binary_control self deb_fname st = (Ok c, st) →
  published_sources (db st) (rss_repo_id (imp_rss self)) (rss_suite_id (imp_rss self))
    (bc_source_name c) (bc_source_version c) = [] →
  pending_sources (db st) (rss_suite_id (imp_rss self)) (rss_repo_id (imp_rss self))
    (bc_source_name c) (bc_source_version c) = [] →
  import_binary self deb_fname component_name st
  = (Raise (ArchiveImportError (NoSourcePackage (bc_pkgname c) (bc_version c))), st).
Proof.
  intros Hc Hpub Hpend. unfold import_binary, bind at 1 2.
  rewrite Hc, find_source_spec, Hpub, Hpend. done.
Qed.

Lemma one_or_none_some {A} (rows : list A) (x : A) :
  one_or_none rows = Ok (Some x) → rows = [x].
Proof. destruct rows as [|y [|z rows]]; simpl; congruence. Qed.

Lemma one_or_none_none {A} (rows : list A) :
  one_or_none rows = Ok None → rows = [].
Proof. by destruct rows as [|y [|z rows]]. Qed.

(** What the search has found when it returns. *)
Lemma find_source_found (self : PackageImporter) (c : BinaryControl) (st : Archive)
    (source_id : nat) (source : SourcePackage) (is_new : bool) :
  (find_source self c st).1 = Ok (source_id, source, is_new) →
  if is_new
  then published_sources (db st) (rss_repo_id (imp_rss self))
         (rss_suite_id (imp_rss self)) (bc_source_name c) (bc_source_version c) = []
       ∧ ∃ e, pending_sources (db st) (rss_suite_id (imp_rss self))
                (rss_repo_id (imp_rss self)) (bc_source_name c)
                (bc_source_version c) = [(e, source)]
              ∧ source_id = nq_package e
  else published_sources (db st) (rss_repo_id (imp_rss self))
         (rss_suite_id (imp_rss self)) (bc_source_name c) (bc_source_version c)
       = [(source_id, source)].
Proof.
  rewrite find_source_spec. simpl.
  destruct (one_or_none (published_sources _ _ _ _ _)) as [ex|[[id p]|]] eqn:Hpub;
    [done| |].
  - intros [= <- <- <-]. by apply one_or_none_some.
  - destruct (one_or_none (pending_sources _ _ _ _ _)) as [ex|[[e p]|]] eqn:Hpend;
      [done| |done].
    intros [= <- <- <-]. split; [by apply one_or_none_none|].
    exists e. split; [by apply one_or_none_some|done].
Qed.

(** The row that was added last is the one that is expunged. *)
Lemma delete_last {A} (l : list A) (x : A) : delete (length l) (l ++ [x]) = l.
Proof. induction l as [|y l IH]; simpl; [done|]. by rewrite IH. Qed.

Lemma insert_last {A} (l : list A) (x y : A) :
  <[length l := y]> (l ++ [x]) = l ++ [y].
Proof. induction l as [|z l IH]; simpl; [done|]. by rewrite IH. Qed.

(** The object of the binary enters the session, and stays in it for a
    published source only. *)
Lemma attach_source_spec (self : PackageImporter) (c : BinaryControl)
    (source_id : nat) (is_new : bool) (st : Archive) :
  attach_source self c source_id is_new st
  = (Ok (length (db_binaries (db st)), new_binary_package self c source_id),
     if is_new then st else with_binary (new_binary_package self c source_id) st).
Proof.
  unfold attach_source, bind, get, modify_db, ret, with_binary.
  destruct is_new; simpl; [|done].
  destruct st as [[] f]. unfold db_with_binaries. simpl. by rewrite delete_last.
Qed.

(** An assignment to the pending row that is the last one. *)
Lemma assign_binary_spec (b b' : BinaryPackage) (st : Archive) :
  assign_binary (length (db_binaries (db st))) b' (with_binary b st)
  = (Ok b', with_binary b' st).
Proof.
  unfold assign_binary, bind, modify_db, ret, with_binary. simpl.
  by rewrite insert_last.
Qed.

(** [_copy_or_move], by what is at the two names. *)
Lemma copy_or_move_spec (self : PackageImporter) (src dst : string)
    (override : bool) (st : Archive) :
  copy_or_move self src dst override st
  = (let f0 := if override && isfile (fs st) dst then unlink dst (fs st)
               else fs st in
     if bool_decide (resolve src = resolve dst)
     then (Raise (SameFileError src dst), {| db := db st; fs := f0 |})
     else
       match read_file f0 src with
       | None => (Raise (OSError src), {| db := db st; fs := f0 |})
       | Some content =>
           (Ok (),
            {| db := db st;
               fs := moved (imp_keep_source_packages self) src dst content f0 |})
       end).
Proof.
  unfold copy_or_move, shutil_copy, moved, bind, get, modify_fs, ret, raise.
  destruct st as [d f]. destruct override; simpl.
  - destruct (isfile f dst); simpl.
    + destruct (bool_decide (resolve src = resolve dst)); [done|]. simpl.
      destruct (read_file (unlink dst f) src); [|done]. simpl.
      by destruct (imp_keep_source_packages self).
    + destruct (bool_decide (resolve src = resolve dst)); [done|]. simpl.
      destruct (read_file f src); [|done]. simpl.
      by destruct (imp_keep_source_packages self).
  - destruct (bool_decide (resolve src = resolve dst)); [done|]. simpl.
    destruct (read_file f src); [|done]. simpl.
    by destruct (imp_keep_source_packages self).
Qed.

(** A file that is there moves to a name that is free. *)
Lemma copy_or_move_to_free (self : PackageImporter) (src dst content : string)
    (override : bool) (st : Archive) :
  read_file (fs st) src = Some content →
  isfile (fs st) dst = false →
  copy_or_move self src dst override st
  = (Ok (), {| db := db st;
               fs := moved (imp_keep_source_packages self) src dst content (fs st) |}).
Proof.
  intros Hsrc Hfree. rewrite copy_or_move_spec, Hfree, andb_false_r. simpl.
  rewrite Hsrc. rewrite bool_decide_eq_false_2; [done|].
  intros Heq. unfold isfile, read_file in *. rewrite <- Heq, Hsrc in Hfree.
  by rewrite bool_decide_eq_true_2 in Hfree.
Qed.

(** With [override], a file that is there moves to another name, over
    what that name may hold; when the name reaches the file itself, the
    file is removed and the copy is refused. *)
Lemma copy_or_move_override (self : PackageImporter) (src dst content : string)
    (st : Archive) :
  read_file (fs st) src = Some content →
  copy_or_move self src dst true st
  = if bool_decide (resolve src = resolve dst)
    then (Raise (SameFileError src dst),
          {| db := db st; fs := unlink src (fs st) |})
    else (Ok (), {| db := db st;
                    fs := moved (imp_keep_source_packages self) src dst content
                            (fs st) |}).
Proof.
  intros Hsrc. rewrite copy_or_move_spec. simpl.
  destruct (bool_decide_reflect (resolve src = resolve dst)) as [Heq|Hne].
  - assert (Hdst : isfile (fs st) dst = true).
    { unfold isfile, read_file in *. rewrite <- Heq, Hsrc.
      by apply bool_decide_eq_true_2. }
    rewrite Hdst. unfold unlink. by rewrite <- Heq.
  - destruct (isfile (fs st) dst); simpl; [|by rewrite Hsrc].
    unfold moved, read_file, unlink, write_file in *.
    by rewrite lookup_delete_ne, Hsrc, insert_delete_eq.
Qed.

Lemma copy_or_move_db (self : PackageImporter) (src dst : string)
    (override : bool) (st : Archive) :
  db (copy_or_move self src dst override st).2 = db st.
Proof.
  rewrite copy_or_move_spec. simpl. by repeat break_match.
Qed.

(** The attributes of lines 430 to 480 are written to the pending row
    as they are assigned: the archive after the step has the row with
    the attributes assigned so far, and everything else as before. *)
Lemma binary_package_spec (self : PackageImporter) (component_name : string)
    (c : BinaryControl) (bpkg : BinaryPackage) (bin_tf : gmap string string)
    (st : Archive) :
  ∃ row, same_binary bpkg row
    ∧ (binary_package self component_name c (length (db_binaries (db st))) bpkg
         bin_tf (with_binary bpkg st)).2 = with_binary row st
    ∧ ∀ b, (binary_package self component_name c (length (db_binaries (db st)))
              bpkg bin_tf (with_binary bpkg st)).1 = Ok b →
           b = row.
Proof.
  remember (binary_package self component_name c (length (db_binaries (db st)))
              bpkg bin_tf (with_binary bpkg st)) as r eqn:Hr.
  assert (Hstop : ∀ (row : BinaryPackage) (ex : Exception),
            same_binary bpkg row → r = (Raise ex, with_binary row st) →
            ∃ row0, same_binary bpkg row0 ∧ r.2 = with_binary row0 st
                    ∧ ∀ b, r.1 = Ok b → b = row0).
  { intros row ex Hsame ->. exists row. split; [done|]. split; [done|].
    by intros b [=]. }
  assert (Hrefl : same_binary bpkg bpkg) by (by unfold same_binary).
  unfold binary_package in Hr.
  unfold bind at 1, lift at 1 in Hr.
  destruct (dict_pop bin_tf "Description") as [ex|[description tf1]];
    [by eapply Hstop|].
  unfold bind at 1 in Hr. rewrite assign_binary_spec in Hr.
  set (b1 := bp_with_description _ _ _ bpkg) in Hr.
  assert (H1 : same_binary bpkg b1) by (by unfold same_binary).
  unfold bind at 1, lift at 1 in Hr.
  destruct (dict_pop tf1 "Filename") as [ex|[? tf2]]; [by eapply Hstop|].
  unfold bind at 1, lift at 1 in Hr.
  destruct (dict_pop tf2 "Priority") as [ex|[? tf3]]; [by eapply Hstop|].
  unfold bind at 1, lift at 1 in Hr.
  destruct (dict_pop tf3 "Section") as [ex|[? tf4]]; [by eapply Hstop|].
  destruct (dict_pop_opt tf4 "Essential") as [? tf5].
  unfold bind at 1, get at 1 in Hr. unfold bind at 1, lift at 1 in Hr.
  destruct (one_or_none _) as [ex|[override|]];
    [by eapply Hstop| |by eapply Hstop].
  unfold bind at 1 in Hr. rewrite assign_binary_spec in Hr.
  set (b2 := bp_with_override override b1) in Hr.
  assert (H2 : same_binary bpkg b2) by (by unfold same_binary).
  unfold bind at 1, lift at 1 in Hr.
  destruct (one _) as [ex|component]; [by eapply Hstop|].
  unfold bind at 1 in Hr. rewrite assign_binary_spec in Hr.
  destruct (pop_relations relation_fields tf5 ∅) as [relations tf6].
  destruct (dict_pop_opt tf6 "Multi-Arch") as [multi_arch tf7].
  rewrite assign_binary_spec in Hr. subst r.
  eexists. split; [|split; [reflexivity|]]; [by unfold same_binary|].
  simpl. by intros b [= <-].
Qed.

End BinarySource.

(** ** The course of a binary import *)

Section BinaryImport.
Context `{Capabilities}.

(** [import_binary] step by step: what is read, and the archive each
    failure leaves behind. *)
Lemma import_binary_run (self : PackageImporter) (deb_fname component_name : string)
    (st : Archive) :
  import_binary self deb_fname component_name st
  = match (binary_control self deb_fname st).1 with
    | inl ex => (Raise ex, st)
    | inr c =>
        match (find_source self c st).1 with
        | inl ex => (Raise ex, st)
        | inr (source_id, source, is_new) =>
            let bpkg := new_binary_package self c source_id in
            let st1 := if is_new : bool then st else with_binary bpkg st in
            match binary_file self c source with
            | inl ex => (Raise ex, st1)
            | inr (af, bin_tf) =>
                match read_file (fs st) deb_fname with
                | None => (Raise (OSError deb_fname), st1)
                | Some content =>
                    match verify_hash_list af (Hashes content) with
                    | inl ex => (Raise ex, st1)
                    | inr _ =>
                        if is_new
                        then copy_or_move self deb_fname
                               (Py.path_join (imp_repo_newqueue_root self)
                                  (af_fname af)) true st
                        else
                          (do bpkg <- binary_package self component_name c
                                        (length (db_binaries (db st))) bpkg bin_tf;
                           binary_commit self deb_fname
                             (af_with_binpkg (Some (bc_pkgname c, bc_version c)) af)
                             bpkg) st1
                    end
                end
            end
        end
    end.
Proof.
  unfold import_binary. unfold bind at 1.
  pose proof (binary_control_reads self deb_fname st) as Hreads.
  destruct (binary_control self deb_fname st) as [[ex|c] st0]; simpl in Hreads;
    subst st0; [done|].
  cbn [fst]. unfold bind at 1.
  pose proof (find_source_spec self c st) as Hfind.
  destruct (find_source self c st) as [[ex|[[source_id source] is_new]] st0];
    injection Hfind as _ ->; [done|].
  cbn [fst].
  unfold bind at 1. rewrite attach_source_spec.
  unfold bind at 1, lift at 1.
  destruct (binary_file self c source) as [ex|[af bin_tf]]; [done|].
  unfold bind at 1, verify_hashes, bind at 1, get at 1.
  assert (Hfs : fs (if is_new then st
                    else with_binary (new_binary_package self c source_id) st)
                = fs st) by (by destruct is_new).
  rewrite Hfs.
  destruct (read_file (fs st) deb_fname) as [content|]; [|done].
  unfold lift at 1.
  destruct (verify_hash_list af (Hashes content)) as [ex|[]]; [done|].
  by destruct is_new.
Qed.

(** The last step for a binary whose file was read. *)
Lemma binary_commit_spec (self : PackageImporter) (deb_fname content : string)
    (af : ArchiveFile) (row : BinaryPackage) (st : Archive) :
  read_file (fs st) deb_fname = Some content →
  binary_commit self deb_fname af row (with_binary row st)
  = if isfile (fs st) (Py.path_join (imp_repo_root self) (af_fname af))
    then (Raise (ArchiveImportError (DestinationExists (af_fname af))),
          with_binary row st)
    else (Ok (),
          {| db := binary_published (imp_rss self) row af (db st);
             fs := moved (imp_keep_source_packages self) deb_fname
                     (Py.path_join (imp_repo_root self) (af_fname af)) content
                     (fs st) |}).
Proof.
  intros Hsrc. unfold binary_commit, bind at 1, get at 1.
  change (fs (with_binary row st)) with (fs st).
  destruct (isfile (fs st) _) eqn:Hfree; [done|].
  unfold bind at 1.
  rewrite (copy_or_move_to_free self deb_fname _ content false (with_binary row st))
    by done.
  unfold bind, modify_db, package_mark_published, set_changes_pending, modify_db.
  simpl. done.
Qed.


(** X28. A binary import that returns has read the control stanza,
    found the source package, and found the uploaded file to agree with
    the checksums of the stanza.  If the source package waits in the
    NEW queue and is not published, the file is copied to the name of
    the binary joined to the NEW-queue directory, over whatever that
    name reaches, and the database is as before.  If the source package
    is published, the name of the binary joined to the root of the
    repository reached no file, the file is copied there, and the
    database has the row of the binary package (the row of the package
    the control stanza names, for this source), the row of the file,
    the version memory of the package at its version, and the suite
    marked as changed.  In both cases the upload is removed unless the
    importer keeps what it imports, and no other file is touched. *)
Theorem binary_import_outcome (self : PackageImporter)
    (deb_fname component_name : string) (st st' : Archive) :
  import_binary self deb_fname component_name st = (Ok (), st') →
  ∃ c source_id source is_new af bin_tf content,
    binary_control self deb_fname st = (Ok c, st)
    ∧ find_source self c st = (Ok (source_id, source, is_new), st)
    ∧ binary_file self c source = Ok (af, bin_tf)
    ∧ read_file (fs st) deb_fname = Some content
    ∧ verify_hash_list af (Hashes content) = Ok ()
    ∧ if is_new : bool
      then
        published_sources (db st) (rss_repo_id (imp_rss self))
          (rss_suite_id (imp_rss self)) (bc_source_name c) (bc_source_version c)
        = []
        ∧ (∃ e, pending_sources (db st) (rss_suite_id (imp_rss self))
                  (rss_repo_id (imp_rss self)) (bc_source_name c)
                  (bc_source_version c) = [(e, source)])
        ∧ db st' = db st
        ∧ fs st' = moved (imp_keep_source_packages self) deb_fname
                     (Py.path_join (imp_repo_newqueue_root self) (af_fname af))
                     content (fs st)
      else
        published_sources (db st) (rss_repo_id (imp_rss self))
          (rss_suite_id (imp_rss self)) (bc_source_name c) (bc_source_version c)
        = [(source_id, source)]
        ∧ isfile (fs st) (Py.path_join (imp_repo_root self) (af_fname af)) = false
        ∧ fs st' = moved (imp_keep_source_packages self) deb_fname
                     (Py.path_join (imp_repo_root self) (af_fname af))
                     content (fs st)
        ∧ ∃ row, same_binary (new_binary_package self c source_id) row
                 ∧ db st'
                   = binary_published (imp_rss self) row
                       (af_with_binpkg (Some (bc_pkgname c, bc_version c)) af)
                       (db st).
Proof.
  rewrite import_binary_run.
  pose proof (binary_control_reads self deb_fname st) as Hreads.
  destruct (binary_control self deb_fname st) as [[e|c] st0] eqn:Hc;
    simpl in Hreads; subst st0; cbn [fst]; [done|].
  pose proof (find_source_found self c st) as Hfound.
  assert (Hreads : (find_source self c st).2 = st) by (by rewrite find_source_spec).
  destruct (find_source self c st) as [[e|[[source_id source] is_new]] st0]
    eqn:Hfind; simpl in Hreads; subst st0; cbn [fst] in *; [done|].
  specialize (Hfound source_id source is_new eq_refl).
  set (bpkg := new_binary_package self c source_id). cbv zeta.
  destruct (binary_file self c source) as [e|[af bin_tf]] eqn:Hfile; [done|].
  destruct (read_file (fs st) deb_fname) as [content|] eqn:Hsrc; [|done].
  destruct (verify_hash_list af (Hashes content)) as [e|[]] eqn:Hverify; [done|].
  intros Hrun.
  exists c, source_id, source, is_new, af, bin_tf, content.
  do 5 (split; [done|]).
  destruct is_new.
  - rewrite (copy_or_move_override _ _ _ _ _ Hsrc) in Hrun.
    destruct (bool_decide _); [done|]. injection Hrun as <-.
    destruct Hfound as (Hpub & e & Hpend & _).
    split; [done|]. split; [by exists e|]. done.
  - unfold bind at 1 in Hrun.
    destruct (binary_package_spec self component_name c bpkg bin_tf st)
      as (row & Hsame & Hstate & Hres).
    destruct (binary_package self component_name c _ bpkg bin_tf
                (with_binary bpkg st)) as [[e|b] st2]; simpl in Hstate; subst st2;
      [done|].
    rewrite (Hres b eq_refl) in Hrun.
    rewrite (binary_commit_spec _ _ content) in Hrun by done.
    destruct (isfile (fs st) _) eqn:Hfree; [done|]. injection Hrun as <-.
    split; [done|]. split; [done|]. split; [done|]. by exists row.
Qed.

End BinaryImport.

(** ** Destinations that are taken *)

Section Occupied.
Context `{Capabilities}.


End Occupied.

Section BinaryImportWitness.
#[local] Existing Instance Sample.capabilities.

(** The stanza of the damaged file declares the checksums of the
    intact one: verification would fail, and is not reached. *)
Example damaged_binary_disagrees :
  Forall (λ h, ¬ agrees
                 {| af_fname := "pool/n/nowhere/stray_1.0_amd64.deb"; af_repo := Some 1%nat;
                    af_size := Some (Sample.size_of Sample.stray_deb);
                    af_md5sum := Some (Sample.digest "md5" Sample.stray_deb);
                    af_sha1sum := Some (Sample.digest "sha1" Sample.stray_deb);
                    af_sha256sum := Some (Sample.digest "sha256" Sample.stray_deb);
                    af_sha512sum := Some (Sample.digest "sha512" Sample.stray_deb);
                    af_binpkg := None |} h)
         (Hashes Sample.broken_deb).
Proof. repeat constructor; intros Ha; vm_compute in Ha; discriminate. Qed.

Lemma orphaned_binary_is_rejected_witness :
  import_binary Sample.importer "/srv/incoming/stray_1.0_amd64.deb" "main"
    (Sample.stray_arrives Sample.broken_deb)
  = (Raise (ArchiveImportError (NoSourcePackage "stray" "1.0")),
     Sample.stray_arrives Sample.broken_deb).
Proof.
  assert (Hfact :
    match (binary_control Sample.importer "/srv/incoming/stray_1.0_amd64.deb"
             (Sample.stray_arrives Sample.broken_deb)).1 with
    | inr c =>
        bool_decide (bc_pkgname c = "stray") && bool_decide (bc_version c = "1.0")
        && (bool_decide (bc_source_name c = "nowhere")
            && bool_decide (bc_source_version c = "1.0"))
    | inl _ => false
    end = true) by (vm_compute; reflexivity).
  pose proof (binary_control_reads Sample.importer "/srv/incoming/stray_1.0_amd64.deb"
                (Sample.stray_arrives Sample.broken_deb)) as Hreads.
  destruct (binary_control Sample.importer "/srv/incoming/stray_1.0_amd64.deb"
              (Sample.stray_arrives Sample.broken_deb)) as [[ex|c] st'] eqn:Hc;
    cbv beta iota delta [fst snd] in Hfact, Hreads; [discriminate Hfact|].
  subst st'.
  apply andb_true_iff in Hfact as [Hpkg Hsrc].
  apply andb_true_iff in Hpkg as [Hn Hv].
  apply andb_true_iff in Hsrc as [Hsn Hsv].
  apply bool_decide_eq_true in Hn, Hv, Hsn, Hsv.
  rewrite <- Hn, <- Hv.
  apply (orphaned_binary_is_rejected Sample.importer _ "main" _ c Hc);
    rewrite Hsn, Hsv; vm_compute; reflexivity.
Defined.

(** The binary of a source in the NEW queue lands there. *)
Example binary_of_new_source_lands_in_new_queue :
  let st := Sample.binary_of_new_arrives in
  let r := import_binary Sample.importer "/srv/incoming/hello_2.10-3_amd64.deb" "main"
             st in
  r.1 = Ok () ∧ db r.2 = db st
  ∧ map_to_list (fs r.2)
    = [("/srv/queue/new/pool/h/hello/hello_2.10-3_amd64.deb", Sample.hello_deb);
       ("/srv/queue/new/pool/h/hello/hello_2.10-3.dsc", Sample.hello_dsc_text)].
Proof. vm_compute. done. Qed.

(** C3. The pool holds the published binary of [gzip].  A binary
    arrives whose control stanza gives an absolute path as the name of
    the package and names a source that waits in the NEW queue; its
    checksums are right.  The name of the file, joined to the NEW-queue
    directory, is the path of the file of [gzip] in the pool: the
    import returns without an error and that file has the content of
    the upload. *)
Theorem new_binary_overwrites_pool_file :
  let st := Sample.crafted_binary_arrives in
  let r := import_binary Sample.importer "/srv/incoming/upload.deb" "main" st in
  let published := "/srv/repo/pool/g/gzip/gzip_1.12-1_amd64.deb" in
  Py.path_join (imp_repo_root Sample.importer) "pool/g/gzip/gzip_1.12-1_amd64.deb"
  = published
  ∧ read_file (fs st) published = Some Sample.gzip_deb
  ∧ r.1 = Ok ()
  ∧ read_file (fs r.2) published = Some Sample.crafted_deb
  ∧ Sample.crafted_deb ≠ Sample.gzip_deb.
Proof. vm_compute. repeat split; done. Qed.

(** C6. The same binary, whose source is found in the NEW queue only:
    the import returns and the database is as before, but the file is
    not placed under the NEW-queue directory.  The files under that
    directory are the ones that were there, and the upload is at a path
    in the pool. *)
Theorem new_binary_leaves_new_queue :
  let st := Sample.crafted_binary_arrives in
  let r := import_binary Sample.importer "/srv/incoming/upload.deb" "main" st in
  let under_new_queue (f : FileSystem) :=
    List.filter (λ x, Py.startswith x.1 (imp_repo_newqueue_root Sample.importer))
                (map_to_list f) in
  published_sources (db st) 1 7 "hello" "2.10-3" = []
  ∧ (pending_sources (db st) 7 1 "hello" "2.10-3").*2 = [Sample.hello_source "2.10-3" []]
  ∧ r.1 = Ok ()
  ∧ db r.2 = db st
  ∧ under_new_queue (fs r.2) = under_new_queue (fs st)
  ∧ map_to_list (fs r.2)
    = [("/srv/queue/new/pool/h/hello/hello_2.10-3.dsc", Sample.hello_dsc_text);
       ("/srv/repo/pool/g/gzip/gzip_1.12-1_amd64.deb", Sample.crafted_deb)].
Proof. vm_compute. repeat split; done. Qed.


Lemma binary_import_outcome_witness :
  ∃ c source_id source is_new af bin_tf content,
    binary_control Sample.importer "/srv/incoming/hello_2.9-1_amd64.deb"
      Sample.old_binary_arrives = (Ok c, Sample.old_binary_arrives)
    ∧ find_source Sample.importer c Sample.old_binary_arrives
      = (Ok (source_id, source, is_new), Sample.old_binary_arrives)
    ∧ binary_file Sample.importer c source = Ok (af, bin_tf)
    ∧ read_file (fs Sample.old_binary_arrives) "/srv/incoming/hello_2.9-1_amd64.deb"
      = Some content
    ∧ verify_hash_list af (Hashes content) = Ok ()
    ∧ if is_new : bool
      then
        published_sources (db Sample.old_binary_arrives)
          (rss_repo_id (imp_rss Sample.importer))
          (rss_suite_id (imp_rss Sample.importer)) (bc_source_name c)
          (bc_source_version c)
        = []
        ∧ (∃ e, pending_sources (db Sample.old_binary_arrives)
                  (rss_suite_id (imp_rss Sample.importer))
                  (rss_repo_id (imp_rss Sample.importer)) (bc_source_name c)
                  (bc_source_version c) = [(e, source)])
        ∧ db (import_binary Sample.importer "/srv/incoming/hello_2.9-1_amd64.deb"
                "main" Sample.old_binary_arrives).2
          = db Sample.old_binary_arrives
        ∧ fs (import_binary Sample.importer "/srv/incoming/hello_2.9-1_amd64.deb"
                "main" Sample.old_binary_arrives).2
          = moved (imp_keep_source_packages Sample.importer)
              "/srv/incoming/hello_2.9-1_amd64.deb"
              (Py.path_join (imp_repo_newqueue_root Sample.importer) (af_fname af))
              content (fs Sample.old_binary_arrives)
      else
        published_sources (db Sample.old_binary_arrives)
          (rss_repo_id (imp_rss Sample.importer))
          (rss_suite_id (imp_rss Sample.importer)) (bc_source_name c)
          (bc_source_version c)
        = [(source_id, source)]
        ∧ isfile (fs Sample.old_binary_arrives)
            (Py.path_join (imp_repo_root Sample.importer) (af_fname af)) = false
        ∧ fs (import_binary Sample.importer "/srv/incoming/hello_2.9-1_amd64.deb"
                "main" Sample.old_binary_arrives).2
          = moved (imp_keep_source_packages Sample.importer)
              "/srv/incoming/hello_2.9-1_amd64.deb"
              (Py.path_join (imp_repo_root Sample.importer) (af_fname af))
              content (fs Sample.old_binary_arrives)
        ∧ ∃ row, same_binary (new_binary_package Sample.importer c source_id) row
                 ∧ db (import_binary Sample.importer
                         "/srv/incoming/hello_2.9-1_amd64.deb" "main"
                         Sample.old_binary_arrives).2
                   = binary_published (imp_rss Sample.importer) row
                       (af_with_binpkg (Some (bc_pkgname c, bc_version c)) af)
                       (db Sample.old_binary_arrives).
Proof.
  assert (Hfact :
    (import_binary Sample.importer "/srv/incoming/hello_2.9-1_amd64.deb" "main"
       Sample.old_binary_arrives).1 = Ok ()) by (vm_compute; reflexivity).
  apply (binary_import_outcome Sample.importer _ "main").
  destruct (import_binary Sample.importer _ "main" Sample.old_binary_arrives)
    as [o st']; cbv beta iota delta [fst snd] in Hfact |- *. by rewrite Hfact.
Defined.


End BinaryImportWitness.

(** ** Runs that return *)

Section Runs.
Context `{Capabilities}.

Lemma bind_ok_inv {A B} (m : M A) (k : A → M B) (st st' : Archive) (y : B) :
  bind m k st = (Ok y, st') →
  ∃ x st1, m st = (Ok x, st1) ∧ k x st1 = (Ok y, st').
Proof.
  unfold bind. destruct (m st) as [[e|x] st1]; [done|]. intros Hk. by exists x, st1.
Qed.

Lemma assign_spec (r : SourceRef) (p : SourcePackage) (st : Archive) :
  (assign r p st).1 = Ok p ∧ fs (assign r p st).2 = fs st.
Proof. unfold assign. by destruct (ref_persistent r). Qed.

Lemma assign_inv (r : SourceRef) (p q : SourcePackage) (st st' : Archive) :
  assign r p st = (Ok q, st') → q = p ∧ fs st' = fs st.
Proof.
  intros Ha. destruct (assign_spec r p st) as [Hv Hf].
  rewrite Ha in Hv, Hf. simpl in Hv, Hf. by injection Hv as ->.
Qed.

End Runs.

(** ** The version memory moves with publication only *)

Section LedgerRules.
Context {X : Type} (g : Database → X).

Lemma ledger_ret {A} (x : A) : preserves_db g (ret x).
Proof. by intros st. Qed.

Lemma ledger_raise {A} (e : Exception) : preserves_db g (@raise A e).
Proof. by intros st. Qed.

Lemma ledger_lift {A} (r : Result A) : preserves_db g (lift r).
Proof. by intros st. Qed.

Lemma ledger_get : preserves_db g get.
Proof. by intros st. Qed.

Lemma ledger_modify_fs (h : FileSystem → FileSystem) :
  preserves_db g (modify_fs h).
Proof. by intros st. Qed.

Lemma ledger_modify_db (f : Database → Database) :
  (∀ d, g (f d) = g d) → preserves_db g (modify_db f).
Proof. intros Hf st. apply Hf. Qed.

Lemma ledger_bind {A B} (m : M A) (k : A → M B) :
  preserves_db g m → (∀ x, preserves_db g (k x)) → preserves_db g (bind m k).
Proof.
  intros Hm Hk st. unfold bind. specialize (Hm st).
  destruct (m st) as [[e|x] st']; simpl in *; [done|].
  by rewrite (Hk x st').
Qed.

Lemma ledger_run {A} (m : M A) (st st' : Archive) (x : Result A) :
  preserves_db g m → m st = (x, st') → g (db st') = g (db st).
Proof. intros Hm Hrun. specialize (Hm st). by rewrite Hrun in Hm. Qed.

End LedgerRules.

Create HintDb ledgers.

Ltac ledger_step :=
  first
    [ apply @ledger_ret | apply @ledger_raise | apply @ledger_lift
    | apply @ledger_get | apply @ledger_modify_fs
    | solve [apply @ledger_modify_db; intros; reflexivity]
    | solve [eauto with ledgers]
    | apply @ledger_bind; [|intros]
    | match goal with
      | |- preserves_db _ (match ?x with _ => _ end) => destruct x
      end ].
Ltac ledger_frame := repeat ledger_step.

Section Ledger.
Context `{Capabilities}.

Lemma assign_ledger (r : SourceRef) (p : SourcePackage) :
  preserves_db ledger (assign r p).
Proof. unfold assign. ledger_frame. Qed.

Lemma verify_hashes_ledger (file : ArchiveFile) (local_fname : string) :
  preserves_db ledger (verify_hashes file local_fname).
Proof. unfold verify_hashes. ledger_frame. Qed.

Lemma copy_or_move_ledger (self : PackageImporter) (src dst : string)
    (override : bool) :
  preserves_db ledger (copy_or_move self src dst override).
Proof. unfold copy_or_move, shutil_copy. ledger_frame. Qed.

Lemma register_package_overrides_ledger (rss : RepoSuiteSettings)
    (missing : list PackageInfo) :
  preserves_db ledger (register_package_overrides rss missing).
Proof. unfold register_package_overrides. ledger_frame. Qed.

Hint Resolve assign_ledger verify_hashes_ledger copy_or_move_ledger
  register_package_overrides_ledger : ledgers.

Lemma source_control_ledger (self : PackageImporter) (dsc_fname : string) :
  preserves_db ledger (source_control self dsc_fname).
Proof. unfold source_control. ledger_frame. Qed.

Lemma source_object_ledger (self : PackageImporter)
    (pkgname version component_name : string) :
  preserves_db ledger (source_object self pkgname version component_name).
Proof. unfold source_object. ledger_frame. Qed.

Lemma source_fields_ledger (r : SourceRef) (pkgname : string)
    (spkg : SourcePackage) (src_tf : SourceStanza) :
  preserves_db ledger (source_fields r pkgname spkg src_tf).
Proof. unfold source_fields. ledger_frame. Qed.

Lemma remove_old_files_ledger (self : PackageImporter) (old : list ArchiveFile) :
  preserves_db ledger (remove_old_files self old).
Proof. induction old as [|file rest IH]; simpl; ledger_frame. Qed.

Lemma verify_new_files_ledger (self : PackageImporter) (r : SourceRef)
    (dsc_dir : string) (files : list ArchiveFile) (spkg : SourcePackage)
    (files_todo : list ArchiveFile) :
  preserves_db ledger (verify_new_files self r dsc_dir files spkg files_todo).
Proof.
  revert spkg files_todo.
  induction files as [|file rest IH]; intros spkg files_todo; simpl; ledger_frame.
Qed.

Lemma source_route_ledger (self : PackageImporter) (r : SourceRef)
    (new_policy : NewPolicy) (spkg : SourcePackage) (nq_entry : option NewEntry) :
  preserves_db ledger (source_route self r new_policy spkg nq_entry).
Proof. unfold source_route. ledger_frame. Qed.

Hint Resolve source_control_ledger source_object_ledger source_fields_ledger
  remove_old_files_ledger verify_new_files_ledger source_route_ledger : ledgers.

Lemma source_files_ledger (self : PackageImporter) (r : SourceRef)
    (dsc_dir : string) (spkg : SourcePackage) (src_tf : SourceStanza) :
  preserves_db ledger (source_files self r dsc_dir spkg src_tf).
Proof. unfold source_files. ledger_frame. Qed.

Hint Resolve source_files_ledger : ledgers.

Lemma source_prepare_ledger (self : PackageImporter)
    (dsc_fname component_name : string) (new_policy : NewPolicy) :
  preserves_db ledger (source_prepare self dsc_fname component_name new_policy).
Proof. unfold source_prepare. ledger_frame. Qed.

Lemma place_source_files_ledger (self : PackageImporter) (dsc_dir : string)
    (is_new : bool) (files_todo : list ArchiveFile) :
  preserves_db ledger (place_source_files self dsc_dir is_new files_todo).
Proof. induction files_todo as [|file rest IH]; simpl; ledger_frame. Qed.

(** The last stage of a NEW package writes neither the memory nor a
    flag. *)
Lemma source_commit_new_ledger (self : PackageImporter) (r : SourceRef)
    (spkg : SourcePackage) (nq_entry : option NewEntry) (src_tf : SourceStanza) :
  preserves_db ledger (source_commit self r spkg nq_entry true src_tf).
Proof. unfold source_commit. ledger_frame. Qed.

(** The last stage fails, if at all, before it writes the memory. *)
Lemma source_commit_raise_ledger (self : PackageImporter) (r : SourceRef)
    (spkg : SourcePackage) (nq_entry : option NewEntry) (is_new : bool)
    (src_tf : SourceStanza) (st : Archive) (ex : Exception) :
  (source_commit self r spkg nq_entry is_new src_tf st).1 = Raise ex →
  ledger (db (source_commit self r spkg nq_entry is_new src_tf st).2)
  = ledger (db st).
Proof.
  unfold source_commit, bind, lift, assign, modify_db, ret,
    package_mark_published, set_changes_pending.
  destruct nq_entry as [e|], is_new, (ss_pop src_tf "Directory") as [e'|[d tf]],
    (ref_persistent r); simpl; done.
Qed.

(** X2. A source import that raises leaves the version memory and the
    [changes_pending] flags of the suites as they were: the memory
    advances in the last statements of [import_source], after every
    step that can fail. *)
Theorem failed_source_import_keeps_ledger (self : PackageImporter)
    (dsc_fname component_name : string) (new_policy : NewPolicy)
    (st : Archive) (ex : Exception) :
  (import_source self dsc_fname component_name new_policy st).1 = Raise ex →
  ledger (db (import_source self dsc_fname component_name new_policy st).2)
  = ledger (db st).
Proof.
  remember (import_source self dsc_fname component_name new_policy st) as res
    eqn:Hres.
  unfold import_source, bind at 1 in Hres.
  destruct (source_prepare self dsc_fname component_name new_policy st)
    as [[e|[[[[[r spkg] nq_entry] is_new] files_todo] src_tf]] st1] eqn:Hprep.
  { subst res. intros _. simpl.
    exact (ledger_run ledger _ _ _ _ (source_prepare_ledger _ _ _ _) Hprep). }
  assert (H1 : ledger (db st1) = ledger (db st))
    by exact (ledger_run ledger _ _ _ _ (source_prepare_ledger _ _ _ _) Hprep).
  unfold bind at 1 in Hres.
  destruct (place_source_files self (Py.dirname dsc_fname) is_new files_todo st1)
    as [[e|[]] st2] eqn:Hplace.
  { subst res. intros _. simpl. rewrite <- H1.
    exact (ledger_run ledger _ _ _ _ (place_source_files_ledger _ _ _ _) Hplace). }
  assert (H2 : ledger (db st2) = ledger (db st1))
    by exact (ledger_run ledger _ _ _ _ (place_source_files_ledger _ _ _ _) Hplace).
  subst res. intros Hraise.
  rewrite (source_commit_raise_ledger _ _ _ _ _ _ _ _ Hraise). congruence.
Qed.

(** X3. A source import that is routed to the NEW queue leaves the
    version memory and the [changes_pending] flags as they were, also
    when it succeeds. *)
Theorem new_source_import_keeps_ledger (self : PackageImporter)
    (dsc_fname component_name : string) (new_policy : NewPolicy) (st : Archive) :
  routed_to_new self dsc_fname component_name new_policy st = true →
  ledger (db (import_source self dsc_fname component_name new_policy st).2)
  = ledger (db st).
Proof.
  unfold routed_to_new, import_source, bind at 1.
  destruct (source_prepare self dsc_fname component_name new_policy st)
    as [[e|[[[[[r spkg] nq_entry] is_new] files_todo] src_tf]] st1] eqn:Hprep;
    simpl; [done|]. intros ->.
  assert (H1 : ledger (db st1) = ledger (db st))
    by exact (ledger_run ledger _ _ _ _ (source_prepare_ledger _ _ _ _) Hprep).
  rewrite <- H1.
  apply (ledger_bind ledger).
  - apply place_source_files_ledger.
  - intros []. apply source_commit_new_ledger.
Qed.

End Ledger.

Section LedgerWitness.
#[local] Existing Instance Sample.capabilities.

Lemma failed_source_import_keeps_ledger_witness :
  ledger (db (import_source Sample.importer "/srv/incoming/hello_2.10-3.dsc"
                "main" DEFAULT Sample.hello_arrives_again).2)
  = ledger (db Sample.hello_arrives_again).
Proof.
  apply (failed_source_import_keeps_ledger Sample.importer _ "main" DEFAULT
           Sample.hello_arrives_again
           (ArchiveImportError
              (DestinationExists "pool/h/hello/hello_2.10.orig.tar.gz"))).
  vm_compute. reflexivity.
Defined.

Lemma new_source_import_keeps_ledger_witness :
  ledger (db (import_source Sample.importer "/srv/incoming/hello_2.10-3.dsc"
                "main" ALWAYS_NEW
                (Sample.hello_arrives Sample.hello_dsc_text
                   [(1%nat, "hello", "2.9-1")])).2)
  = ledger (db (Sample.hello_arrives Sample.hello_dsc_text
                  [(1%nat, "hello", "2.9-1")])).
Proof.
  apply (new_source_import_keeps_ledger Sample.importer _ "main" ALWAYS_NEW
           (Sample.hello_arrives Sample.hello_dsc_text
              [(1%nat, "hello", "2.9-1")])).
  vm_compute. reflexivity.
Defined.

End LedgerWitness.

(** ** Uploads *)

Section Uploads.
Context `{Capabilities}.

Lemma try_except_returns {A} (m : M A) (h : Exception → M A) (st : Archive) :
  (∀ e st0, ∃ x, h e st0 = (Ok x, st0)) →
  ∃ x st', try_except m h st = (Ok x, st').
Proof.
  intros Hh. unfold try_except. destruct (m st) as [[e|x] st']; [|eauto].
  destruct (Hh e st') as [x ->]. eauto.
Qed.

Ltac run_try_except st :=
  match goal with
  | |- context [try_except ?m ?h st] =>
      let x := fresh "x" in
      let st' := fresh "st" in
      destruct (try_except_returns m h st) as (x & st' & ->);
      [intros; by eexists|]
  end.

Lemma import_dsc_returns (pi : PackageImporter) (uploader : ArchiveUploader)
    (dsc_dir : string) (files : list ChangesFile) (st : Archive) :
  ∃ r st', import_dsc pi uploader dsc_dir files st = (Ok r, st').
Proof.
  unfold import_dsc.
  destruct (List.find _ files) as [file|]; [|by eexists _, _].
  destruct (Py.contains _ _); [by eexists _, _|].
  apply try_except_returns. intros. by eexists.
Qed.

Lemma import_debs_returns (pi : PackageImporter) (dsc_dir : string)
    (files : list ChangesFile) (st : Archive) :
  ∃ r st', import_debs pi dsc_dir files st = (Ok r, st').
Proof.
  revert st. induction files as [|file rest IH]; intros st; simpl.
  - by eexists _, _.
  - destruct (is_deb _); [|apply IH].
    destruct (Py.contains _ _); [by eexists _, _|].
    unfold bind. run_try_except st.
    destruct x; [by eexists _, _|apply IH].
Qed.

(** X5. [process_changes] raises only before it imports anything:
    when it raises, the archive is as it was.  Every failure of an
    import is caught and returned as a rejection. *)
Theorem process_changes_raises_early (self : UploadHandler) (fname : string)
    (st : Archive) (ex : Exception) :
  (process_changes self fname st).1 = Raise ex →
  (process_changes self fname st).2 = st.
Proof.
  remember (process_changes self fname st) as res eqn:Hres.
  unfold process_changes in Hres.
  unfold bind at 1, get at 1 in Hres. cbv beta iota in Hres.
  unfold bind at 1, lift at 1 in Hres.
  destruct (parse_changes (fs st) fname) as [e|changes];
    [by subst res|].
  unfold bind at 1, lift at 1 in Hres.
  destruct (one_or_none _) as [e|[uploader|]]; [by subst res| |by subst res].
  destruct (ch_weak_signature changes); [by subst res|].
  destruct (ch_distributions changes) as [|suite_name [|]];
    [by subst res| |by subst res].
  destruct (_ && _); [by subst res|].
  unfold bind at 1, lift at 1 in Hres.
  destruct (one _) as [e|rss]; [by subst res|].
  unfold bind at 1, lift at 1 in Hres.
  destruct (tag_item _ _) as [e|version]; [by subst res|].
  destruct (version_memory_at_least _ _ _ _); [by subst res|].
  destruct (ch_files changes) as [e|files].
  { by destruct e; subst res. }
  destruct (_ && _); [by subst res|].
  unfold bind at 1 in Hres.
  destruct (import_dsc_returns
              (imp_with_keep_source_packages (uh_keep_source_packages self)
                 (new_package_importer rss))
              uploader (Py.dirname fname) files st) as (r1 & st1 & Hdsc).
  rewrite Hdsc in Hres.
  destruct r1; [by subst res|].
  unfold bind at 1 in Hres.
  destruct (import_debs_returns
              (imp_with_keep_source_packages (uh_keep_source_packages self)
                 (new_package_importer rss))
              (Py.dirname fname) files st1) as (r2 & st2 & Hdebs).
  rewrite Hdebs in Hres.
  by destruct r2; subst res.
Qed.


Lemma one_some {A} (rows : list A) (x : A) : one rows = Ok x → rows = [x].
Proof. destruct rows as [|y [|]]; simpl; congruence. Qed.

Lemma filter_singleton {A} (P : A → bool) (l : list A) (x : A) :
  List.filter P l = [x] → x ∈ l ∧ P x = true.
Proof.
  intros Hf. assert (Hin : In x (List.filter P l)) by (rewrite Hf; by left).
  apply filter_In in Hin as [Hin HP]. by rewrite list_elem_of_In.
Qed.

(** X6. An upload of a registered uploader with a weak
    signature, with a number of distributions other than one, or with
    sources that the uploader may not upload, is rejected with a reason
    and the archive stays as it was. *)
Theorem refused_upload_is_untouched (self : UploadHandler) (fname : string)
    (st : Archive) (changes : Changes) (uploader : ArchiveUploader) :
  parse_changes (fs st) fname = Ok changes →
  registered_uploader st changes uploader →
  ch_weak_signature changes = true
  ∨ length (ch_distributions changes) ≠ 1%nat
  ∨ (ch_sourceful changes = true ∧ up_allow_source_uploads uploader = false) →
  ∃ reason,
    process_changes self fname st = (Ok (false, uploader, Some reason), st).
Proof.
  intros Hparse Hup Hwhy.
  unfold process_changes, registered_uploader in *.
  unfold bind at 1, get at 1. cbv beta iota.
  unfold bind at 1, lift at 1. rewrite Hparse.
  unfold bind at 1, lift at 1. rewrite Hup. simpl one_or_none. cbv beta iota.
  destruct (ch_weak_signature changes); [by eexists|].
  destruct (ch_distributions changes) as [|suite_name [|]]; [by eexists| |by eexists].
  destruct Hwhy as [?|[?|[-> ->]]]; [done..|].
  by eexists.
Qed.

(** The [.dsc] of an upload that is not turned down was imported. *)
Lemma import_dsc_accepts (pi : PackageImporter) (uploader : ArchiveUploader)
    (dsc_dir : string) (files : list ChangesFile) (st st' : Archive)
    (file : ChangesFile) :
  import_dsc pi uploader dsc_dir files st = (Ok None, st') →
  List.find (λ file, Py.endswith (cf_fname file) ".dsc") files = Some file →
  Py.contains "/"%char (cf_fname file) = false
  ∧ import_source pi (Py.path_join dsc_dir (cf_fname file)) (cf_component file)
      (if up_always_review uploader then ALWAYS_NEW else rss_new_policy (imp_rss pi))
      st = (Ok (), st').
Proof.
  unfold import_dsc. intros Hrun Hfind. rewrite Hfind in Hrun.
  destruct (Py.contains _ _); [done|]. split; [done|].
  unfold try_except, bind, ret in Hrun.
  destruct (import_source _ _ _ _ st) as [[e|[]] st1]; simpl in Hrun; [done|].
  by injection Hrun as <-.
Qed.

(** No binary of an upload that is not turned down has a slash in its
    name. *)
Lemma import_debs_accepts (pi : PackageImporter) (dsc_dir : string)
    (files : list ChangesFile) (st st' : Archive) :
  import_debs pi dsc_dir files st = (Ok None, st') →
  Forall (λ file, is_deb (cf_fname file) = true →
                  Py.contains "/"%char (cf_fname file) = false) files.
Proof.
  revert st. induction files as [|file rest IH]; intros st; simpl; [done|].
  destruct (is_deb (cf_fname file)) eqn:Hdeb.
  - destruct (Py.contains _ _) eqn:Hslash; [done|].
    unfold bind at 1.
    destruct (try_except _ _ st) as [[e|[reason|]] st1]; [done..|].
    intros Hrest. constructor; [done|]. by apply (IH st1).
  - intros Hrest. constructor; [congruence|]. by apply (IH st).
Qed.

(** X7. [process_changes] accepts an upload only if its manifest
    was parsed, exactly one registered uploader holds the key of its
    signature, the signature is not weak, it names one distribution,
    for which the repository has settings, and the version memory of
    the repository has no version of the source package that is higher
    or equal.  The permissions are checked against the manifest: if the
    manifest is marked as sourceful the uploader may upload sources,
    and if the uploader may not upload binaries no file of the manifest
    is a [.deb] or [.udeb].  The first [.dsc] among the files, if there
    is one, has no slash in its name and its import returned, whether
    the manifest is marked as sourceful or not; no binary among the
    files has a slash in its name. *)
Theorem accepted_upload_is_permitted (self : UploadHandler) (fname : string)
    (st : Archive) (uploader : ArchiveUploader) (reason : option string) :
  (process_changes self fname st).1 = Ok (true, uploader, reason) →
  reason = None
  ∧ ∃ changes suite_name rss version files,
      parse_changes (fs st) fname = Ok changes
      ∧ registered_uploader st changes uploader
      ∧ ch_weak_signature changes = false
      ∧ ch_distributions changes = [suite_name]
      ∧ (ch_sourceful changes = true → up_allow_source_uploads uploader = true)
      ∧ rss ∈ db_rss (db st)
      ∧ rss_repo_id rss = repo_id (uh_repo self)
      ∧ rss_suite_name rss = suite_name
      ∧ tag_item (ch_changes changes) "Version" = Ok version
      ∧ version_memory_at_least (db st) (rss_repo_id rss)
          (ch_source_name changes) version = None
      ∧ ch_files changes = Ok files
      ∧ (up_allow_binary_uploads uploader = false →
         Forall (λ file, is_deb (cf_fname file) = false) files)
      ∧ (∀ file,
           List.find (λ file, Py.endswith (cf_fname file) ".dsc") files = Some file →
           Py.contains "/"%char (cf_fname file) = false
           ∧ (import_source
                (imp_with_keep_source_packages (uh_keep_source_packages self)
                   (new_package_importer rss))
                (Py.path_join (Py.dirname fname) (cf_fname file))
                (cf_component file)
                (if up_always_review uploader then ALWAYS_NEW
                 else rss_new_policy rss) st).1 = Ok ())
      ∧ Forall (λ file, is_deb (cf_fname file) = true →
                        Py.contains "/"%char (cf_fname file) = false) files.
Proof.
  unfold process_changes, registered_uploader.
  unfold bind at 1, get at 1. cbv beta iota.
  unfold bind at 1, lift at 1.
  destruct (parse_changes (fs st) fname) as [e|changes]; [done|].
  unfold bind at 1, lift at 1.
  destruct (one_or_none _) as [e|[u|]] eqn:Hup; [done| |done].
  apply one_or_none_some in Hup.
  destruct (ch_weak_signature changes) eqn:Hweak; [done|].
  destruct (ch_distributions changes) as [|suite_name [|]] eqn:Hdist;
    [done| |done].
  destruct (ch_sourceful changes && negb (up_allow_source_uploads u)) eqn:Hsrc;
    [done|].
  unfold bind at 1, lift at 1.
  destruct (one _) as [e|rss] eqn:Hrss; [done|].
  apply one_some, filter_singleton in Hrss as [Hrss Hmatch].
  apply andb_true_iff in Hmatch as [Hrepo Hsuite].
  apply bool_decide_eq_true in Hrepo, Hsuite.
  unfold bind at 1, lift at 1.
  destruct (tag_item _ _) as [e|version] eqn:Hversion; [done|].
  destruct (version_memory_at_least _ _ _ _) eqn:Hmem; [done|].
  destruct (ch_files changes) as [e|files] eqn:Hfiles.
  { by destruct e. }
  destruct (negb (up_allow_binary_uploads u) && _) eqn:Hbin; [done|].
  unfold bind at 1.
  destruct (import_dsc _ _ _ _ _) as [[e|[r1|]] st1] eqn:Hdsc; [done..|].
  unfold bind at 1.
  destruct (import_debs _ _ _ _) as [[e|[r2|]] st2] eqn:Hdebs; [done..|].
  simpl. intros [= <- <-]. split; [done|].
  exists changes, suite_name, rss, version, files.
  repeat split; try done.
  - intros Hs. rewrite Hs in Hsrc. simpl in Hsrc.
    by apply negb_false_iff in Hsrc.
  - intros Hb. rewrite Hb in Hbin. simpl in Hbin.
    apply Forall_forall. intros file Hin.
    destruct (is_deb (cf_fname file)) eqn:Hdeb; [|done].
    assert (existsb (λ file, is_deb (cf_fname file)) files = true); [|congruence].
    apply existsb_exists. exists file. by rewrite <- list_elem_of_In.
  - by destruct (import_dsc_accepts _ _ _ _ _ _ file Hdsc).
  - destruct (import_dsc_accepts _ _ _ _ _ _ file Hdsc) as [_ Himp]; [done|].
    simpl in Himp. by rewrite Himp.
  - by apply (import_debs_accepts _ _ _ _ _ Hdebs).
Qed.

Lemma always_new_is_routed (self : PackageImporter) (r : SourceRef)
    (spkg spkg' : SourcePackage) (nq_entry nq_entry' : option NewEntry)
    (is_new : bool) (st st' : Archive) :
  source_route self r ALWAYS_NEW spkg nq_entry st
  = (Ok (spkg', nq_entry', is_new), st') →
  is_new = true.
Proof.
  unfold source_route, bind, get, modify_db, ret. simpl.
  rewrite orb_true_r. destruct nq_entry; by intros [= <- <- <- <-].
Qed.

Lemma import_source_always_new_ledger (self : PackageImporter)
    (dsc_fname component_name : string) :
  preserves_db ledger (import_source self dsc_fname component_name ALWAYS_NEW).
Proof.
  intros st. unfold import_source, bind at 1.
  destruct (source_prepare self dsc_fname component_name ALWAYS_NEW st)
    as [[e|[[[[[r spkg] nq_entry] is_new] files_todo] src_tf]] st1] eqn:Hprep.
  { exact (ledger_run ledger _ _ _ _ (source_prepare_ledger _ _ _ _) Hprep). }
  assert (H1 : ledger (db st1) = ledger (db st))
    by exact (ledger_run ledger _ _ _ _ (source_prepare_ledger _ _ _ _) Hprep).
  assert (is_new = true) as ->.
  { unfold source_prepare in Hprep.
    apply bind_ok_inv in Hprep as ([[pkgname version] tf0] & s0 & _ & Hprep).
    apply bind_ok_inv in Hprep as ([[r0 p0] nq0] & s1 & _ & Hprep).
    apply bind_ok_inv in Hprep as ([p1 tf1] & s2 & _ & Hprep).
    apply bind_ok_inv in Hprep as ([[p2 todo] tf2] & s3 & _ & Hprep).
    apply bind_ok_inv in Hprep as ([[p3 nq3] new3] & s4 & Hroute & Hprep).
    injection Hprep as <- <- <- <- <- <- <-.
    by apply always_new_is_routed in Hroute. }
  rewrite <- H1. apply (ledger_bind ledger).
  - apply place_source_files_ledger.
  - intros []. apply source_commit_new_ledger.
Qed.

Lemma try_except_ledger {A} (m : M A) (h : Exception → M A) :
  preserves_db ledger m → (∀ e, preserves_db ledger (h e)) →
  preserves_db ledger (try_except m h).
Proof.
  intros Hm Hh st. unfold try_except. specialize (Hm st).
  destruct (m st) as [[e|x] st']; simpl in *; [|done].
  by rewrite (Hh e st').
Qed.

Lemma import_dsc_reviewed_ledger (pi : PackageImporter) (uploader : ArchiveUploader)
    (dsc_dir : string) (files : list ChangesFile) :
  up_always_review uploader = true →
  preserves_db ledger (import_dsc pi uploader dsc_dir files).
Proof.
  intros Hreview. unfold import_dsc. rewrite Hreview.
  destruct (List.find _ files) as [file|]; [|apply ledger_ret].
  destruct (Py.contains _ _); [apply ledger_ret|].
  apply try_except_ledger.
  - apply ledger_bind; [apply import_source_always_new_ledger|].
    intros []. apply ledger_ret.
  - intros e. apply ledger_ret.
Qed.

Lemma import_debs_without_debs (pi : PackageImporter) (dsc_dir : string)
    (files : list ChangesFile) (st : Archive) :
  Forall (λ file, is_deb (cf_fname file) = false) files →
  import_debs pi dsc_dir files st = (Ok None, st).
Proof.
  induction 1 as [|file rest Hfile _ IH]; simpl; [done|]. by rewrite Hfile.
Qed.

(** X8. An upload without binaries by an uploader whose uploads
    are always reviewed leaves the version memory and the
    [changes_pending] flags as they were, whatever the policy of the
    suite: its source goes to the NEW queue. *)
Theorem reviewed_upload_keeps_ledger (self : UploadHandler) (fname : string)
    (st : Archive) (changes : Changes) (uploader : ArchiveUploader)
    (files : list ChangesFile) :
  parse_changes (fs st) fname = Ok changes →
  registered_uploader st changes uploader →
  up_always_review uploader = true →
  ch_files changes = Ok files →
  Forall (λ file, is_deb (cf_fname file) = false) files →
  ledger (db (process_changes self fname st).2) = ledger (db st).
Proof.
  intros Hparse Hup Hreview Hfiles Hsource.
  unfold process_changes, registered_uploader in *.
  unfold bind at 1, get at 1. cbv beta iota.
  unfold bind at 1, lift at 1. rewrite Hparse.
  unfold bind at 1, lift at 1. rewrite Hup. simpl one_or_none. cbv beta iota.
  destruct (ch_weak_signature changes); [done|].
  destruct (ch_distributions changes) as [|suite_name [|]]; [done| |done].
  destruct (_ && _); [done|].
  unfold bind at 1, lift at 1.
  destruct (one _) as [e|rss]; [done|].
  unfold bind at 1, lift at 1.
  destruct (tag_item _ _) as [e|version]; [done|].
  destruct (version_memory_at_least _ _ _ _); [done|].
  rewrite Hfiles.
  destruct (_ && _); [done|].
  unfold bind at 1.
  pose proof (import_dsc_reviewed_ledger
                (imp_with_keep_source_packages (uh_keep_source_packages self)
                   (new_package_importer rss))
                uploader (Py.dirname fname) files Hreview st) as Hdsc.
  destruct (import_dsc _ _ _ _ _) as [[e|[r1|]] st1]; [done..|].
  unfold bind at 1. rewrite import_debs_without_debs by done.
  done.
Qed.

End Uploads.

Section UploadsWitness.
#[local] Existing Instance Sample.capabilities.

Lemma process_changes_raises_early_witness :
  (process_changes Sample.handler "/srv/incoming/hello_2.10-3_source.changes"
     (Sample.changes_arrive "changes hello 2.10-3 experimental" [])).2
  = Sample.changes_arrive "changes hello 2.10-3 experimental" [].
Proof.
  apply (process_changes_raises_early Sample.handler _ _ NoResultFound).
  vm_compute. reflexivity.
Defined.

Lemma refused_upload_is_untouched_witness :
  ∃ reason,
    process_changes Sample.handler "/srv/incoming/hello_2.10-3_source.changes"
      (Sample.with_uploaders [Sample.builder]
         (Sample.changes_arrive "changes hello 2.10-3 unstable" []))
    = (Ok (false, Sample.builder, Some reason),
       Sample.with_uploaders [Sample.builder]
         (Sample.changes_arrive "changes hello 2.10-3 unstable" [])).
Proof.
  apply (refused_upload_is_untouched Sample.handler _ _
           (Sample.hello_changes "unstable") Sample.builder).
  - vm_compute. reflexivity.
  - vm_compute. reflexivity.
  - right. right. split; reflexivity.
Defined.

Lemma accepted_upload_is_permitted_witness :
  @None string = None
  ∧ ∃ changes suite_name rss version files,
      parse_changes
        (fs (Sample.changes_arrive "changes hello 2.10-3 unstable" []))
        "/srv/incoming/hello_2.10-3_source.changes" = Ok changes
      ∧ registered_uploader
          (Sample.changes_arrive "changes hello 2.10-3 unstable" []) changes
          Sample.alice
      ∧ ch_weak_signature changes = false
      ∧ ch_distributions changes = [suite_name]
      ∧ (ch_sourceful changes = true → up_allow_source_uploads Sample.alice = true)
      ∧ rss ∈ db_rss (db (Sample.changes_arrive "changes hello 2.10-3 unstable" []))
      ∧ rss_repo_id rss = repo_id (uh_repo Sample.handler)
      ∧ rss_suite_name rss = suite_name
      ∧ tag_item (ch_changes changes) "Version" = Ok version
      ∧ version_memory_at_least
          (db (Sample.changes_arrive "changes hello 2.10-3 unstable" []))
          (rss_repo_id rss) (ch_source_name changes) version = None
      ∧ ch_files changes = Ok files
      ∧ (up_allow_binary_uploads Sample.alice = false →
         Forall (λ file, is_deb (cf_fname file) = false) files)
      ∧ (∀ file,
           List.find (λ file, Py.endswith (cf_fname file) ".dsc") files = Some file →
           Py.contains "/"%char (cf_fname file) = false
           ∧ (import_source
                (imp_with_keep_source_packages
                   (uh_keep_source_packages Sample.handler)
                   (new_package_importer rss))
                (Py.path_join (Py.dirname "/srv/incoming/hello_2.10-3_source.changes")
                   (cf_fname file))
                (cf_component file)
                (if up_always_review Sample.alice then ALWAYS_NEW
                 else rss_new_policy rss)
                (Sample.changes_arrive "changes hello 2.10-3 unstable" [])).1
             = Ok ())
      ∧ Forall (λ file, is_deb (cf_fname file) = true →
                        Py.contains "/"%char (cf_fname file) = false) files.
Proof.
  apply (accepted_upload_is_permitted Sample.handler
           "/srv/incoming/hello_2.10-3_source.changes"
           (Sample.changes_arrive "changes hello 2.10-3 unstable" [])
           Sample.alice None).
  vm_compute. reflexivity.
Defined.

(** The permission to upload sources is asked for by the mark of the
    manifest only: an uploader without it, whose manifest lists a
    [.dsc] and is not marked as sourceful, has the source imported. *)
Example unmarked_source_upload_is_accepted :
  let st := Sample.with_uploaders [Sample.builder]
              (Sample.changes_arrive "changes hello 2.10-3 unstable, unmarked" []) in
  let r := process_changes Sample.handler "/srv/incoming/hello_2.10-3_source.changes"
             st in
  up_allow_source_uploads Sample.builder = false
  ∧ r.1 = Ok (true, Sample.builder, None)
  ∧ (sp_name <$> (map_to_list (db_sources (db st))).*2) = []
  ∧ (sp_name <$> (map_to_list (db_sources (db r.2))).*2) = ["hello"].
Proof. vm_compute. done. Qed.

Lemma reviewed_upload_keeps_ledger_witness :
  ledger (db (process_changes Sample.handler
                "/srv/incoming/hello_2.10-3_source.changes"
                (Sample.with_uploaders [Sample.newcomer]
                   (Sample.changes_arrive "changes hello 2.10-3 unstable" []))).2)
  = ledger (db (Sample.with_uploaders [Sample.newcomer]
                  (Sample.changes_arrive "changes hello 2.10-3 unstable" []))).
Proof.
  apply (reviewed_upload_keeps_ledger Sample.handler _ _
           (Sample.hello_changes "unstable") Sample.newcomer
           [ {| cf_fname := "hello_2.10-3.dsc"; cf_component := "main" |};
             {| cf_fname := "hello_2.10.orig.tar.gz"; cf_component := "main" |};
             {| cf_fname := "hello_2.10-3.debian.tar.xz"; cf_component := "main" |} ]).
  - vm_compute. reflexivity.
  - vm_compute. reflexivity.
  - reflexivity.
  - reflexivity.
  - repeat constructor.
Defined.

(** The reviewed upload is accepted, and its source waits in the NEW
    queue. *)
Example reviewed_upload_is_queued :
  let res :=
    process_changes Sample.handler "/srv/incoming/hello_2.10-3_source.changes"
      (Sample.with_uploaders [Sample.newcomer]
         (Sample.changes_arrive "changes hello 2.10-3 unstable" [])) in
  res.1 = Ok (true, Sample.newcomer, None)
  ∧ length (db_new_queue (db res.2)) = 1%nat.
Proof. vm_compute. done. Qed.

End UploadsWitness.

(** ** Splitting a field *)

Section PopSplit.

Lemma is_prefix_list_app (p l : list ascii) :
  Py.is_prefix_list p l = true → ∃ rest, l = p ++ rest.
Proof.
  revert l. induction p as [|c p IH]; intros l; simpl; [by exists l|].
  destruct l as [|d l]; [done|].
  intros [Hc Hp]%andb_true_iff. apply bool_decide_eq_true in Hc as ->.
  destruct (IH l Hp) as [rest ->]. by exists rest.
Qed.

Lemma split_list_nonempty (sep cur l : list ascii) (skip : nat) :
  Py.split_list sep cur l skip ≠ [].
Proof.
  revert cur skip. induction l as [|c l IH]; intros cur skip; simpl; [done|].
  destruct skip; [|apply IH]. destruct (Py.is_prefix_list sep (c :: l)); [done|apply IH].
Qed.

Lemma join_with_cons (sep x : string) (l : list string) :
  l ≠ [] → join_with sep (x :: l) = x +:+ sep +:+ join_with sep l.
Proof. by destruct l. Qed.

Lemma split_list_join (sep cur l : list ascii) (skip : nat) :
  sep ≠ [] →
  Py.chars (join_with (Py.str sep) (Py.str <$> Py.split_list sep cur l skip))
  = rev cur ++ drop skip l.
Proof.
  intros Hsep. revert cur skip.
  induction l as [|c l IH]; intros cur skip.
  - simpl. rewrite chars_str, drop_nil. by rewrite app_nil_r.
  - simpl. destruct skip as [|k]; [|apply IH].
    destruct (Py.is_prefix_list sep (c :: l)) eqn:Hp.
    + rewrite fmap_cons, join_with_cons.
      2:{ intros Hnil. apply fmap_nil_inv in Hnil.
          by apply split_list_nonempty in Hnil. }
      rewrite !chars_app, !chars_str, IH. simpl.
      apply is_prefix_list_app in Hp as [rest Hrest].
      destruct sep as [|s0 ss]; [done|].
      injection Hrest as <- ->. simpl. rewrite Nat.sub_0_r.
      by rewrite drop_app_length.
    + rewrite IH. simpl. by rewrite <- app_assoc.
Qed.

(** X9. [pop_split] removes the key and nothing else, and joining the
    pieces it returns with the separator gives the value back.  It
    returns the empty list exactly when the key is absent or its value
    is the empty string; for any other value it returns what
    [value.split(s)] gives. *)
Theorem pop_split_joins (d : gmap string string) (key s : string) :
  s ≠ "" →
  join_with s (pop_split d key s).1 = default "" (d !! key)
  ∧ (pop_split d key s).2 !! key = None
  ∧ (pop_split d key s).2 = delete key d
  ∧ ((pop_split d key s).1 = [] ↔ default "" (d !! key) = "")
  ∧ (∀ value, d !! key = Some value → value ≠ "" →
              (pop_split d key s).1 = Py.split value s).
Proof.
  intros Hs. unfold pop_split, dict_pop_opt.
  split; [|split; [|split; [|split]]].
  - destruct (d !! key) as [v|]; [|done]. simpl.
    destruct v as [|c v]; [done|]. simpl Py.falsy. cbv iota. simpl fst.
    rewrite <- (str_chars (join_with _ _)), <- (str_chars (String c v)).
    f_equal. unfold Py.split.
    rewrite <- (str_chars s) at 1.
    rewrite split_list_join.
    + simpl rev. rewrite drop_0, app_nil_l. by rewrite str_chars.
    + intros Hnil. apply Hs. rewrite <- (str_chars s). by rewrite Hnil.
  - destruct (d !! key) as [[|]|]; simpl; apply lookup_delete_eq.
  - by destruct (d !! key) as [[|]|].
  - destruct (d !! key) as [[|c v]|]; simpl; [done| |done].
    split; [|done]. unfold Py.split. intros Hnil.
    apply fmap_nil_inv in Hnil. by apply split_list_nonempty in Hnil.
  - intros value ->. by destruct value.
Qed.

End PopSplit.

Lemma pop_split_joins_witness :
  let d : gmap string string := {["Uploaders" := "a, b"]} in
  join_with ", " (pop_split d "Uploaders" ", ").1 = default "" (d !! "Uploaders")
  ∧ (pop_split d "Uploaders" ", ").2 !! "Uploaders" = None
  ∧ (pop_split d "Uploaders" ", ").2 = delete "Uploaders" d
  ∧ ((pop_split d "Uploaders" ", ").1 = [] ↔ default "" (d !! "Uploaders") = "")
  ∧ (∀ value, d !! "Uploaders" = Some value → value ≠ "" →
              (pop_split d "Uploaders" ", ").1 = Py.split value ", ").
Proof. apply pop_split_joins. done. Defined.

(** The empty value of a relation field gives no relation, not the one
    empty piece that [split] would give. *)
Example pop_split_empty :
  (pop_split {["Depends" := ""]} "Depends" ", ").1 = []
  ∧ (pop_split ∅ "Depends" ", ").1 = []
  ∧ Py.split "" ", " = [""].
Proof. vm_compute. done. Qed.

(** ** The revision of a version *)

Section Revision.

Lemma rfind_list_none (c : ascii) (l : list ascii) (i : nat) (found : option nat) :
  c ∉ l → rfind_list c l i found = found.
Proof.
  revert i found. induction l as [|x l IH]; intros i found Hc; simpl; [done|].
  apply not_elem_of_cons in Hc as [Hx Hl].
  rewrite bool_decide_eq_false_2 by done. by apply IH.
Qed.

Lemma rfind_list_last (c : ascii) (pre post : list ascii) (i : nat)
    (found : option nat) :
  c ∉ post →
  rfind_list c (pre ++ c :: post) i found = Some (i + length pre)%nat.
Proof.
  intros Hpost. revert i found.
  induction pre as [|x pre IH]; intros i found; simpl.
  - rewrite bool_decide_eq_true_2 by done.
    rewrite rfind_list_none by done. f_equal. lia.
  - rewrite IH. f_equal. lia.
Qed.

Lemma string_length_chars (s : string) : String.length s = length (Py.chars s).
Proof. unfold Py.chars. induction s as [|c s IH]; simpl; [done|]. by rewrite IH. Qed.

(** X10. [version_revision] returns what follows the last hyphen of the
    version; a version without a hyphen is returned whole, or gives the
    empty string when [full_for_native] is off. *)
Theorem version_revision_spec (full_for_native : bool) :
  (∀ upstream revision : string,
     "-"%char ∉ Py.chars revision →
     version_revision (upstream +:+ "-" +:+ revision) full_for_native = revision)
  ∧ (∀ version : string,
       "-"%char ∉ Py.chars version →
       version_revision version full_for_native
       = if full_for_native then version else "").
Proof.
  split.
  - intros upstream revision Hrev. unfold version_revision, py_rfind.
    rewrite !chars_app. change (Py.chars "-") with ["-"%char]. simpl app.
    rewrite rfind_list_last by done. simpl Nat.add.
    rewrite (proj2 (Z.ltb_ge (Z.of_nat (length (Py.chars upstream))) 0)) by lia.
    unfold Py.slice, Py.slice_list. rewrite string_length_chars.
    rewrite !chars_app. change (Py.chars "-") with ["-"%char]. simpl app.
    set (l := Py.chars upstream ++ "-"%char :: Py.chars revision).
    assert (Hlen : length l = (length (Py.chars upstream)
                               + S (length (Py.chars revision)))%nat).
    { unfold l. by rewrite length_app. }
    assert (Ha : Py.clamp (length l) (Z.of_nat (length (Py.chars upstream)) + 1)
                 = S (length (Py.chars upstream))).
    { unfold Py.clamp.
      rewrite (proj2 (Z.ltb_ge (Z.of_nat (length (Py.chars upstream)) + 1) 0)) by lia.
      lia. }
    assert (Hb : Py.clamp (length l) (Z.of_nat (length l)) = length l).
    { unfold Py.clamp. rewrite (proj2 (Z.ltb_ge (Z.of_nat (length l)) 0)) by lia. lia. }
    rewrite Ha, Hb. unfold l.
    replace (Py.chars upstream ++ "-"%char :: Py.chars revision)
      with ((Py.chars upstream ++ ["-"%char]) ++ Py.chars revision)
      by by rewrite <- app_assoc.
    rewrite drop_app_length'.
    2:{ rewrite length_app. simpl. lia. }
    rewrite take_ge.
    2:{ rewrite !length_app. simpl. lia. }
    apply str_chars.
  - intros version Hv. unfold version_revision, py_rfind.
    by rewrite rfind_list_none.
Qed.

End Revision.

Lemma version_revision_spec_witness :
  version_revision "1:2.10-3" false = "3"
  ∧ version_revision "20220101" false = "".
Proof.
  destruct (version_revision_spec false) as [Hrev Hnative]. split.
  - apply (Hrev "1:2.10" "3").
    refine (bool_decide_unpack _ _). vm_compute. exact I.
  - apply (Hnative "20220101").
    refine (bool_decide_unpack _ _). vm_compute. exact I.
Defined.

(** ** Checksum lists *)

Section ChecksumLists.
Context `{ReaderHelpers}.

Lemma parse_checksum_lines_app (l1 l2 : list string) (base_dir : option string)
    (files : list ReaderFile) :
  parse_checksum_lines (l1 ++ l2) base_dir files
  = (try files1 <- parse_checksum_lines l1 base_dir files;
     parse_checksum_lines l2 base_dir files1).
Proof.
  revert files. induction l1 as [|line l1 IH]; intros files; simpl; [done|].
  destruct (split_strip line " ") as [|digest [|size [|name [|]]]]; try apply IH.
  unfold rbind at 1 3. destruct (int_of size); [done|apply IH].
Qed.

Lemma parse_checksum_lines_sound (lines : list string) (base_dir : option string)
    (files0 files : list ReaderFile) :
  parse_checksum_lines lines base_dir files0 = Ok files →
  ∃ added, files = files0 ++ added
           ∧ Forall (λ f, ∃ line, line ∈ lines ∧ checksum_entry base_dir line f) added.
Proof.
  revert files0. induction lines as [|line lines IH]; intros files0; simpl.
  - intros [= <-]. exists []. by rewrite app_nil_r.
  - assert (Hskip : parse_checksum_lines lines base_dir files0 = Ok files →
              ∃ added, files = files0 ++ added
                ∧ Forall (λ f, ∃ l, l ∈ line :: lines ∧ checksum_entry base_dir l f)
                         added).
    { intros Hrun. destruct (IH _ Hrun) as (added & -> & Hall).
      exists added. split; [done|].
      eapply Forall_impl; [exact Hall|]. intros f (l & Hl & He).
      exists l. split; [by right|done]. }
    destruct (split_strip line " ") as [|digest [|size [|name [|]]]] eqn:Hparts;
      try exact Hskip.
    unfold rbind at 1, int_of. destruct (py_int size) as [n|] eqn:Hsize; [|done].
    intros Hrun. destruct (IH _ Hrun) as (added & -> & Hall).
    eexists (_ :: added). split; [by rewrite <- app_assoc|].
    constructor.
    + exists line. split; [by left|]. by exists digest, size, name.
    + eapply Forall_impl; [exact Hall|]. intros f (l & Hl & He).
      exists l. split; [by right|done].
Qed.

(** X11. Every file [parse_checksums_list] returns stands for a line of
    the data with exactly three fields, a digest, a number and a name,
    the name joined to the base directory if there is one; no data
    gives no file. *)
Theorem parse_checksums_list_sound (data base_dir : option string)
    (files : list ReaderFile) :
  parse_checksums_list data base_dir = Ok files →
  Forall (λ f, ∃ text line, data = Some text ∧ line ∈ Py.split text newline
                            ∧ checksum_entry base_dir line f) files.
Proof.
  unfold parse_checksums_list. destruct data as [text|]; [|by intros [= <-]].
  destruct (Py.falsy text); [by intros [= <-]|].
  intros Hrun. apply parse_checksum_lines_sound in Hrun as (added & -> & Hall).
  simpl. eapply Forall_impl; [exact Hall|]. intros f (line & Hline & He).
  by exists text, line.
Qed.

(** X12. A line that does not have exactly three fields is passed over
    without an error: the list reads as it does without the line. *)
Theorem malformed_checksum_line_is_skipped (before after : list string)
    (line : string) (base_dir : option string) (files : list ReaderFile) :
  length (split_strip line " ") ≠ 3%nat →
  parse_checksum_lines (before ++ line :: after) base_dir files
  = parse_checksum_lines (before ++ after) base_dir files.
Proof.
  intros Hparts. rewrite !parse_checksum_lines_app. unfold rbind.
  destruct (parse_checksum_lines before base_dir files) as [ex|files1]; [done|].
  simpl. by destruct (split_strip line " ") as [|digest [|size [|name [|]]]].
Qed.

End ChecksumLists.

Section ChecksumListsWitness.
#[local] Existing Instance Sample.reader_helpers.

Lemma parse_checksums_list_sound_witness :
  Forall (λ f, ∃ text line,
            Some ("f43923ace1c5 2455 hello_2.10-3.dsc" +:+ newline +:+ "no entry")
            = Some text
            ∧ line ∈ Py.split text newline
            ∧ checksum_entry (Some "pool/main/h/hello") line f)
    [ {| rf_fname := "pool/main/h/hello/hello_2.10-3.dsc"; rf_size := 2455;
         rf_sha256sum := "f43923ace1c5" |} ].
Proof.
  apply (parse_checksums_list_sound
           (Some ("f43923ace1c5 2455 hello_2.10-3.dsc" +:+ newline +:+ "no entry"))
           (Some "pool/main/h/hello")).
  vm_compute. reflexivity.
Defined.

Lemma malformed_checksum_line_is_skipped_witness :
  parse_checksum_lines
    (["f43923ace1c5 2455 hello_2.10-3.dsc"] ++ "no entry" :: ["0a1b2c 17 hello.tar"])
    None []
  = parse_checksum_lines
      (["f43923ace1c5 2455 hello_2.10-3.dsc"] ++ ["0a1b2c 17 hello.tar"]) None [].
Proof.
  apply (malformed_checksum_line_is_skipped
           ["f43923ace1c5 2455 hello_2.10-3.dsc"] ["0a1b2c 17 hello.tar"]
           "no entry" None []).
  vm_compute. intros Hlen. discriminate Hlen.
Defined.

End ChecksumListsWitness.

(** ** The newest package of each name *)

Section NewestPackages.
Context `{RepositoryAccess} {P : Type} (name version : P → string).

Local Abbreviation newest := (make_newest_packages_dict name version).
Local Abbreviation step := (newest_step name version).

Lemma newest_snoc (pkgs : list P) (pkg : P) :
  newest (pkgs ++ [pkg]) = step (newest pkgs) pkg.
Proof. unfold make_newest_packages_dict. by rewrite foldl_app. Qed.

Lemma newest_step_lookup (res : gmap string P) (pkg : P) (n : string) (q : P) :
  step res pkg !! n = Some q →
  (n = name pkg ∧ q = pkg) ∨ res !! n = Some q.
Proof.
  unfold newest_step.
  destruct (res !! name pkg) as [epkg|] eqn:He.
  - destruct (0 <? _); [|by right].
    destruct (decide (n = name pkg)) as [->|Hn].
    + rewrite lookup_insert_eq. intros [= <-]. by left.
    + rewrite lookup_insert_ne by done. by right.
  - destruct (decide (n = name pkg)) as [->|Hn].
    + rewrite lookup_insert_eq. intros [= <-]. by left.
    + rewrite lookup_insert_ne by done. by right.
Qed.

Lemma newest_listed (pkgs : list P) :
  (∀ n q, newest pkgs !! n = Some q → q ∈ pkgs ∧ name q = n)
  ∧ (∀ p, p ∈ pkgs → is_Some (newest pkgs !! name p)).
Proof.
  induction pkgs as [|pkg pkgs [IHa IHb]] using rev_ind.
  - split; [intros n q Hq; unfold make_newest_packages_dict in Hq; simpl in Hq;
             by rewrite lookup_empty in Hq|].
    intros p Hp. by apply elem_of_nil in Hp.
  - rewrite newest_snoc. split.
    + intros n q Hq. apply newest_step_lookup in Hq as [[-> ->]|Hq].
      * split; [|done]. apply elem_of_app. right. by left.
      * destruct (IHa _ _ Hq). split; [|done]. apply elem_of_app. by left.
    + intros p Hp. unfold newest_step.
      assert (Hcases : name p = name pkg ∨ (name p ≠ name pkg ∧ p ∈ pkgs)).
      { destruct (decide (name p = name pkg)); [by left|right]. split; [done|].
        apply elem_of_app in Hp as [Hp|Hp]; [done|].
        apply list_elem_of_singleton in Hp. by subst. }
      destruct Hcases as [Hn|[Hn Hin]].
      * rewrite Hn. destruct (newest pkgs !! name pkg) as [epkg|] eqn:He.
        -- destruct (0 <? _); [by rewrite lookup_insert_eq|by rewrite He].
        -- by rewrite lookup_insert_eq.
      * destruct (newest pkgs !! name pkg) as [epkg|] eqn:He.
        -- destruct (0 <? _); [rewrite lookup_insert_ne by done|]; by apply IHb.
        -- rewrite lookup_insert_ne by done. by apply IHb.
Qed.

(** X13. The dictionary of [make_newest_packages_dict] has an entry for
    the name of every package of the list and for no other name, and
    the entry of a name is a package of the list with that name. *)
Theorem newest_packages_are_listed (pkgs : list P) :
  (∀ n q, make_newest_packages_dict name version pkgs !! n = Some q →
          q ∈ pkgs ∧ name q = n)
  ∧ (∀ p, p ∈ pkgs →
          is_Some (make_newest_packages_dict name version pkgs !! name p)).
Proof. apply newest_listed. Qed.

(** X14. Where [version_compare] orders the versions of the list, the
    entry of a name is a newest package of that name: no package of the
    list with the same name compares greater than it. *)
Theorem newest_packages_are_newest (pkgs : list P) :
  (∀ a, a ∈ pkgs → apt_version_compare (version a) (version a) ≤ 0) →
  (∀ a b c, a ∈ pkgs → b ∈ pkgs → c ∈ pkgs →
     apt_version_compare (version a) (version b) ≤ 0 →
     0 < apt_version_compare (version c) (version b) →
     apt_version_compare (version a) (version c) ≤ 0) →
  ∀ p q, p ∈ pkgs →
         make_newest_packages_dict name version pkgs !! name p = Some q →
         apt_version_compare (version p) (version q) ≤ 0.
Proof.
  induction pkgs as [|pkg pkgs IH] using rev_ind; intros Hrefl Htrans p q Hp.
  { by apply elem_of_nil in Hp. }
  assert (Hpkg : pkg ∈ pkgs ++ [pkg]) by (apply elem_of_app; right; by left).
  assert (Hsub : ∀ a, a ∈ pkgs → a ∈ pkgs ++ [pkg])
    by (intros a Ha; apply elem_of_app; by left).
  assert (IH' : ∀ p q, p ∈ pkgs → newest pkgs !! name p = Some q →
                       apt_version_compare (version p) (version q) ≤ 0).
  { apply IH; [intros; apply Hrefl|intros a b c ???; apply Htrans]; auto. }
  clear IH. destruct (newest_listed pkgs) as [Hlisted Hhas].
  rewrite newest_snoc. unfold newest_step.
  destruct (newest pkgs !! name pkg) as [epkg|] eqn:He.
  - destruct (0 <? _) eqn:Hgt.
    + apply Z.ltb_lt in Hgt.
      destruct (decide (name p = name pkg)) as [Hn|Hn].
      * rewrite Hn, lookup_insert_eq. intros [= <-].
        apply elem_of_app in Hp as [Hp|Hp].
        -- apply (Htrans p epkg pkg); auto.
           ++ apply Hsub. by destruct (Hlisted _ _ He).
           ++ apply IH'; [done|]. by rewrite Hn.
        -- apply list_elem_of_singleton in Hp as ->. by apply Hrefl.
      * rewrite lookup_insert_ne by done. intros Hq.
        apply elem_of_app in Hp as [Hp|Hp]; [by apply IH'|].
        apply list_elem_of_singleton in Hp. by subst.
    + apply Z.ltb_ge in Hgt. intros Hq.
      apply elem_of_app in Hp as [Hp|Hp]; [by apply IH'|].
      apply list_elem_of_singleton in Hp as ->.
      rewrite He in Hq. by injection Hq as <-.
  - destruct (decide (name p = name pkg)) as [Hn|Hn].
    + rewrite Hn, lookup_insert_eq. intros [= <-].
      apply elem_of_app in Hp as [Hp|Hp].
      * apply Hhas in Hp. rewrite Hn, He in Hp. by destruct Hp.
      * apply list_elem_of_singleton in Hp as ->. by apply Hrefl.
    + rewrite lookup_insert_ne by done. intros Hq.
      apply elem_of_app in Hp as [Hp|Hp]; [by apply IH'|].
      apply list_elem_of_singleton in Hp. by subst.
Qed.

End NewestPackages.

(** ** Indices and the signed list of their digests *)

Section Indices.
Context `{ReaderHelpers} `{RepositoryAccess}.

Lemma validate_index_spec (fname sha : string) (files : list ReaderFile)
    (valid v : bool) :
  validate_index fname sha files valid = Ok v →
  (∀ af, af ∈ files → rf_fname af = fname → rf_sha256sum af = sha)
  ∧ v = valid || existsb (λ af, bool_decide (rf_fname af = fname)) files.
Proof.
  revert valid. induction files as [|af files IH]; intros valid; simpl.
  - intros [= <-]. split; [intros af Haf; by apply elem_of_nil in Haf|].
    by rewrite orb_false_r.
  - destruct (bool_decide (rf_fname af = fname)) eqn:Hname.
    + destruct (bool_decide (sha ≠ rf_sha256sum af)) eqn:Hsha; [done|].
      apply bool_decide_eq_false in Hsha. apply dec_stable in Hsha.
      intros Hrun. destruct (IH _ Hrun) as [Hall ->]. split.
      * intros af' [->|Hin]%elem_of_cons; [done|by apply Hall].
      * simpl. by rewrite orb_true_r.
    + apply bool_decide_eq_false in Hname.
      intros Hrun. destruct (IH _ Hrun) as [Hall ->]. split; [|done].
      intros af' [->|Hin]%elem_of_cons; [done|by apply Hall].
Qed.

(** Fetching a file changes neither the trust flag nor the cache. *)
Lemma fetch_keeps_cache (self : ReaderSetup) (loc : string) (check : bool)
    (st : ReaderState) :
  rr_inrelease (fetch_repo_file_internal self loc check st).2 = rr_inrelease st
  ∧ rr_trusted (fetch_repo_file_internal self loc check st).2 = rr_trusted st.
Proof.
  unfold fetch_repo_file_internal.
  destruct (rr_repo_url self) as [url|]; [destruct (Py.falsy url)|];
    repeat break_match; done.
Qed.

(** Reading the [InRelease] data with [check] on returns what the cache
    holds afterwards. *)
Lemma read_repo_information_cached (self : ReaderSetup) (suite_name : string)
    (st st' : ReaderState) (ird : list ReaderFile) :
  read_repo_information self suite_name true st = (Ok ird, st') →
  rr_inrelease st' !! suite_name = Some ird.
Proof.
  unfold read_repo_information.
  destruct (rr_inrelease st !! suite_name) as [cached|] eqn:Hc.
  { by intros [= <- <-]. }
  destruct (fetch_repo_file_internal _ _ _ _) as [[ex|[irfname|]] st1]; [done| |done].
  destruct (rr_disk st1 !! irfname) as [contents|]; [|done].
  destruct (rbind _ _) as [ex|files]; [done|].
  intros [= <- <-]. simpl. by rewrite lookup_insert_eq.
Qed.

(** X15. [index_file] returns the path of an index only after it has
    compared the digest of the file with the [InRelease] data of the
    suite: no entry of that name has another digest, and with [check]
    on, some entry of that name is there. *)
Theorem index_file_is_validated (self : ReaderSetup) (suite_name fname : string)
    (check : bool) (st st' : ReaderState) (path : string) :
  index_file self suite_name fname check st = (Ok (Some path), st') →
  ∃ content ird,
    rr_disk st' !! path = Some content
    ∧ rr_inrelease st' !! suite_name = Some ird
    ∧ (∀ af, af ∈ ird → rf_fname af = fname →
             rf_sha256sum af = sha256sum content)
    ∧ (check = true →
       ∃ af, af ∈ ird ∧ rf_fname af = fname
             ∧ rf_sha256sum af = sha256sum content).
Proof.
  unfold index_file. cbv zeta.
  match goal with
  | |- context [read_repo_information self suite_name true ?s] => set (st0 := s)
  end.
  destruct (read_repo_information self suite_name true st0)
    as [[ex|ird] st1] eqn:Hread; [done|].
  apply read_repo_information_cached in Hread.
  pose proof (fetch_keeps_cache self
                (Py.path_join (Py.path_join "dists" suite_name) fname) false st1)
    as [Hcache _].
  destruct (fetch_repo_file_internal _ _ _ st1) as [[ex|[index_fname|]] st2];
    [done| |done].
  simpl in Hcache.
  destruct (rr_disk st2 !! index_fname) as [content|] eqn:Hdisk; [|done].
  destruct (validate_index _ _ _ _) as [ex|valid] eqn:Hvalid; [done|].
  apply validate_index_spec in Hvalid as [Hall ->]. simpl.
  destruct (negb _ && check) eqn:Hcheck; [done|].
  intros [= <- <-]. exists content, ird.
  split; [done|]. split; [by rewrite Hcache|]. split; [done|].
  intros ->. rewrite andb_true_r in Hcheck. apply negb_false_iff in Hcheck.
  apply existsb_exists in Hcheck as (af & Hin & Hname).
  apply bool_decide_eq_true in Hname. apply list_elem_of_In in Hin.
  exists af. split; [done|]. split; [done|]. by apply Hall.
Qed.

(** X16. The [InRelease] data the reader takes into its cache was
    accepted by [SignedFile], and a signature was required unless the
    repository was marked as trusted and has no keyring. *)
Theorem inrelease_is_signed (self : ReaderSetup) (suite_name : string)
    (st st' : ReaderState) (ird : list ReaderFile) :
  rr_inrelease st !! suite_name = None →
  read_repo_information self suite_name true st = (Ok ird, st') →
  ∃ irfname raw contents files_raw,
    rr_disk st' !! irfname = Some raw
    ∧ signed_file raw (rr_keyrings self)
        (negb (rr_trusted st && bool_decide (rr_keyrings self = [])))
      = Ok contents
    ∧ tag_section contents !! "SHA256" = Some files_raw
    ∧ parse_checksums_list (Some files_raw) None = Ok ird.
Proof.
  intros Hc. unfold read_repo_information. rewrite Hc.
  pose proof (fetch_keeps_cache self (inrelease_path suite_name) false st)
    as [_ Htrust].
  destruct (fetch_repo_file_internal _ _ _ _) as [[ex|[irfname|]] st1]; [done| |done].
  simpl in Htrust. rewrite Htrust.
  destruct (rr_disk st1 !! irfname) as [raw|] eqn:Hraw; [|done].
  unfold rbind at 1.
  destruct (signed_file raw _ _) as [ex|contents] eqn:Hsigned; [done|].
  unfold rbind at 1, tag_item.
  destruct (tag_section contents !! "SHA256") as [files_raw|] eqn:Hsha; [|done].
  destruct (parse_checksums_list (Some files_raw) None) as [ex|files] eqn:Hparse;
    [done|].
  intros [= <- <-]. by exists irfname, raw, contents, files_raw.
Qed.

Lemma fetch_set_trusted (self : ReaderSetup) (loc : string) (check trusted : bool)
    (st : ReaderState) :
  fetch_repo_file_internal self loc check (set_trusted trusted st)
  = ((fetch_repo_file_internal self loc check st).1,
     set_trusted trusted (fetch_repo_file_internal self loc check st).2).
Proof.
  unfold fetch_repo_file_internal, set_trusted. simpl.
  destruct (rr_repo_url self) as [url|]; [destruct (Py.falsy url)|];
    repeat break_match; done.
Qed.

(** X17. While the reader has keyrings, marking the repository as
    trusted changes nothing: [InRelease] data is read with a required
    signature, and the outcome is the same with the flag on and off. *)
Theorem trust_needs_no_keyrings (self : ReaderSetup) (suite_name : string)
    (check trusted : bool) (st : ReaderState) :
  rr_keyrings self ≠ [] →
  read_repo_information self suite_name check (set_trusted trusted st)
  = ((read_repo_information self suite_name check st).1,
     set_trusted trusted (read_repo_information self suite_name check st).2).
Proof.
  intros Hkeys. unfold read_repo_information.
  rewrite fetch_set_trusted. simpl rr_inrelease.
  destruct (rr_inrelease st !! suite_name) as [cached|]; [done|].
  destruct (fetch_repo_file_internal _ _ _ st) as [[ex|[irfname|]] st1]; simpl;
    [done| |by destruct check].
  destruct (rr_disk st1 !! irfname) as [raw|]; [|done].
  rewrite (bool_decide_eq_false_2 _ Hkeys), !andb_false_r.
  by destruct (rbind _ _).
Qed.

Lemma read_binary_packages_loop_architecture (self : RepositoryReader)
    (tf : list (gmap string string)) (tf_fname suite component arch : string)
    (deb_type : DebType) (pkgs0 pkgs : list ExternalBinaryPackage)
    (w : list LogRecord) (cs cs' : list string) :
  read_binary_packages_loop self tf tf_fname suite component arch deb_type pkgs0 cs
  = (w, Ok pkgs, cs') →
  Forall (λ pkg, ebp_architecture pkg = arch) pkgs0 →
  Forall (λ pkg, ebp_architecture pkg = arch) pkgs.
Proof.
  revert pkgs0 w cs. induction tf as [|e tf IH]; intros pkgs0 w cs; simpl.
  - by intros [= <- <- <-].
  - destruct (read_binary_stanza self tf_fname suite component arch e cs)
      as [[w1 [ex|o]] cs1] eqn:He; [done|].
    destruct (read_binary_packages_loop _ _ _ _ _ _ _ _ _) as [[w2 r2] cs2]
      eqn:Hloop.
    intros [= <- -> <-] Hpkgs0. apply (IH _ _ _ Hloop).
    destruct o as [pkg|]; [|done].
    apply Forall_app. split; [done|]. constructor; [|done].
    unfold read_binary_stanza in He.
    destruct (rbind _ _) as [ex|[[pkgname pkgversion] arch_name]]; [done|].
    destruct (_ && _); [done|].
    destruct (if bool_decide (arch_name ≠ arch) then _ else _); [|done].
    destruct (build_binary_package self component arch pkgname pkgversion e)
      as [wb [ex|pkg']] eqn:Hb; [done|].
    injection He as <- <- <-.
    by destruct (build_binary_package_spec _ _ _ _ _ _ _ _ Hb) as (_ & _ & ? & _).
Qed.

(** X18. Every package [binary_packages] returns is recorded under the
    requested architecture, also where it was read from the index of
    the shadow architecture, and whatever the list of suites of the
    class holds. *)
Theorem binary_packages_architecture (self : ReaderSetup)
    (suite component arch : string) (shadow_arch : option string)
    (class_suites class_suites' : list string)
    (st st' : ReaderState) (w : list LogRecord)
    (pkgs : list ExternalBinaryPackage) :
  binary_packages self suite component arch shadow_arch class_suites st
  = (w, Ok pkgs, class_suites', st') →
  Forall (λ pkg, ebp_architecture pkg = arch) pkgs.
Proof.
  unfold binary_packages.
  assert (Hread : ∀ index_fname s,
    match rr_disk s !! index_fname with
    | Some content =>
        (read_binary_packages_from_tf (rr_reader self) (tag_file content)
           index_fname suite component arch DEB class_suites, s)
    | None => ([], Raise (OSError index_fname), class_suites, s)
    end = (w, Ok pkgs, class_suites', st') →
    Forall (λ pkg, ebp_architecture pkg = arch) pkgs).
  { intros index_fname s. destruct (rr_disk s !! index_fname); [|done].
    unfold read_binary_packages_from_tf.
    destruct (read_binary_packages_loop _ _ _ _ _ _ _ _ _) as [[w' r'] cs']
      eqn:Hloop.
    intros [= -> -> -> ->].
    by apply (read_binary_packages_loop_architecture _ _ _ _ _ _ _ _ _ _ _ _ Hloop). }
  destruct (index_file self suite _ true st) as [[ex|[index_fname|]] st1];
    [done|by apply Hread|].
  destruct (bool_decide _); [|by intros [= <- <- <- <-]].
  destruct (index_file self suite _ true st1) as [[ex|[index_fname|]] st2];
    [done|by apply Hread|by intros [= <- <- <- <-]].
Qed.

(** X30. [binary_packages] gives no package a list of suites of its
    own: a stanza that gets as far as a package object appends the
    suite to the one list of the class unless it is there already.
    The list keeps the suites of every earlier listing, and after a
    listing with a package it has the suite of the listing. *)
Theorem binary_suites_are_shared (self : ReaderSetup)
    (suite component arch : string) (shadow_arch : option string)
    (class_suites class_suites' : list string) (st st' : ReaderState)
    (w : list LogRecord) (r : Result (list ExternalBinaryPackage)) :
  binary_packages self suite component arch shadow_arch class_suites st
  = (w, r, class_suites', st') →
  (class_suites' = class_suites
   ∨ ((suite ∉ class_suites) ∧ class_suites' = class_suites ++ [suite]))
  ∧ ∀ pkgs, r = Ok pkgs → pkgs ≠ [] → suite ∈ class_suites'.
Proof.
  unfold binary_packages.
  assert (Hread : ∀ index_fname s,
    match rr_disk s !! index_fname with
    | Some content =>
        (read_binary_packages_from_tf (rr_reader self) (tag_file content)
           index_fname suite component arch DEB class_suites, s)
    | None => ([], Raise (OSError index_fname), class_suites, s)
    end = (w, r, class_suites', st') →
    (class_suites' = class_suites
     ∨ ((suite ∉ class_suites) ∧ class_suites' = class_suites ++ [suite]))
    ∧ ∀ pkgs, r = Ok pkgs → pkgs ≠ [] → suite ∈ class_suites').
  { intros index_fname s. destruct (rr_disk s !! index_fname) as [content|].
    - unfold read_binary_packages_from_tf.
      pose proof (loop_class_suites (rr_reader self) index_fname suite component
                    arch DEB (tag_file content) [] class_suites) as Hcs.
      pose proof (loop_listed_suite (rr_reader self) index_fname suite component
                    arch DEB (tag_file content) [] class_suites) as Hin.
      destruct (read_binary_packages_loop _ _ _ _ _ _ _ _ _) as [[w' r'] cs']
        eqn:Hloop.
      intros [= -> -> -> ->]. simpl in Hcs, Hin. split; [done|].
      intros pkgs -> Hne. apply (Hin pkgs eq_refl).
      destruct pkgs; [done|simpl; lia].
    - intros [= <- <- <- <-]. split; [by left|done]. }
  destruct (index_file self suite _ true st) as [[ex|[index_fname|]] st1];
    [intros [= <- <- <- <-]; split; [by left|done] | by apply Hread|].
  destruct (bool_decide _);
    [|intros [= <- <- <- <-]; split; [by left|by intros pkgs [= <-]]].
  destruct (index_file self suite _ true st1) as [[ex|[index_fname|]] st2];
    [intros [= <- <- <- <-]; split; [by left|done] | by apply Hread
    |intros [= <- <- <- <-]; split; [by left|by intros pkgs [= <-]]].
Qed.

End Indices.

Section RepositoryWitness.
#[local] Existing Instance Sample.reader_helpers.
#[local] Existing Instance Sample.repository_access.

Lemma newest_packages_are_listed_witness :
  (∀ n q, make_newest_packages_dict fst snd Sample.candidates !! n = Some q →
          q ∈ Sample.candidates ∧ q.1 = n)
  ∧ (∀ p, p ∈ Sample.candidates →
          is_Some (make_newest_packages_dict fst snd Sample.candidates !! p.1)).
Proof. exact (newest_packages_are_listed fst snd Sample.candidates). Defined.

Lemma newest_packages_are_newest_witness :
  make_newest_packages_dict fst snd Sample.candidates !! "hello"
  = Some ("hello", "2.10-3+b1")
  ∧ apt_version_compare "2.10-3" "2.10-3+b1" ≤ 0.
Proof.
  split; [vm_compute; reflexivity|].
  refine (newest_packages_are_newest fst snd Sample.candidates _ _
            ("hello", "2.10-3") ("hello", "2.10-3+b1") _ _).
  - refine (proj1 (Forall_forall _ _) _).
    repeat first [apply List.Forall_nil | apply List.Forall_cons];
      vm_compute; discriminate.
  - intros a b c Ha Hb Hc. revert c Hc. refine (proj1 (Forall_forall _ _) _).
    revert b Hb. refine (proj1 (Forall_forall _ _) _).
    revert a Ha. refine (proj1 (Forall_forall _ _) _).
    repeat first [apply List.Forall_nil | apply List.Forall_cons];
      vm_compute; congruence.
  - vm_compute. by left.
  - vm_compute. reflexivity.
Defined.

Lemma index_file_is_validated_witness :
  ∃ content ird,
    rr_disk Sample.mirror_read
      !! "/srv/mirror/dists/unstable/main/binary-amd64/Packages.xz" = Some content
    ∧ rr_inrelease Sample.mirror_read !! "unstable" = Some ird
    ∧ (∀ af, af ∈ ird → rf_fname af = "main/binary-amd64/Packages.xz" →
             rf_sha256sum af = sha256sum content)
    ∧ (true = true →
       ∃ af, af ∈ ird ∧ rf_fname af = "main/binary-amd64/Packages.xz"
             ∧ rf_sha256sum af = sha256sum content).
Proof.
  apply (index_file_is_validated Sample.mirror "unstable"
           "main/binary-amd64/Packages.xz" true Sample.mirror_fresh).
  vm_compute. reflexivity.
Defined.

Lemma inrelease_is_signed_witness :
  ∃ irfname raw contents files_raw,
    rr_disk Sample.mirror_read !! irfname = Some raw
    ∧ signed_file raw (rr_keyrings Sample.mirror)
        (negb (rr_trusted Sample.mirror_fresh
               && bool_decide (rr_keyrings Sample.mirror = [])))
      = Ok contents
    ∧ tag_section contents !! "SHA256" = Some files_raw
    ∧ parse_checksums_list (Some files_raw) None = Ok Sample.mirror_listing.
Proof.
  apply (inrelease_is_signed Sample.mirror "unstable" Sample.mirror_fresh).
  - vm_compute. reflexivity.
  - vm_compute. reflexivity.
Defined.

Lemma trust_needs_no_keyrings_witness :
  read_repo_information Sample.mirror "unstable" true
    (set_trusted true Sample.mirror_fresh)
  = ((read_repo_information Sample.mirror "unstable" true Sample.mirror_fresh).1,
     set_trusted true
       (read_repo_information Sample.mirror "unstable" true Sample.mirror_fresh).2).
Proof.
  apply (trust_needs_no_keyrings Sample.mirror "unstable" true true
           Sample.mirror_fresh).
  vm_compute. intros Hnil. discriminate Hnil.
Defined.

Lemma binary_packages_architecture_witness :
  match (binary_packages Sample.mirror "unstable" "main" "amd64" (Some "arm64")
           ["experimental"] Sample.mirror_fresh).1.1.2 with
  | inr pkgs =>
      length pkgs = 2%nat ∧ Forall (λ pkg, ebp_architecture pkg = "amd64") pkgs
  | inl _ => False
  end.
Proof.
  assert (Hfact :
    match (binary_packages Sample.mirror "unstable" "main" "amd64" (Some "arm64")
             ["experimental"] Sample.mirror_fresh).1.1.2 with
    | inr pkgs => bool_decide (length pkgs = 2%nat)
    | inl _ => false
    end = true) by (vm_compute; reflexivity).
  destruct (binary_packages Sample.mirror "unstable" "main" "amd64" (Some "arm64")
              ["experimental"] Sample.mirror_fresh)
    as [[[w [ex|pkgs]] suites'] st'] eqn:Hrun;
    cbv beta iota delta [fst snd] in Hfact |- *; [discriminate Hfact|].
  apply bool_decide_eq_true in Hfact. split; [exact Hfact|].
  exact (binary_packages_architecture _ _ _ _ _ _ _ _ _ _ _ Hrun).
Defined.

Lemma binary_suites_are_shared_witness :
  (binary_packages Sample.mirror "unstable" "main" "amd64" None ["experimental"]
     Sample.mirror_fresh).1.2 = ["experimental"; "unstable"]
  ∧ "unstable" ∈ (binary_packages Sample.mirror "unstable" "main" "amd64" None
                    ["experimental"] Sample.mirror_fresh).1.2.
Proof.
  split; [vm_compute; reflexivity|].
  assert (Hfact :
    match (binary_packages Sample.mirror "unstable" "main" "amd64" None
             ["experimental"] Sample.mirror_fresh).1.1.2 with
    | inr pkgs => negb (bool_decide (pkgs = []))
    | inl _ => false
    end = true) by (vm_compute; reflexivity).
  destruct (binary_packages Sample.mirror "unstable" "main" "amd64" None
              ["experimental"] Sample.mirror_fresh)
    as [[[w [ex|pkgs]] suites'] st'] eqn:Hrun;
    cbv beta iota delta [fst snd] in Hfact |- *; [discriminate Hfact|].
  destruct (binary_suites_are_shared _ _ _ _ _ _ _ _ _ _ _ Hrun) as [_ Hin].
  apply (Hin pkgs eq_refl). intros ->. discriminate Hfact.
Defined.

End RepositoryWitness.

(** ** The architectures of a dependency issue *)

Section DoseIssues.

Lemma remove_first_subset (x a : string) (l : list string) :
  a ∈ remove_first x l → a ∈ l.
Proof.
  induction l as [|y l IH]; simpl; [done|].
  destruct (bool_decide (y = x)).
  - intros Ha. by right.
  - intros [->|Ha]%elem_of_cons; [by left|right; by apply IH].
Qed.

Lemma remove_first_nodup (x : string) (l : list string) :
  NoDup l → x ∉ remove_first x l.
Proof.
  induction 1 as [|y l Hy Hl IH]; simpl; [apply not_elem_of_nil|].
  destruct (bool_decide (y = x)) eqn:Hyx.
  - apply bool_decide_eq_true in Hyx. by subst.
  - apply bool_decide_eq_false in Hyx.
    intros [->|Hx]%elem_of_cons; [done|by apply IH].
Qed.

(** X21. The architectures [set_basic_package_info] gives an issue
    always include the selected architecture; the others are declared
    by the entry, for a source package only [all]; and an [any] the
    entry declares once is not among them. *)
Theorem issue_architectures (arch_name : string) (entry : gmap string string)
    (v : BasicPackageInfo) :
  set_basic_package_info arch_name entry = Ok v →
  ∃ declared,
    entry !! "architecture" = Some declared
    ∧ arch_name ∈ bpi_architectures v
    ∧ (∀ a, a ∈ bpi_architectures v →
            a = arch_name ∨ a ∈ Py.split declared ",")
    ∧ (bpi_package_type v = SOURCE →
       ∀ a, a ∈ bpi_architectures v → a = arch_name ∨ a = "all")
    ∧ (NoDup (Py.split declared ",") → arch_name ≠ "any" →
       "any" ∉ bpi_architectures v).
Proof.
  unfold set_basic_package_info, tag_item.
  destruct (entry !! "package") as [package_name|]; [|done].
  destruct (entry !! "version") as [package_version|]; [|done].
  destruct (entry !! "architecture") as [declared|]; [|done]. simpl.
  intros [= <-]. simpl. exists declared. split; [done|].
  destruct (bool_decide (entry !! "type" = Some "src")).
  - destruct (bool_decide ("all" ∈ Py.split declared ",")) eqn:Hall.
    + apply bool_decide_eq_true in Hall. repeat split.
      * by left.
      * intros a [->|[->|[]%elem_of_nil]%elem_of_cons]%elem_of_cons; auto.
      * intros _ a [->|[->|[]%elem_of_nil]%elem_of_cons]%elem_of_cons; auto.
      * intros _ Hany [Heq|[Heq|[]%elem_of_nil]%elem_of_cons]%elem_of_cons;
          [by subst|discriminate Heq].
    + repeat split.
      * by left.
      * intros a [->|[]%elem_of_nil]%elem_of_cons; auto.
      * intros _ a [->|[]%elem_of_nil]%elem_of_cons; auto.
      * intros _ Hany [Heq|[]%elem_of_nil]%elem_of_cons. by subst.
  - destruct (bool_decide (arch_name ∈ remove_first "any" (Py.split declared ",")))
      eqn:Hin.
    + apply bool_decide_eq_true in Hin. repeat split.
      * done.
      * intros a Ha. right. by apply remove_first_subset in Ha.
      * done.
      * intros Hnd _. by apply remove_first_nodup.
    + repeat split.
      * apply elem_of_app. right. by left.
      * intros a [Ha|Ha]%elem_of_app.
        -- right. by apply remove_first_subset in Ha.
        -- left. by apply list_elem_of_singleton in Ha.
      * done.
      * intros Hnd Hany [Ha|Ha]%elem_of_app.
        -- by apply remove_first_nodup in Ha.
        -- apply list_elem_of_singleton in Ha. by subst.
Qed.

End DoseIssues.

Lemma issue_architectures_witness :
  ∃ declared,
    ({["package" := "hello"; "version" := "2.10-3";
       "architecture" := "any,all"]} : gmap string string) !! "architecture"
    = Some declared
    ∧ "amd64" ∈ ["all"; "amd64"]
    ∧ (∀ a, a ∈ ["all"; "amd64"] → a = "amd64" ∨ a ∈ Py.split declared ",")
    ∧ (BINARY = SOURCE → ∀ a, a ∈ ["all"; "amd64"] → a = "amd64" ∨ a = "all")
    ∧ (NoDup (Py.split declared ",") → "amd64" ≠ "any" →
       "any" ∉ ["all"; "amd64"]).
Proof.
  apply (issue_architectures "amd64"
           {["package" := "hello"; "version" := "2.10-3";
             "architecture" := "any,all"]}
           {| bpi_package_type := BINARY; bpi_package_name := "hello";
              bpi_package_version := "2.10-3";
              bpi_architectures := ["all"; "amd64"] |}).
  vm_compute. reflexivity.
Defined.

(** ** The rules of a room *)

Section FilterRules.
Context `{Glob}.

Lemma match_members_spec (filter_value : FilterValue) (items : list (option string))
    (match_okay : bool) :
  match_members filter_value items match_okay = true →
  (∀ s, Some s ∈ items → filter_entry_matches filter_value s = true)
  ∧ (match_okay = true ∨ ∃ s, Some s ∈ items).
Proof.
  revert match_okay. induction items as [|[evs|] items IH]; intros match_okay; simpl.
  - intros ->. split; [intros s Hs; by apply elem_of_nil in Hs|by left].
  - destruct (filter_entry_matches filter_value evs) eqn:Hm; [|done].
    intros Hrest. destruct (IH _ Hrest) as [Hall _]. split.
    + intros s [[= ->]|Hs]%elem_of_cons; [done|by apply Hall].
    + right. exists evs. by left.
  - intros Hrest. destruct (IH _ Hrest) as [Hall Hsome]. split.
    + intros s [Hs|Hs]%elem_of_cons; [done|by apply Hall].
    + destruct Hsome as [?|[s Hs]]; [by left|right]. exists s. by right.
Qed.

Lemma rule_matches_spec (flat_data : gmap string EventValue)
    (rule : list (string * FilterValue)) (match_okay : bool) :
  rule_matches flat_data rule match_okay = true →
  (∀ key filter_value s,
     (key, filter_value) ∈ rule → present_string flat_data key s →
     filter_entry_matches filter_value s = true)
  ∧ (match_okay = true
     ∨ ∃ key filter_value s,
         (key, filter_value) ∈ rule ∧ present_string flat_data key s).
Proof.
  revert match_okay.
  induction rule as [|[key filter_value] rule IH]; intros match_okay; simpl.
  - intros ->. split; [|by left]. intros k fv s Hk. by apply elem_of_nil in Hk.
  - assert (Hstep : ∀ b,
      (∀ s, present_string flat_data key s →
            filter_entry_matches filter_value s = true) →
      (b = true → match_okay = true ∨ ∃ s, present_string flat_data key s) →
      rule_matches flat_data rule b = true →
      (∀ k fv s, (k, fv) ∈ (key, filter_value) :: rule →
                 present_string flat_data k s → filter_entry_matches fv s = true)
      ∧ (match_okay = true
         ∨ ∃ k fv s, (k, fv) ∈ (key, filter_value) :: rule
                     ∧ present_string flat_data k s)).
    { intros b Hkey Hb Hrest. destruct (IH _ Hrest) as [Hall Hsome]. split.
      - intros k fv s [[= -> ->]|Hin]%elem_of_cons; [apply Hkey|by apply Hall].
      - destruct Hsome as [Hbt|(k & fv & s & Hin & Hs)].
        + destruct (Hb Hbt) as [?|[s Hs]]; [by left|right].
          exists key, filter_value, s. split; [by left|done].
        + right. exists k, fv, s. split; [by right|done]. }
    assert (Hpresent : ∀ s, present_string flat_data key s ↔
              (flat_data !! key = Some (EvStr s) ∧ s ≠ "")
              ∨ (∃ items, flat_data !! key = Some (EvList items) ∧ Some s ∈ items))
      by done.
    destruct (flat_data !! key) as [[s|items|truthy]|] eqn:Hkey; simpl.
    + destruct s as [|c s]; simpl.
      * apply Hstep; [|auto].
        intros s [[[= <-] Hs]|(items & [=] & _)]%Hpresent. done.
      * destruct (filter_entry_matches filter_value (String c s)) eqn:Hm; [|done].
        apply Hstep.
        -- intros s' [[[= <-] _]|(items & [=] & _)]%Hpresent. done.
        -- intros _. right. exists (String c s). apply Hpresent. left. by split.
    + destruct (bool_decide (items = [])) eqn:Hnil.
      * apply bool_decide_eq_true in Hnil as ->. apply Hstep; [|auto].
        intros s [[[=] _]|(items & [= <-] & Hs)]%Hpresent.
        by apply elem_of_nil in Hs.
      * destruct (match_members filter_value items match_okay) eqn:Hm; [|done].
        apply match_members_spec in Hm as [Hall Hsome]. apply Hstep.
        -- intros s [[[=] _]|(items' & [= <-] & Hs)]%Hpresent. by apply Hall.
        -- intros _. destruct Hsome as [?|[s Hs]]; [by left|right].
           exists s. apply Hpresent. right. by exists items.
    + destruct truthy; simpl; (apply Hstep; [|auto]);
        intros s [[[=] _]|(items & [=] & _)]%Hpresent.
    + apply Hstep; [|auto]. intros s [[[=] _]|(items & [=] & _)]%Hpresent.
Qed.

(** X22. When [filter_rules_match_event] accepts an event, one of the
    rules has a key under which the event, with its tag as the value
    of [tag], has a string, and every string the event has under a key
    of that rule matches the filter of the key: in a list, every member
    that is a string has to match. *)
Theorem accepted_event_matches_a_rule (rules : list (list (string * FilterValue)))
    (event : Event) :
  (filter_rules_match_event rules event).1 = true →
  let flat_data := ev_data (filter_rules_match_event rules event).2 in
  flat_data !! "tag" = Some (EvStr (ev_tag event))
  ∧ ∃ rule,
      rule ∈ rules
      ∧ (∃ key filter_value s,
           (key, filter_value) ∈ rule ∧ present_string flat_data key s)
      ∧ (∀ key filter_value s,
           (key, filter_value) ∈ rule → present_string flat_data key s →
           filter_entry_matches filter_value s = true).
Proof.
  unfold filter_rules_match_event. simpl. intros Hmatch.
  split; [by rewrite lookup_insert_eq|].
  apply existsb_exists in Hmatch as (rule & Hin & Hrule).
  apply list_elem_of_In in Hin.
  apply rule_matches_spec in Hrule as [Hall [?|Hsome]]; [done|].
  by exists rule.
Qed.

End FilterRules.

(** ** The calls a session scope makes *)

Section SessionScope.
Context (fails : SessionCall → option Exception).

(** X26. [session_scope] makes one of three sequences of calls: commit
    and close after a body that returned, commit, rollback and close if
    the commit raised, rollback and close after a body that raised; and
    it gives the value of the body only if commit and close raised
    nothing. *)
Theorem session_scope_calls {A} (body : Result A) :
  (session_scope fails body).2
  = match body, fails Commit with
    | inr _, None => [Commit; Close]
    | inr _, Some _ => [Commit; Rollback; Close]
    | inl _, _ => [Rollback; Close]
    end
  ∧ (∀ x, (session_scope fails body).1 = Ok x ↔
          body = Ok x ∧ fails Commit = None ∧ fails Close = None).
Proof.
  unfold session_scope, session_call.
  destruct body as [ex|x], (fails Commit) as [ec|], (fails Rollback) as [er|],
    (fails Close) as [el|]; simpl; (split; [reflexivity|]); intros x0;
    intuition congruence.
Qed.

End SessionScope.

(** ** The labels of the kinds of issues *)

(** X27. [to_string] gives different kinds different labels. *)
Theorem to_string_inj (a b : SynchrotronIssueKind) :
  to_string a = to_string b → a = b.
Proof. destruct a, b; vm_compute; congruence. Qed.

Lemma to_string_inj_witness : MERGE_REQUIRED = MERGE_REQUIRED.
Proof. apply to_string_inj. reflexivity. Defined.
(** ** What the publisher sends *)

Section PublisherProps.
Context `{Glob} `{Messaging}.

(** Writing the tag to the data of the event changes no later
    decision of a filter. *)
Lemma filter_rules_match_event_again (rules rules' : list (list (string * FilterValue)))
    (event : Event) :
  filter_rules_match_event rules (filter_rules_match_event rules' event).2
  = filter_rules_match_event rules event.
Proof.
  unfold filter_rules_match_event. simpl. by rewrite insert_insert_eq.
Qed.

(** X23. The rooms a text goes to do not depend on the tag that the
    filters of the rooms before have written to the event: a room gets
    the text exactly when it has no rule or its rules accept the event
    as it came. *)
Theorem rooms_publish_loop_sends (self : MatrixPublisher)
    (rooms : list (string * list (list (string * FilterValue))))
    (event : Event) (text : string) :
  (rooms_publish_loop self rooms event text).1
  = (λ room, (room.1, mp_message_prefix self +:+ text))
    <$> List.filter
          (λ room, bool_decide (room.2 = [])
                   || (filter_rules_match_event room.2 event).1)
          rooms.
Proof.
  revert event. induction rooms as [|[room_id filter_rules] rooms IH]; intros event;
    [done|].
  cbn [rooms_publish_loop List.filter fst snd].
  destruct filter_rules as [|rule filter_rules].
  - rewrite bool_decide_eq_true_2 by done. cbn [orb].
    destruct (rooms_publish_loop self rooms event text) as [sent event'] eqn:Hloop.
    rewrite fmap_cons. cbn [fst snd]. f_equal.
    specialize (IH event). by rewrite Hloop in IH.
  - set (rules := rule :: filter_rules).
    rewrite bool_decide_eq_false_2 by done. cbn [orb].
    pose proof (filter_rules_match_event_again) as Hagain.
    destruct (filter_rules_match_event rules event) as [matched event1] eqn:Hm.
    destruct (rooms_publish_loop self rooms event1 text) as [sent event'] eqn:Hloop.
    cbn [fst snd].
    assert (Hsent : sent
      = (λ room, (room.1, mp_message_prefix self +:+ text))
        <$> List.filter
              (λ room, bool_decide (room.2 = [])
                       || (filter_rules_match_event room.2 event).1) rooms).
    { specialize (IH event1). rewrite Hloop in IH. cbn [fst] in IH. rewrite IH.
      f_equal. apply filter_ext. intros [r fr]. cbn [snd].
      specialize (Hagain fr rules event). rewrite Hm in Hagain. cbn [snd] in Hagain.
      by rewrite Hagain. }
    destruct matched; [rewrite fmap_cons|]; by rewrite Hsent.
Qed.

Lemma rooms_publish_text_texts (self : MatrixPublisher) (event : Event)
    (text room html : string) :
  (room, html) ∈ (rooms_publish_text self event text).1 →
  html = mp_message_prefix self +:+ text
  ∧ ∃ filter_rules,
      (room, filter_rules) ∈ mp_rooms self
      ∧ (filter_rules = [] ∨ (filter_rules_match_event filter_rules event).1 = true).
Proof.
  unfold rooms_publish_text. destruct (Py.falsy text).
  { intros Hin. by apply elem_of_nil in Hin. }
  rewrite rooms_publish_loop_sends.
  intros ([r fr] & [= -> ->] & Hin)%list_elem_of_fmap. simpl.
  apply list_elem_of_In, filter_In in Hin as [Hin Hok]. simpl in Hok.
  split; [done|]. exists fr. split; [by apply list_elem_of_In|].
  apply orb_true_iff in Hok as [Hnil|Hmatch]; [left|by right].
  by apply bool_decide_eq_true in Hnil.
Qed.

(** X24. An event whose tag is on the blacklist is sent to no room; an
    event without a signature that a trusted key verifies is sent to no
    room either, unless unsigned events are allowed, and then every
    text sent for it starts, after the prefix, with the mark
    [VERIFY_FAILED]. *)
Theorem unverified_events_are_marked (self : MatrixPublisher) (event : SignedEvent)
    (room html : string) :
  (room, html) ∈ (on_event_received self event).1 →
  (ev_tag (se_event event) ∉ EVENT_TAG_BLACKLIST)
  ∧ (signature_trusted self event (se_signatures event) = false →
     mp_allow_unsigned self = true
     ∧ html = mp_message_prefix self +:+ verify_failed_mark
              +:+ tag_data_to_html_message (ev_tag (se_event event))
                    (ev_data (se_event event))).
Proof.
  unfold on_event_received.
  destruct (bool_decide _) eqn:Hblack.
  { intros Hin. by apply elem_of_nil in Hin. }
  apply bool_decide_eq_false in Hblack. intros Hin. split; [done|].
  intros Htrust. rewrite Htrust in Hin.
  destruct (mp_allow_unsigned self); [|by apply elem_of_nil in Hin].
  split; [done|]. by apply rooms_publish_text_texts in Hin as [-> _].
Qed.

(** X25. A signature counts as trusted exactly when the first signer
    whose key the publisher trusts verifies; the signers after it are
    not asked. *)
Theorem signature_trusted_first (self : MatrixPublisher) (event : SignedEvent)
    (signers : list string) :
  signature_trusted self event signers = true ↔
  ∃ before signer key after,
    signers = before ++ signer :: after
    ∧ Forall (λ s, mp_trusted_keys self !! s = None) before
    ∧ mp_trusted_keys self !! signer = Some key
    ∧ verify_event_message signer event key = Ok ().
Proof.
  induction signers as [|signer signers IH]; simpl.
  - split; [done|]. intros (before & s & key & after & Hs & _).
    by destruct before.
  - destruct (mp_trusted_keys self !! signer) as [key|] eqn:Hkey.
    + destruct (verify_event_message signer event key) as [ex|[]] eqn:Hv.
      * split; [done|].
        intros ([|s0 before] & s & k & after & Hs & Hbefore & Hk & Hok).
        -- injection Hs as <- <-. congruence.
        -- injection Hs as <- ->. apply Forall_cons in Hbefore as [Hnone _].
           congruence.
      * split; [|done]. intros _. by exists [], signer, key, signers.
    + rewrite IH. split.
      * intros (before & s & k & after & -> & Hbefore & Hk & Hok).
        exists (signer :: before), s, k, after. split; [done|].
        split; [by constructor|done].
      * intros ([|s0 before] & s & k & after & Hs & Hbefore & Hk & Hok).
        -- injection Hs as <- <-. congruence.
        -- injection Hs as <- ->. apply Forall_cons in Hbefore as [_ Hbefore].
           by exists before, s, k, after.
Qed.

End PublisherProps.
Section PublisherWitness.
#[local] Existing Instance Sample.glob.
#[local] Existing Instance Sample.messaging.

Lemma accepted_event_matches_a_rule_witness :
  let event := se_event (Sample.package_imported []) in
  let rules := [[("repo", FOne "partner")]; [("tag", FOne "_lk.archive.*")]] in
  let flat_data := ev_data (filter_rules_match_event rules event).2 in
  flat_data !! "tag" = Some (EvStr (ev_tag event))
  ∧ ∃ rule,
      rule ∈ rules
      ∧ (∃ key filter_value s,
           (key, filter_value) ∈ rule ∧ present_string flat_data key s)
      ∧ (∀ key filter_value s,
           (key, filter_value) ∈ rule → present_string flat_data key s →
           filter_entry_matches filter_value s = true).
Proof.
  apply (accepted_event_matches_a_rule
           [[("repo", FOne "partner")]; [("tag", FOne "_lk.archive.*")]]
           (se_event (Sample.package_imported []))).
  vm_compute. reflexivity.
Defined.

Lemma unverified_events_are_marked_witness :
  (ev_tag (se_event (Sample.package_imported ["stranger"])) ∉ EVENT_TAG_BLACKLIST)
  ∧ (signature_trusted Sample.publisher (Sample.package_imported ["stranger"])
       ["stranger"] = false →
     mp_allow_unsigned Sample.publisher = true
     ∧ "[lk] " +:+ verify_failed_mark +:+ "event _lk.archive.package-imported"
       = mp_message_prefix Sample.publisher +:+ verify_failed_mark
         +:+ tag_data_to_html_message "_lk.archive.package-imported"
               {["repo" := EvStr "master"]}).
Proof.
  apply (unverified_events_are_marked Sample.publisher
           (Sample.package_imported ["stranger"]) "#archive").
  refine (bool_decide_unpack _ _). vm_compute. exact I.
Defined.

(** The same event, signed by the trusted signer after a stranger, goes
    out without the mark. *)
Example verified_event_is_sent :
  (on_event_received Sample.publisher
     (Sample.package_imported ["stranger"; "lighthouse"])).1
  = [("#archive", "[lk] event _lk.archive.package-imported");
     ("#all", "[lk] event _lk.archive.package-imported")].
Proof. vm_compute. reflexivity. Qed.

End PublisherWitness.

(** ** What a published source package leaves in the memory *)

Section Published.
Context `{Capabilities}.

Lemma returns_bind {A B} (P : A → Prop) (Q : B → Prop) (m : M A) (k : A → M B) :
  returns P m → (∀ x, P x → returns Q (k x)) → returns Q (bind m k).
Proof.
  intros Hm Hk st y st' Hrun.
  apply bind_ok_inv in Hrun as (x & st1 & Hx & Hy).
  exact (Hk x (Hm _ _ _ Hx) _ _ _ Hy).
Qed.

Lemma returns_any {A B} (Q : B → Prop) (m : M A) (k : A → M B) :
  (∀ x, returns Q (k x)) → returns Q (bind m k).
Proof. intros Hk. apply (returns_bind (λ _, True)); [done|auto]. Qed.

Lemma returns_ret {A} (Q : A → Prop) (x : A) : Q x → returns Q (ret x).
Proof. intros HQ st y st' [= <- <-]. done. Qed.

Lemma returns_assign (r : SourceRef) (p : SourcePackage) :
  returns (eq p) (assign r p).
Proof. intros st q st' Hrun. by apply assign_inv in Hrun as [-> _]. Qed.

Lemma returns_assigned {B} (Q : B → Prop) (r : SourceRef) (p q : SourcePackage)
    (k : SourcePackage → M B) :
  same_package p q →
  (∀ q', same_package p q' → returns Q (k q')) →
  returns Q (bind (assign r q) k).
Proof.
  intros Hq Hk. apply (returns_bind (eq q)); [apply returns_assign|].
  intros q' <-. by apply Hk.
Qed.

Ltac same_step spkg :=
  first
    [ apply returns_ret; simpl; assumption
    | apply (returns_assigned _ _ spkg);
        [unfold same_package in *; simpl; tauto|intros ? ?]
    | match goal with
      | |- returns _ (bind (lift _) _) => apply returns_any; intros [? ?]
      | |- returns _ (let '(_, _) := ?x in _) => destruct x
      | |- returns _ (bind (match ?x with _ => _ end) _) =>
          apply (returns_bind (λ res, same_package spkg res.1));
            [destruct x|intros [? ?] ?]
      end ].

Lemma source_fields_same (r : SourceRef) (pkgname : string) (spkg : SourcePackage)
    (src_tf : SourceStanza) :
  returns (λ res, same_package spkg res.1) (source_fields r pkgname spkg src_tf).
Proof.
  assert (Hsame : same_package spkg spkg) by done.
  unfold source_fields. repeat same_step spkg.
Qed.

Lemma verify_new_files_same (self : PackageImporter) (r : SourceRef)
    (dsc_dir : string) (files : list ArchiveFile) (p spkg : SourcePackage)
    (files_todo : list ArchiveFile) :
  same_package p spkg →
  returns (λ res, same_package p res.1)
    (verify_new_files self r dsc_dir files spkg files_todo).
Proof.
  revert spkg files_todo.
  induction files as [|file files IH]; intros spkg files_todo Hsame; simpl.
  - by apply returns_ret.
  - apply (returns_assigned _ _ p); [unfold same_package in *; simpl; tauto|].
    intros q1 H1. apply returns_any. intros [].
    apply (returns_assigned _ _ p); [unfold same_package in *; simpl; tauto|].
    intros q2 H2. by apply IH.
Qed.

Lemma source_files_same (self : PackageImporter) (r : SourceRef)
    (dsc_dir : string) (spkg : SourcePackage) (src_tf : SourceStanza) :
  returns (λ res, same_package spkg res.1.1)
    (source_files self r dsc_dir spkg src_tf).
Proof.
  unfold source_files. apply returns_any. intros [files tf].
  apply (returns_bind (same_package spkg)).
  - destruct (sp_files spkg) eqn:Hfiles; [by apply returns_ret|].
    apply returns_any. intros []. intros st q st' Hrun.
    apply assign_inv in Hrun as [-> _]. done.
  - intros q Hq.
    apply (returns_bind (λ res, same_package spkg res.1)).
    + by apply verify_new_files_same.
    + intros [q' todo] Hq'. by apply returns_ret.
Qed.

Lemma source_route_same (self : PackageImporter) (r : SourceRef)
    (new_policy : NewPolicy) (spkg : SourcePackage) (nq_entry : option NewEntry) :
  returns (λ res, same_package spkg res.1.1)
    (source_route self r new_policy spkg nq_entry).
Proof.
  assert (Hsame : same_package spkg spkg) by done.
  unfold source_route. apply returns_any. intros st0.
  destruct (bool_decide (new_policy = NEVER_NEW)).
  - apply returns_any. intros [].
    apply (returns_assigned _ _ spkg); [done|]. intros q Hq. by apply returns_ret.
  - destruct (_ || _).
    + destruct nq_entry; [by apply returns_ret|].
      apply returns_any. intros []. by apply returns_ret.
    + apply (returns_assigned _ _ spkg); [done|]. intros q Hq. by apply returns_ret.
Qed.

Lemma source_object_named (self : PackageImporter)
    (pkgname version component_name : string) :
  returns (λ res, sp_name res.1.2 = pkgname
                  ∧ (sp_version res.1.2 = version
                     ∨ version_eq (sp_version res.1.2) version = true))
    (source_object self pkgname version component_name).
Proof.
  intros st res st'. unfold source_object, bind, get, lift, ret.
  destruct (one _) as [ex|component]; [done|].
  destruct (one_or_none _) as [ex|[e|]] eqn:Hrows; [done| |].
  - apply one_or_none_some, filter_singleton in Hrows as [_ Hrow].
    apply andb_true_iff in Hrow as [_ Hrow]. simpl in Hrow.
    destruct (db_sources (db st) !! nq_package e) as [p|]; [|done].
    apply andb_true_iff in Hrow as [[Hname Hversion]%andb_true_iff _].
    apply bool_decide_eq_true in Hname.
    intros [= <- <-]. simpl. auto.
  - intros [= <- <-]. simpl. auto.
Qed.

(** The last stage of a package that is published. *)
Lemma source_commit_published (self : PackageImporter) (r : SourceRef)
    (spkg : SourcePackage) (nq_entry : option NewEntry) (src_tf : SourceStanza)
    (st st' : Archive) :
  source_commit self r spkg nq_entry false src_tf st = (Ok (), st') →
  db_version_memory (db st')
  = <[(rss_repo_id (imp_rss self), sp_name spkg) := sp_version spkg]>
      (db_version_memory (db st))
  ∧ db_rss (db st')
    = (λ s, if bool_decide (rss_id s = rss_id (imp_rss self))
            then rss_with_changes_pending true s else s) <$> db_rss (db st).
Proof.
  unfold source_commit, bind, lift, assign, modify_db, ret,
    package_mark_published, set_changes_pending.
  destruct nq_entry as [e|], (ss_pop src_tf "Directory") as [e'|[d tf]],
    (ref_persistent r); simpl; try done; by intros [= <-].
Qed.

(** X4. A source import that returns and was not routed to the NEW
    queue records the package in the version memory: under the name the
    [.dsc] declares stands the version of the package object, which is
    the declared version or, for an object taken from the NEW queue, a
    version that compares equal to it; every other entry of the memory
    is as before, and the suite of the importer has its
    [changes_pending] flag set. *)
Theorem published_source_advances_memory (self : PackageImporter)
    (dsc_fname component_name : string) (new_policy : NewPolicy) (st : Archive) :
  (import_source self dsc_fname component_name new_policy st).1 = Ok () →
  routed_to_new self dsc_fname component_name new_policy st = false →
  ∃ pkgname version src_tf recorded,
    (source_control self dsc_fname st).1 = Ok (pkgname, version, src_tf)
    ∧ (recorded = version ∨ version_eq recorded version = true)
    ∧ db_version_memory
        (db (import_source self dsc_fname component_name new_policy st).2)
      = <[(rss_repo_id (imp_rss self), pkgname) := recorded]>
          (db_version_memory (db st))
    ∧ db_rss (db (import_source self dsc_fname component_name new_policy st).2)
      = (λ s, if bool_decide (rss_id s = rss_id (imp_rss self))
              then rss_with_changes_pending true s else s) <$> db_rss (db st).
Proof.
  remember (import_source self dsc_fname component_name new_policy st) as res
    eqn:Hres.
  intros Hok Hrouted. unfold routed_to_new in Hrouted.
  unfold import_source, bind at 1 in Hres.
  destruct (source_prepare self dsc_fname component_name new_policy st)
    as [[e|[[[[[r spkg] nq_entry] is_new] files_todo] src_tf]] st1] eqn:Hprep;
    [by subst res|].
  simpl in Hrouted. subst is_new.
  assert (H1 : ledger (db st1) = ledger (db st))
    by exact (ledger_run ledger _ _ _ _ (source_prepare_ledger _ _ _ _) Hprep).
  unfold bind at 1 in Hres.
  destruct (place_source_files self (Py.dirname dsc_fname) false files_todo st1)
    as [[e|[]] st2] eqn:Hplace; [by subst res|].
  assert (H2 : ledger (db st2) = ledger (db st1))
    by exact (ledger_run ledger _ _ _ _ (place_source_files_ledger _ _ _ _) Hplace).
  destruct (source_commit self r spkg nq_entry false src_tf st2)
    as [[e|[]] st3] eqn:Hcommit; [by subst res|].
  subst res. simpl. clear Hok.
  apply source_commit_published in Hcommit as [Hmem Hrss].
  rewrite H1 in H2. injection H2 as Hmem2 Hrss2.
  unfold source_prepare in Hprep.
  apply bind_ok_inv in Hprep as ([[pkgname version] tf0] & s0 & Hcontrol & Hprep).
  apply bind_ok_inv in Hprep as ([[r0 p0] nq0] & s1 & Hobject & Hprep).
  apply source_object_named in Hobject as [Hname Hversion]. simpl in Hname, Hversion.
  apply bind_ok_inv in Hprep as ([p1 tf1] & s2 & Hfields & Hprep).
  apply source_fields_same in Hfields as [Hn1 Hv1]. simpl in Hn1, Hv1.
  apply bind_ok_inv in Hprep as ([[p2 todo] tf2] & s3 & Hfiles & Hprep).
  apply source_files_same in Hfiles as [Hn2 Hv2]. simpl in Hn2, Hv2.
  apply bind_ok_inv in Hprep as ([[p3 nq3] new3] & s4 & Hroute & Hprep).
  apply source_route_same in Hroute as [Hn3 Hv3]. simpl in Hn3, Hv3.
  injection Hprep as _ Hp _ _ _ _ _. subst p3.
  exists pkgname, version, tf0, (sp_version spkg).
  rewrite Hcontrol. split; [done|]. split.
  { rewrite Hv3, Hv2, Hv1. done. }
  rewrite Hmem, Hrss, Hmem2, Hrss2. split; [|done].
  by rewrite Hn3, Hn2, Hn1, Hname.
Qed.

End Published.

Section PublishedWitness.
#[local] Existing Instance Sample.capabilities.

Lemma published_source_advances_memory_witness :
  let st := Sample.hello_arrives Sample.hello_dsc_text [(1%nat, "hello", "2.9-1")] in
  let st' := (import_source Sample.importer "/srv/incoming/hello_2.10-3.dsc"
                "main" DEFAULT st).2 in
  ∃ pkgname version src_tf recorded,
    (source_control Sample.importer "/srv/incoming/hello_2.10-3.dsc" st).1
    = Ok (pkgname, version, src_tf)
    ∧ (recorded = version ∨ version_eq recorded version = true)
    ∧ db_version_memory (db st')
      = <[(rss_repo_id (imp_rss Sample.importer), pkgname) := recorded]>
          (db_version_memory (db st))
    ∧ db_rss (db st')
      = (λ s, if bool_decide (rss_id s = rss_id (imp_rss Sample.importer))
              then rss_with_changes_pending true s else s) <$> db_rss (db st).
Proof.
  apply (published_source_advances_memory Sample.importer
           "/srv/incoming/hello_2.10-3.dsc" "main" DEFAULT
           (Sample.hello_arrives Sample.hello_dsc_text [(1%nat, "hello", "2.9-1")])).
  - vm_compute. reflexivity.
  - vm_compute. reflexivity.
Defined.

(** The memory of [hello] moves from 2.9-1 to 2.10-3. *)
Example hello_is_remembered :
  db_version_memory
    (db (import_source Sample.importer "/srv/incoming/hello_2.10-3.dsc" "main"
           DEFAULT
           (Sample.hello_arrives Sample.hello_dsc_text
              [(1%nat, "hello", "2.9-1")])).2)
    !! (1%nat, "hello")
  = Some "2.10-3".
Proof. vm_compute. reflexivity. Qed.

End PublishedWitness.

(** ** The listing of a [Sources] index *)

Section SourcesListing.
Context `{ReaderHelpers} `{!PackageLists} `{RepositoryAccess}.

(** A text begins with each of its prefixes. *)
Lemma startswith_app (a b : string) : Py.startswith (a +:+ b) a = true.
Proof.
  unfold Py.startswith. rewrite chars_app.
  induction (Py.chars a) as [|c l IH]; simpl; [done|].
  by rewrite bool_decide_eq_true_2, IH.
Qed.

(** A relative name joined to a directory lies under the directory. *)
Lemma path_join_under (dir name : string) :
  Py.startswith name "/" = false →
  Py.startswith (if Py.falsy dir then name else Py.path_join dir name) dir = true.
Proof.
  intros Hrel. destruct dir as [|c dir]; [by destruct name|].
  simpl Py.falsy. cbv iota. unfold Py.path_join. rewrite Hrel.
  simpl Py.falsy. simpl orb.
  destruct (Py.endswith (String c dir) "/"); apply startswith_app.
Qed.

Lemma tag_item_lookup (e : gmap string string) (k v : string) :
  tag_item e k = Ok v → e !! k = Some v.
Proof. unfold tag_item. destruct (e !! k); by intros [= <-]. Qed.

Lemma build_source_package_spec (self : ReaderSetup) (component : string)
    (pkgname pkgversion : string) (extra_source_only : bool)
    (e : gmap string string) (w : list SourceLogRecord)
    (pkg : ExternalSourcePackage) :
  build_source_package self component pkgname pkgversion extra_source_only e
  = (w, Ok pkg) →
  esp_name pkg = pkgname ∧ esp_version pkg = pkgversion
  ∧ esp_extra_source_only pkg = extra_source_only
  ∧ e !! "Directory" = Some (esp_directory pkg)
  ∧ Forall (λ f, ∃ text line digest size name,
                   e !! "Checksums-Sha256" = Some text
                   ∧ line ∈ Py.split text newline
                   ∧ split_strip line " " = [digest; size; name]
                   ∧ py_int size = Some (rf_size f)
                   ∧ rf_sha256sum f = digest
                   ∧ rf_fname f = (if Py.falsy (esp_directory pkg) then name
                                   else Py.path_join (esp_directory pkg) name)
                   ∧ (Py.startswith name "/" = false →
                      Py.startswith (rf_fname f) (esp_directory pkg) = true))
           (esp_files pkg).
Proof.
  unfold build_source_package.
  destruct (rbind (tag_item e "Architecture") _) as [ex|p] eqn:Hp; [done|].
  intros [= _ <-]. unfold rbind in Hp.
  destruct (tag_item e "Architecture") as [ex|architecture]; [done|].
  destruct (tag_item e "Format") as [ex|format_version]; [done|].
  destruct (tag_item e "Maintainer") as [ex|maintainer]; [done|].
  destruct (tag_item e "Directory") as [ex|directory] eqn:Hdir; [done|].
  destruct (parse_checksums_list _ _) as [ex|files] eqn:Hfiles; [done|].
  injection Hp as <-. simpl. repeat split.
  { by apply tag_item_lookup. }
  unfold parse_checksums_list in Hfiles.
  destruct (e !! "Checksums-Sha256") as [text|]; [|by injection Hfiles as <-].
  destruct (Py.falsy text); [by injection Hfiles as <-|].
  apply parse_checksum_lines_sound in Hfiles as (added & -> & Hall). simpl.
  eapply Forall_impl; [exact Hall|].
  intros f (line & Hline & digest & size & name & Hsplit & Hsize & Hsha & Hname).
  exists text, line, digest, size, name. repeat split; try done.
  intros Hrel. rewrite Hname. by apply path_join_under.
Qed.

Lemma read_source_stanza_spec (self : ReaderSetup) (index_fname : string)
    (suite component : string) (include_extra_sources : bool)
    (e : gmap string string) (class_suites class_suites' : list string)
    (w : list SourceLogRecord) (r : Result (option ExternalSourcePackage)) :
  read_source_stanza self index_fname suite component include_extra_sources e
    class_suites = (w, r, class_suites') →
  (class_suites' = class_suites
   ∨ ((suite ∉ class_suites) ∧ class_suites' = class_suites ++ [suite]))
  ∧ ∀ pkg, r = Ok (Some pkg) →
      suite ∈ class_suites' ∧ well_listed e pkg
      ∧ (include_extra_sources = false → esp_extra_source_only pkg = false).
Proof.
  unfold read_source_stanza.
  destruct (rbind (tag_item e "Package") _) as [ex|[pkgname pkgversion]] eqn:Hhead.
  { intros [= <- <- <-]. split; [by left|done]. }
  assert (Hnames : e !! "Package" = Some pkgname ∧ pkgname ≠ ""
                   ∧ e !! "Version" = Some pkgversion ∧ pkgversion ≠ "").
  { unfold rbind in Hhead.
    destruct (tag_item e "Package") as [ex|n] eqn:Hn; [done|].
    destruct (tag_item e "Version") as [ex|v] eqn:Hv; [done|].
    apply tag_item_lookup in Hn, Hv.
    destruct n, v; simpl in Hhead; try done; by injection Hhead as <- <-. }
  destruct (negb include_extra_sources && _) eqn:Hskip.
  { intros [= <- <- <-]. split; [by left|done]. }
  destruct (build_source_package _ _ _ _ _ _) as [wb rb] eqn:Hbuild.
  intros [= <- <- <-]. split.
  - destruct (bool_decide (suite ∈ class_suites)) eqn:Hin; [by left|right].
    by apply bool_decide_eq_false in Hin.
  - intros pkg Hpkg. destruct rb as [ex|pkg']; [done|]. injection Hpkg as ->.
    apply build_source_package_spec in Hbuild as (Hn & Hv & Hx & Hd & Hfiles).
    split; [|split].
    + destruct (bool_decide (suite ∈ class_suites)) eqn:Hin.
      * by apply bool_decide_eq_true in Hin.
      * apply elem_of_app. right. by left.
    + unfold well_listed. rewrite Hn, Hv. by destruct Hnames as (? & ? & ? & ?).
    + intros ->. simpl in Hskip. by rewrite Hx.
Qed.

Lemma read_source_packages_loop_spec (self : ReaderSetup)
    (tf : list (gmap string string)) (index_fname : string)
    (suite component : string) (include_extra_sources : bool)
    (pkgs0 : list ExternalSourcePackage) (class_suites class_suites' : list string)
    (w : list SourceLogRecord) (r : Result (list ExternalSourcePackage))
    (Q : ExternalSourcePackage → Prop) :
  (∀ e pkg, e ∈ tf → well_listed e pkg →
            (include_extra_sources = false → esp_extra_source_only pkg = false) →
            Q pkg) →
  read_source_packages_loop self tf index_fname suite component
    include_extra_sources pkgs0 class_suites = (w, r, class_suites') →
  (class_suites' = class_suites
   ∨ ((suite ∉ class_suites) ∧ class_suites' = class_suites ++ [suite]))
  ∧ ∀ pkgs, r = Ok pkgs →
      (Forall Q pkgs0 → Forall Q pkgs)
      ∧ (length pkgs0 < length pkgs → suite ∈ class_suites')%nat.
Proof.
  revert pkgs0 class_suites w.
  induction tf as [|e tf IH]; intros pkgs0 class_suites w HQ; simpl.
  - intros [= <- <- <-]. split; [by left|]. intros pkgs [= <-]. split; [done|lia].
  - destruct (read_source_stanza _ _ _ _ _ _ _) as [[w1 r1] suites1] eqn:Hstanza.
    apply read_source_stanza_spec in Hstanza as [Hsuites1 Hpkg].
    destruct r1 as [ex|o].
    { intros [= <- <- <-]. split; [done|]. intros pkgs [=]. }
    destruct (read_source_packages_loop _ _ _ _ _ _ _ _) as [[w2 r2] suites2]
      eqn:Hloop.
    intros [= <- <- <-]. apply IH in Hloop as [Hsuites2 Hrest];
      [|intros e' pkg Hin; apply HQ; by right]. split.
    + destruct Hsuites1 as [->|[Hnew ->]]; [done|].
      destruct Hsuites2 as [->|[Hnot _]]; [by right|].
      exfalso. apply Hnot. apply elem_of_app. right. by left.
    + intros pkgs Hr. destruct (Hrest pkgs Hr) as [Hall Hlen]. split.
      * intros Hpkgs0. apply Hall. destruct o as [pkg|]; [|done].
        apply Forall_app. split; [done|]. constructor; [|done].
        destruct (Hpkg pkg eq_refl) as (_ & Hwell & Hextra).
        apply (HQ e); [by left|done..].
      * intros Hlt.
        assert (Hkeep : suite ∈ suites1 → suite ∈ suites2).
        { destruct Hsuites2 as [->|[_ ->]]; [done|].
          intros Hin. apply elem_of_app. by left. }
        destruct o as [pkg|].
        -- apply Hkeep. by destruct (Hpkg pkg eq_refl).
        -- by apply Hlen.
Qed.

(** X19. Every package [source_packages] returns was read from a
    stanza of the [Sources] index of the suite and component: its name,
    version and directory are those of the stanza, name and version are
    not empty, and each of its files stands for a line of
    [Checksums-Sha256] with exactly three fields, carrying the digest
    and the size of the line and, as its name,
    [os.path.join(directory, name)] for the name the line gives; that
    name begins with the directory of the package unless the line gives
    an absolute name.  With [include_extra_sources] off, none of the
    packages is marked as extra source only. *)
Theorem source_packages_are_well_listed (self : ReaderSetup)
    (suite component : string) (include_extra_sources : bool)
    (class_suites class_suites' : list string) (st st' : ReaderState)
    (w : list SourceLogRecord) (pkgs : list ExternalSourcePackage) :
  source_packages self suite component include_extra_sources class_suites st
  = (w, Ok pkgs, class_suites', st') →
  pkgs = []
  ∨ ∃ index_fname content,
      rr_disk st' !! index_fname = Some content
      ∧ Forall (λ pkg, (∃ e, e ∈ tag_file content ∧ well_listed e pkg)
                       ∧ (include_extra_sources = false →
                          esp_extra_source_only pkg = false)) pkgs.
Proof.
  unfold source_packages.
  destruct (index_file self suite _ true st) as [[ex|[index_fname|]] st1];
    [done| |intros [= <- <- <- <-]; by left].
  destruct (rr_disk st1 !! index_fname) as [content|] eqn:Hdisk; [|done].
  destruct (read_source_packages_loop _ _ _ _ _ _ _ _) as [[w' r'] suites']
    eqn:Hloop.
  intros [= <- -> <- <-]. right. exists index_fname, content. split; [done|].
  apply (read_source_packages_loop_spec _ _ _ _ _ _ _ _ _ _ _
           (λ pkg, (∃ e, e ∈ tag_file content ∧ well_listed e pkg)
                   ∧ (include_extra_sources = false →
                      esp_extra_source_only pkg = false)))
    in Hloop as [_ Hpkgs].
  - destruct (Hpkgs pkgs eq_refl) as [Hall _]. by apply Hall.
  - intros e pkg Hin Hwell Hextra. split; [by exists e|done].
Qed.

(** X20. [source_packages] gives no package a list of suites of its
    own: it appends the suite to the one list of the class unless it is
    there already.  The list keeps the suites of every earlier listing,
    and after a listing with a package it has the suite of the
    listing. *)
Theorem source_suites_are_shared (self : ReaderSetup)
    (suite component : string) (include_extra_sources : bool)
    (class_suites class_suites' : list string) (st st' : ReaderState)
    (w : list SourceLogRecord) (r : Result (list ExternalSourcePackage)) :
  source_packages self suite component include_extra_sources class_suites st
  = (w, r, class_suites', st') →
  (class_suites' = class_suites
   ∨ ((suite ∉ class_suites) ∧ class_suites' = class_suites ++ [suite]))
  ∧ ∀ pkgs, r = Ok pkgs → pkgs ≠ [] → suite ∈ class_suites'.
Proof.
  unfold source_packages.
  destruct (index_file self suite _ true st) as [[ex|[index_fname|]] st1].
  - intros [= <- <- <- <-]. split; [by left|done].
  - destruct (rr_disk st1 !! index_fname) as [content|].
    + destruct (read_source_packages_loop _ _ _ _ _ _ _ _) as [[w' r'] suites']
        eqn:Hloop.
      intros [= <- <- <- <-].
      apply (read_source_packages_loop_spec _ _ _ _ _ _ _ _ _ _ _ (λ _, True))
        in Hloop as [Hsuites Hpkgs]; [|done].
      split; [done|]. intros pkgs Hr Hne.
      destruct (Hpkgs pkgs Hr) as [_ Hlen]. apply Hlen.
      destruct pkgs; [done|simpl; lia].
    + intros [= <- <- <- <-]. split; [by left|done].
  - intros [= <- <- <- <-]. split; [by left|]. by intros pkgs [= <-].
Qed.

End SourcesListing.

Section SourcesWitness.
#[local] Existing Instance Sample.reader_helpers.
#[local] Existing Instance Sample.package_lists.
#[local] Existing Instance Sample.repository_access.

Lemma source_packages_are_well_listed_witness :
  match source_packages Sample.mirror "unstable" "main" false ["experimental"]
          Sample.mirror_fresh with
  | (_, inr pkgs, _, st') =>
      length pkgs = 1%nat
      ∧ (pkgs = []
         ∨ ∃ index_fname content,
             rr_disk st' !! index_fname = Some content
             ∧ Forall (λ pkg, (∃ e, e ∈ tag_file content ∧ well_listed e pkg)
                              ∧ (false = false → esp_extra_source_only pkg = false))
                      pkgs)
  | (_, inl _, _, _) => False
  end.
Proof.
  assert (Hfact :
    match (source_packages Sample.mirror "unstable" "main" false ["experimental"]
             Sample.mirror_fresh).1.1.2 with
    | inr pkgs => bool_decide (length pkgs = 1%nat)
    | inl _ => false
    end = true) by (vm_compute; reflexivity).
  destruct (source_packages Sample.mirror "unstable" "main" false ["experimental"]
              Sample.mirror_fresh) as [[[w [ex|pkgs]] suites'] st'] eqn:Hrun;
    cbv beta iota delta [fst snd] in Hfact |- *; [discriminate Hfact|].
  apply bool_decide_eq_true in Hfact. split; [exact Hfact|].
  exact (source_packages_are_well_listed _ _ _ _ _ _ _ _ _ _ Hrun).
Defined.

(** The files of the package of [hello] as the index of the sample
    lists them: under the directory of the package. *)
Example hello_sources_files :
  match (source_packages Sample.mirror "unstable" "main" false []
           Sample.mirror_fresh).1.1.2 with
  | inr pkgs => (λ pkg, rf_fname <$> esp_files pkg) <$> pkgs
  | inl _ => []
  end
  = [["pool/main/h/hello/hello_2.10-3.dsc";
      "pool/main/h/hello/hello_2.10.orig.tar.gz"]].
Proof. vm_compute. reflexivity. Qed.

Lemma source_suites_are_shared_witness :
  (source_packages Sample.mirror "unstable" "main" true ["experimental"]
     Sample.mirror_fresh).1.2 = ["experimental"; "unstable"]
  ∧ "unstable" ∈ (source_packages Sample.mirror "unstable" "main" true
                    ["experimental"] Sample.mirror_fresh).1.2.
Proof.
  split; [vm_compute; reflexivity|].
  assert (Hfact :
    match (source_packages Sample.mirror "unstable" "main" true ["experimental"]
             Sample.mirror_fresh).1.1.2 with
    | inr pkgs => bool_decide (length pkgs = 2%nat)
    | inl _ => false
    end = true) by (vm_compute; reflexivity).
  destruct (source_packages Sample.mirror "unstable" "main" true ["experimental"]
              Sample.mirror_fresh) as [[[w [ex|pkgs]] suites'] st'] eqn:Hrun;
    cbv beta iota delta [fst snd] in Hfact |- *; [discriminate Hfact|].
  apply bool_decide_eq_true in Hfact.
  destruct (source_suites_are_shared _ _ _ _ _ _ _ _ _ _ Hrun) as [_ Hin].
  apply (Hin pkgs eq_refl). intros ->. discriminate Hfact.
Defined.

End SourcesWitness.

